(** * CleanVentures: venture membership and financial lifecycle

    A shallow embedding of the stores and handlers that move money and
    membership around a venture:

    - [MockData]       the shared types and the seed ledger of lib/mock-data;
    - [Permissions]    the privilege table and [can] of lib/permissions;
    - [WalletStore]    the per-user wallet reducer of lib/wallet-store;
    - [VenturesStore]  the ventures reducer and its selectors (lib/ventures-store);
    - [VentureDetail]  the financial handlers of the venture detail screen
                       (handlePledgeDeduct, handleMemberRefund,
                       handleVentureCompletion, the request decision).

    Modelling conventions.
    - Amounts are modelled twice.  [MockData], [WalletStore],
      [VenturesStore], [VentureDetail], [WalletTab], [CartStore] and
      [CartScreen] take a currency amount for a whole number, a [Z]; they
      carry the properties in which an amount is added or subtracted once.
      [MockData64], [WalletStore64], [VenturesStore64], [VentureDetail64],
      [CartStore64] and [CartScreen64] render the same code with amounts as
      IEEE-754 doubles, which is what a JS [number] is (the join dialog
      stores [parseFloat] of the text typed), and call the activity feed and
      the notifications as the source does; they carry the properties that
      chain arithmetic.
    - In the whole-number modules [Math.round(remaining * (amount /
      totalPledged))] is computed over the rationals, with
      [Math.round x = floor (x + 1/2)]; in the double modules it is the
      rounding of the double product.
    - A [Record<string, T>] is a [gmap string T]; [m[k] ?? d] is
      [default d (m !! k)] and [{...m, [k]: v}] is [<[k:=v]> m].
    - An optional field ([authUsername?], [status?], [label?]) is an [option].
    - [Date.now()] and [new Date().toISOString()] are read from a [Clock]
      handed to the code that calls them; [Math.random] from a supply of
      strings.
    - A React handler reads the stores as they were rendered (its snapshot)
      and emits dispatches; the dispatches are then applied, in order, by the
      reducers.  A handler is therefore a function from the snapshot to a list
      of [Dispatch]es, and [perform] runs it.  Confirmation dialogs are
      modelled on their confirmed path.
    - Presentation-only fields (avatars, images, ratings, coordinates) and
      the task list are left out; the whole-number [VentureDetail] also
      leaves out the calls to the activity feed and to the notifications,
      which no handler reads back. *)

From Stdlib Require Import ZArith QArith Qround Qfield DecimalString.
From Stdlib Require Floats.
From stdpp Require Import gmap strings list fin_maps.

Local Open Scope Z_scope.

(** [Array.prototype.includes] on a list of values with decidable equality. *)
Definition includes {A : Type} `{EqDecision A} (l : list A) (x : A) : bool :=
  existsb (fun y => bool_decide (y = x)) l.

(** Sum of a numeric projection, as [xs.reduce((sum, x) => sum + f(x), 0)]. *)
Definition sum_by {A : Type} (f : A -> Z) (xs : list A) : Z :=
  fold_left (fun sum x => sum + f x) xs 0.

(** Template-literal interpolation of an integer. *)
Definition show (z : Z) : string := NilZero.string_of_int (Z.to_int z).

(** [Math.round]: the nearest integer, ties towards plus infinity. *)
Definition Math_round (q : Q) : Z := Qfloor (Qplus q (1 # 2)).

(** JS truthiness of an optional string: [undefined] and [""] are falsy. *)
Definition truthy (s : option string) : bool :=
  match s with
  | Some s => negb (String.eqb s "")
  | None => false
  end.

Record Clock := { now : Z; iso : string }.

(* ------------------------------------------------------------------ *)
(** ** lib/mock-data: types and the seed ledger *)

Module MockData.

Inductive VentureStatus := proposed | ongoing | finished.
Inductive UserRole := volunteer | contributing_volunteer | sponsor.
Inductive UserPrivilege := co_owner | admin | buyer | viewer.
Inductive RequestStatus := pending | approved | denied.
Inductive TransactionType := contribution | purchase | cashout | refund.

#[global] Instance VentureStatus_eq_dec : EqDecision VentureStatus.
Proof. solve_decision. Defined.
#[global] Instance UserRole_eq_dec : EqDecision UserRole.
Proof. solve_decision. Defined.
#[global] Instance UserPrivilege_eq_dec : EqDecision UserPrivilege.
Proof. solve_decision. Defined.
#[global] Instance RequestStatus_eq_dec : EqDecision RequestStatus.
Proof. solve_decision. Defined.
#[global] Instance TransactionType_eq_dec : EqDecision TransactionType.
Proof. solve_decision. Defined.

Record Venture := {
  v_id : string;
  v_name : string;
  v_status : VentureStatus;
  v_isFree : bool;
  v_budget : Z;
  v_currentFunding : Z;
  v_eac : Z;
  v_ownerName : string;
}.

Record JoinRequest := {
  jr_id : string;
  jr_ventureId : string;
  jr_username : string;
  jr_authUsername : option string;
  jr_role : UserRole;
  jr_privilege : option UserPrivilege;
  jr_pitch : Z;
  jr_message : string;
  jr_status : option RequestStatus;
}.

Record Transaction := {
  tx_id : string;
  tx_ventureId : string;
  tx_type : TransactionType;
  tx_username : string;
  tx_amount : Z;
  tx_description : string;
  tx_timestamp : string;
}.

Definition MOCK_TRANSACTIONS : list Transaction :=
  [ {| tx_id := "tx1"; tx_ventureId := "v1"; tx_type := contribution;
       tx_username := "Abhijeet P."; tx_amount := 500;
       tx_description := "Owner initial contribution";
       tx_timestamp := "2026-02-15T10:00:00Z" |};
    {| tx_id := "tx2"; tx_ventureId := "v1"; tx_type := contribution;
       tx_username := "Priya M."; tx_amount := 300;
       tx_description := "Contributing volunteer joined";
       tx_timestamp := "2026-02-16T14:30:00Z" |};
    {| tx_id := "tx3"; tx_ventureId := "v1"; tx_type := contribution;
       tx_username := "TechCorp Sponsor"; tx_amount := 2000;
       tx_description := "Sponsor contribution";
       tx_timestamp := "2026-02-17T09:00:00Z" |};
    {| tx_id := "tx4"; tx_ventureId := "v1"; tx_type := purchase;
       tx_username := "Abhijeet P."; tx_amount := -450;
       tx_description := "Ordered 20 pairs of gloves + masks";
       tx_timestamp := "2026-02-18T11:00:00Z" |};
    {| tx_id := "tx5"; tx_ventureId := "v1"; tx_type := contribution;
       tx_username := "Rohan S."; tx_amount := 400;
       tx_description := "Contributing volunteer joined";
       tx_timestamp := "2026-02-19T16:00:00Z" |};
    {| tx_id := "tx6"; tx_ventureId := "v8"; tx_type := contribution;
       tx_username := "Farhan A."; tx_amount := 700;
       tx_description := "Owner initial contribution";
       tx_timestamp := "2026-02-01T08:00:00Z" |};
    {| tx_id := "tx7"; tx_ventureId := "v8"; tx_type := contribution;
       tx_username := "Priya M."; tx_amount := 350;
       tx_description := "Contributing volunteer";
       tx_timestamp := "2026-02-03T10:00:00Z" |} ].

End MockData.

(* ------------------------------------------------------------------ *)
(** ** lib/permissions *)

Module Permissions.
Import MockData.

Inductive Permission :=
| VIEW_VENTURE | VIEW_MEMBERS | VIEW_WALLET | VIEW_REQUESTS | VIEW_TASKS
| VIEW_SUPPLIES | CREATE_TASK | COMPLETE_TASK | ASSIGN_TASK
| CONTRIBUTE_FUNDS | PURCHASE_SUPPLIES | MANAGE_REQUESTS | REMOVE_MEMBER
| CHANGE_MEMBER_ROLE | CHANGE_VENTURE_STATUS | UPLOAD_PHOTO
| SET_COVER_PHOTO | REMOVE_PHOTO.

#[global] Instance Permission_eq_dec : EqDecision Permission.
Proof. solve_decision. Defined.

(** The table is keyed by a privilege or by ['none']; [None] is the key
    ['none'] that [privilege ?? 'none'] produces for a non-member. *)
Definition PRIVILEGE_PERMISSIONS (key : option UserPrivilege) : list Permission :=
  match key with
  | Some co_owner =>
      [ VIEW_VENTURE; VIEW_MEMBERS; VIEW_WALLET; VIEW_REQUESTS;
        VIEW_TASKS; VIEW_SUPPLIES;
        CREATE_TASK; COMPLETE_TASK; ASSIGN_TASK;
        CONTRIBUTE_FUNDS; PURCHASE_SUPPLIES;
        MANAGE_REQUESTS; REMOVE_MEMBER; CHANGE_MEMBER_ROLE;
        CHANGE_VENTURE_STATUS;
        UPLOAD_PHOTO; SET_COVER_PHOTO; REMOVE_PHOTO ]
  | Some admin =>
      [ VIEW_VENTURE; VIEW_MEMBERS; VIEW_WALLET; VIEW_REQUESTS;
        VIEW_TASKS; VIEW_SUPPLIES;
        CREATE_TASK; COMPLETE_TASK; ASSIGN_TASK;
        CONTRIBUTE_FUNDS;
        MANAGE_REQUESTS;
        UPLOAD_PHOTO ]
  | Some buyer =>
      [ VIEW_VENTURE; VIEW_MEMBERS; VIEW_WALLET;
        VIEW_TASKS; VIEW_SUPPLIES;
        CONTRIBUTE_FUNDS; PURCHASE_SUPPLIES;
        UPLOAD_PHOTO ]
  | Some viewer =>
      [ VIEW_VENTURE; VIEW_MEMBERS; VIEW_WALLET;
        VIEW_TASKS; VIEW_SUPPLIES ]
  | None =>
      [ VIEW_VENTURE ]
  end.

Definition can (privilege : option UserPrivilege) (permission : Permission)
    (isOwner : bool) : bool :=
  if isOwner then true
  else includes (PRIVILEGE_PERMISSIONS privilege) permission.

End Permissions.

(* ------------------------------------------------------------------ *)
(** ** lib/wallet-store *)

Module WalletStore.

Inductive WalletTxType := topup | deduct.

Record WalletTransaction := {
  wt_id : string;
  wt_type : WalletTxType;
  wt_amount : Z;
  wt_label : string;
  wt_timestamp : string;
}.

Record UserWallet := {
  balance : Z;
  transactions : list WalletTransaction;
}.

Record State := {
  wallets : gmap string UserWallet;
  loaded : bool;
}.

Inductive Action :=
| LOAD (wallets : gmap string UserWallet)
| TOPUP (authUsername : string) (amount : Z) (label : string)
| DEDUCT (authUsername : string) (amount : Z) (label : option string).

Definition INITIAL_BALANCES : gmap string Z :=
  <["abhijeet" := 5000]> (<["priya" := 3500]> (<["rahul" := 2800]> ∅)).

Definition DEFAULT_INITIAL_BALANCE : Z := 1200.

Definition getOrCreateWallet (wallets : gmap string UserWallet)
    (authUsername : string) : UserWallet :=
  default
    {| balance := default DEFAULT_INITIAL_BALANCE (INITIAL_BALANCES !! authUsername);
       transactions := [] |}
    (wallets !! authUsername).

Definition reducer (clk : Clock) (state : State) (action : Action) : State :=
  match action with
  | LOAD ws => {| wallets := ws; loaded := true |}
  | TOPUP authUsername amount label =>
      let wallet := getOrCreateWallet (wallets state) authUsername in
      let tx := {| wt_id := "tx-" +:+ show (now clk);
                   wt_type := topup;
                   wt_amount := amount;
                   wt_label := label;
                   wt_timestamp := iso clk |} in
      {| wallets := <[authUsername :=
                        {| balance := balance wallet + amount;
                           transactions := tx :: transactions wallet |}]>
                      (wallets state);
         loaded := loaded state |}
  | DEDUCT authUsername amount label =>
      let wallet := getOrCreateWallet (wallets state) authUsername in
      let tx := {| wt_id := "tx-" +:+ show (now clk);
                   wt_type := deduct;
                   wt_amount := amount;
                   wt_label := default "Purchase" label;
                   wt_timestamp := iso clk |} in
      {| wallets := <[authUsername :=
                        {| balance := Z.max 0 (balance wallet - amount);
                           transactions := tx :: transactions wallet |}]>
                      (wallets state);
         loaded := loaded state |}
  end.

Definition getBalance (state : State) (authUsername : string) : Z :=
  balance (getOrCreateWallet (wallets state) authUsername).

Definition getTransactions (state : State) (authUsername : string)
    : list WalletTransaction :=
  transactions (getOrCreateWallet (wallets state) authUsername).

End WalletStore.

(* ------------------------------------------------------------------ *)
(** ** lib/ventures-store *)

Module VenturesStore.
Import MockData.

Record VentureMember := {
  m_id : string;
  m_username : string;
  m_authUsername : option string;
  m_role : UserRole;
  m_privilege : option UserPrivilege;
  m_isOwner : option bool;
}.

Record Pledge := {
  p_authUsername : string;
  p_displayName : string;
  p_amount : Z;
  p_ventureId : string;
}.

(** [Partial<Venture>]: the fields a patch carries. *)
Record VenturePatch := {
  vp_name : option string;
  vp_status : option VentureStatus;
  vp_budget : option Z;
  vp_currentFunding : option Z;
}.

(** [Partial<VentureMember>]. *)
Record MemberPatch := {
  mp_role : option UserRole;
  mp_privilege : option (option UserPrivilege);
}.

(** [{ ...v, ...patch }] *)
Definition patchVenture (v : Venture) (patch : VenturePatch) : Venture :=
  {| v_id := v_id v;
     v_name := default (v_name v) (vp_name patch);
     v_status := default (v_status v) (vp_status patch);
     v_isFree := v_isFree v;
     v_budget := default (v_budget v) (vp_budget patch);
     v_currentFunding := default (v_currentFunding v) (vp_currentFunding patch);
     v_eac := v_eac v;
     v_ownerName := v_ownerName v |}.

(** [{ ...m, ...patch }] *)
Definition patchMember (m : VentureMember) (patch : MemberPatch) : VentureMember :=
  {| m_id := m_id m;
     m_username := m_username m;
     m_authUsername := m_authUsername m;
     m_role := default (m_role m) (mp_role patch);
     m_privilege := default (m_privilege m) (mp_privilege patch);
     m_isOwner := m_isOwner m |}.

(** [{ ...r, status }] *)
Definition withStatus (r : JoinRequest) (status : RequestStatus) : JoinRequest :=
  {| jr_id := jr_id r;
     jr_ventureId := jr_ventureId r;
     jr_username := jr_username r;
     jr_authUsername := jr_authUsername r;
     jr_role := jr_role r;
     jr_privilege := jr_privilege r;
     jr_pitch := jr_pitch r;
     jr_message := jr_message r;
     jr_status := Some status |}.

(** [!r.status || r.status === 'pending'] *)
Definition isPending (r : JoinRequest) : bool :=
  match jr_status r with
  | None => true
  | Some st => bool_decide (st = pending)
  end.

Record State := {
  ventures : list Venture;
  joinRequests : gmap string (list JoinRequest);
  members : gmap string (list VentureMember);
  ventureTxs : gmap string (list Transaction);
  pledges : gmap string (list Pledge);
  loaded : bool;
}.

(** The decision carried by UPDATE_JOIN_REQUEST_STATUS is
    ['approved' | 'denied']. *)
Inductive Decision := Approved | Denied.

Definition statusOf (d : Decision) : RequestStatus :=
  match d with
  | Approved => approved
  | Denied => denied
  end.

Inductive Action :=
| LOAD (ventures : list Venture)
       (joinRequests : gmap string (list JoinRequest))
       (members : gmap string (list VentureMember))
       (ventureTxs : gmap string (list Transaction))
       (pledges : gmap string (list Pledge))
| ADD_VENTURE (venture : Venture) (ownerMember : option VentureMember)
| UPDATE_VENTURE (id : string) (patch : VenturePatch)
| ADD_JOIN_REQUEST (ventureId : string) (request : JoinRequest)
| UPDATE_JOIN_REQUEST_STATUS (ventureId : string) (requestId : string)
                             (status : Decision)
| REJECT_ALL_PENDING_REQUESTS (ventureId : string)
| ADD_MEMBER (ventureId : string) (member : VentureMember)
| REMOVE_MEMBER (ventureId : string) (memberId : string)
| UPDATE_MEMBER (ventureId : string) (memberId : string) (patch : MemberPatch)
| ADD_VENTURE_TX (ventureId : string) (tx : Transaction)
| RECORD_PLEDGE (pledge : Pledge)
| REMOVE_PLEDGE (ventureId : string) (authUsername : string).

(** Field updates, [{ ...state, field: value }]. *)
Definition setVentures (s : State) (x : list Venture) : State :=
  {| ventures := x; joinRequests := joinRequests s; members := members s;
     ventureTxs := ventureTxs s; pledges := pledges s; loaded := loaded s |}.

Definition setJoinRequests (s : State) (x : gmap string (list JoinRequest)) : State :=
  {| ventures := ventures s; joinRequests := x; members := members s;
     ventureTxs := ventureTxs s; pledges := pledges s; loaded := loaded s |}.

Definition setMembers (s : State) (x : gmap string (list VentureMember)) : State :=
  {| ventures := ventures s; joinRequests := joinRequests s; members := x;
     ventureTxs := ventureTxs s; pledges := pledges s; loaded := loaded s |}.

Definition setVentureTxs (s : State) (x : gmap string (list Transaction)) : State :=
  {| ventures := ventures s; joinRequests := joinRequests s; members := members s;
     ventureTxs := x; pledges := pledges s; loaded := loaded s |}.

Definition setPledges (s : State) (x : gmap string (list Pledge)) : State :=
  {| ventures := ventures s; joinRequests := joinRequests s; members := members s;
     ventureTxs := ventureTxs s; pledges := x; loaded := loaded s |}.

Definition reducer (state : State) (action : Action) : State :=
  match action with
  | LOAD vs jrs ms txs ps =>
      {| ventures := vs; joinRequests := jrs; members := ms;
         ventureTxs := txs; pledges := ps; loaded := true |}

  | ADD_VENTURE venture ownerMember =>
      let newMembers :=
        match ownerMember with
        | Some owner => <[v_id venture := [owner]]> (members state)
        | None => members state
        end in
      setMembers (setVentures state (venture :: ventures state)) newMembers

  | UPDATE_VENTURE id patch =>
      setVentures state
        (map (fun v => if bool_decide (v_id v = id) then patchVenture v patch else v)
             (ventures state))

  | ADD_JOIN_REQUEST ventureId request =>
      let existing := default [] (joinRequests state !! ventureId) in
      (* Don't add duplicate requests from the same user *)
      if existsb (fun r => bool_decide (jr_id r = jr_id request)) existing
      then state
      else setJoinRequests state
             (<[ventureId := existing ++ [request]]> (joinRequests state))

  | UPDATE_JOIN_REQUEST_STATUS ventureId requestId status =>
      let existing := default [] (joinRequests state !! ventureId) in
      setJoinRequests state
        (<[ventureId :=
             map (fun r => if bool_decide (jr_id r = requestId)
                           then withStatus r (statusOf status) else r)
                 existing]> (joinRequests state))

  | REJECT_ALL_PENDING_REQUESTS ventureId =>
      let existing := default [] (joinRequests state !! ventureId) in
      setJoinRequests state
        (<[ventureId :=
             map (fun r => if isPending r then withStatus r denied else r)
                 existing]> (joinRequests state))

  | ADD_MEMBER ventureId member =>
      let existing := default [] (members state !! ventureId) in
      if existsb (fun m => bool_decide (m_id m = m_id member)) existing
      then state
      else setMembers state (<[ventureId := existing ++ [member]]> (members state))

  | REMOVE_MEMBER ventureId memberId =>
      let existing := default [] (members state !! ventureId) in
      setMembers state
        (<[ventureId :=
             List.filter (fun m => negb (bool_decide (m_id m = memberId))) existing]>
           (members state))

  | UPDATE_MEMBER ventureId memberId patch =>
      let existing := default [] (members state !! ventureId) in
      setMembers state
        (<[ventureId :=
             map (fun m => if bool_decide (m_id m = memberId)
                           then patchMember m patch else m)
                 existing]> (members state))

  | ADD_VENTURE_TX ventureId tx =>
      let existing := default [] (ventureTxs state !! ventureId) in
      setVentureTxs state (<[ventureId := tx :: existing]> (ventureTxs state))

  | RECORD_PLEDGE pledge =>
      let ventureId := p_ventureId pledge in
      let authUsername := p_authUsername pledge in
      let existing :=
        List.filter (fun p => negb (bool_decide (p_authUsername p = authUsername)))
                    (default [] (pledges state !! ventureId)) in
      setPledges state (<[ventureId := existing ++ [pledge]]> (pledges state))

  | REMOVE_PLEDGE ventureId authUsername =>
      let existing := default [] (pledges state !! ventureId) in
      setPledges state
        (<[ventureId :=
             List.filter (fun p => negb (bool_decide (p_authUsername p = authUsername)))
                         existing]> (pledges state))
  end.

(** The selectors and dispatching callbacks the provider hands out. *)

Definition updateVentureStatus (id : string) (status : VentureStatus) : Action :=
  UPDATE_VENTURE id
    {| vp_name := None; vp_status := Some status;
       vp_budget := None; vp_currentFunding := None |}.

Definition hasRequestedJoin (state : State) (ventureId : string)
    (authUsername : option string) : bool :=
  let requests := default [] (joinRequests state !! ventureId) in
  if truthy authUsername then
    existsb (fun r => bool_decide (jr_authUsername r = authUsername) && isPending r)
            requests
  else 0 <? Z.of_nat (length requests).

Definition getJoinRequestsForVenture (state : State) (ventureId : string)
    : list JoinRequest :=
  default [] (joinRequests state !! ventureId).

Definition getMembersForVenture (state : State) (ventureId : string)
    : list VentureMember :=
  default [] (members state !! ventureId).

Definition getVentureTxs (state : State) (ventureId : string) : list Transaction :=
  default [] (ventureTxs state !! ventureId).

Definition getMemberForUser (state : State) (ventureId authUsername : string)
    : option VentureMember :=
  List.find (fun m => bool_decide (m_authUsername m = Some authUsername))
            (default [] (members state !! ventureId)).

Definition getPledgesForVenture (state : State) (ventureId : string) : list Pledge :=
  default [] (pledges state !! ventureId).

(** [buildInitialVentureTxs]: the seed ledger grouped by venture, in seed
    order. *)
Definition buildInitialVentureTxs : gmap string (list Transaction) :=
  fold_left
    (fun map tx =>
       <[tx_ventureId tx := default [] (map !! tx_ventureId tx) ++ [tx]]> map)
    MOCK_TRANSACTIONS ∅.

End VenturesStore.

(* ------------------------------------------------------------------ *)
(** ** app/venture/[id]: the financial lifecycle handlers *)

Module VentureDetail.
Import MockData VenturesStore.

Record AppUser := {
  username : string;
  displayName : string;
}.

(** What the screen closes over: the venture it shows and the logged-in
    user ([null] when nobody is logged in). *)
Record Screen := {
  venture : Venture;
  authUser : option AppUser;
}.

(** The two stores the handlers write to. *)
Record World := {
  venturesState : VenturesStore.State;
  walletState : WalletStore.State;
}.

Inductive Dispatch :=
| ToVentures (a : VenturesStore.Action)
| ToWallet (a : WalletStore.Action).

Definition dispatch (clk : Clock) (w : World) (d : Dispatch) : World :=
  match d with
  | ToVentures a =>
      {| venturesState := VenturesStore.reducer (venturesState w) a;
         walletState := walletState w |}
  | ToWallet a =>
      {| venturesState := venturesState w;
         walletState := WalletStore.reducer clk (walletState w) a |}
  end.

Definition run (clk : Clock) (w : World) (ds : list Dispatch) : World :=
  fold_left (dispatch clk) ds w.

(** Run a handler: it reads the snapshot [w] and its dispatches are applied
    to [w] in order. *)
Definition perform (clk : Clock) (handler : World -> list Dispatch) (w : World) : World :=
  run clk w (handler w).

Section Handlers.
Variable scr : Screen.
Variable clk : Clock.

(** Called when a join request with a pledge is approved: deduct from
    wallet, record pledge, add venture TX. *)
Definition handlePledgeDeduct (authUsername displayName : string) (amount : Z)
    (w : World) : list Dispatch :=
  [ ToWallet (WalletStore.DEDUCT authUsername amount
                (Some ("Pledge to " +:+ v_name (venture scr))));
    ToVentures (RECORD_PLEDGE
                  {| p_ventureId := v_id (venture scr);
                     p_authUsername := authUsername;
                     p_displayName := displayName;
                     p_amount := amount |});
    ToVentures (ADD_VENTURE_TX (v_id (venture scr))
                  {| tx_id := "tx-pledge-" +:+ show (now clk);
                     tx_ventureId := v_id (venture scr);
                     tx_type := contribution;
                     tx_username := displayName;
                     tx_amount := amount;
                     tx_description := "Pledge on joining";
                     tx_timestamp := iso clk |}) ].

(** Called when a member is removed or leaves: refund their pledge from
    venture wallet. *)
Definition handleMemberRefund (authUsername displayName : string)
    (w : World) : list Dispatch :=
  let pledges := getPledgesForVenture (venturesState w) (v_id (venture scr)) in
  match List.find (fun p => bool_decide (p_authUsername p = authUsername)) pledges with
  | None => []
  | Some pledge =>
      if p_amount pledge <=? 0 then []
      else
        [ ToWallet (WalletStore.TOPUP authUsername (p_amount pledge)
                      ("Refund from " +:+ v_name (venture scr)));
          ToVentures (REMOVE_PLEDGE (v_id (venture scr)) authUsername);
          ToVentures (ADD_VENTURE_TX (v_id (venture scr))
                        {| tx_id := "tx-refund-" +:+ show (now clk);
                           tx_ventureId := v_id (venture scr);
                           tx_type := refund;
                           tx_username := displayName;
                           tx_amount := p_amount pledge;
                           tx_description := "Refund on leaving/removal";
                           tx_timestamp := iso clk |}) ]
  end.

(** [authUser?.username === pledge.authUsername] *)
Definition isLoggedInAs (authUsername : string) : bool :=
  match authUser scr with
  | Some u => bool_decide (username u = authUsername)
  | None => false
  end.

(** [pledge.amount / totalPledged] *)
Definition shareOf (pledge : Pledge) (totalPledged : Z) : Q :=
  Qdiv (inject_Z (p_amount pledge)) (inject_Z totalPledged).

(** [Math.round(remaining * share)] *)
Definition refundAmountOf (remaining : Z) (pledge : Pledge) (totalPledged : Z) : Z :=
  Math_round (Qmult (inject_Z remaining) (shareOf pledge totalPledged)).

(** The body of [pledges.forEach(pledge => ...)] in the payout branch. *)
Definition payoutFor (ventureId : string) (remaining totalPledged : Z)
    (pledge : Pledge) : list Dispatch :=
  let share := shareOf pledge totalPledged in
  let refundAmount := refundAmountOf remaining pledge totalPledged in
  if 0 <? refundAmount then
    (if isLoggedInAs (p_authUsername pledge)
     then [ ToWallet (WalletStore.TOPUP (p_authUsername pledge) refundAmount
                        ("Payout from completed venture " +:+ v_name (venture scr))) ]
     else [])
    ++ [ ToVentures (ADD_VENTURE_TX ventureId
           {| tx_id := "tx-payout-" +:+ show (now clk) +:+ "-" +:+ p_authUsername pledge;
              tx_ventureId := ventureId;
              tx_type := cashout;
              tx_username := p_displayName pledge;
              tx_amount := refundAmount;
              tx_description :=
                "Proportional payout ("
                  +:+ show (Math_round (Qmult share (inject_Z 100)))
                  +:+ "% share)";
              tx_timestamp := iso clk |}) ]
  else [].

(** [Math.max(0, totalContributed - totalSpent)] over a list of
    transactions. *)
Definition remainingOf (txs : list Transaction) : Z :=
  let totalContributed :=
    sum_by tx_amount (List.filter (fun t => bool_decide (tx_type t = contribution)) txs) in
  let totalSpent :=
    sum_by tx_amount (List.filter (fun t => bool_decide (tx_type t = purchase)) txs) in
  Z.max 0 (totalContributed - totalSpent).

(** The transactions [handleVentureCompletion] computes the remaining
    balance from: [MOCK_TRANSACTIONS.filter(t => t.ventureId === ventureId)]. *)
Definition storedTxs (ventureId : string) : list Transaction :=
  List.filter (fun t => bool_decide (tx_ventureId t = ventureId)) MOCK_TRANSACTIONS.

(** Called when venture is marked complete: proportional payout +
    auto-reject pending requests. *)
Definition handleVentureCompletion (ventureId : string) (w : World) : list Dispatch :=
  let pledges := getPledgesForVenture (venturesState w) ventureId in
  let totalPledged := sum_by p_amount pledges in
  let remaining := remainingOf (storedTxs ventureId) in
  (if (0 <? remaining) && (0 <? totalPledged)
   then flat_map (payoutFor ventureId remaining totalPledged) pledges
   else [])
  (* Clear all pledges for this venture *)
  ++ map (fun p => ToVentures (REMOVE_PLEDGE ventureId (p_authUsername p))) pledges.

(** The "Mark Complete" button of the confirmation dialog. *)
Definition markComplete (w : World) : list Dispatch :=
  ToVentures (updateVentureStatus (v_id (venture scr)) finished)
  :: handleVentureCompletion (v_id (venture scr)) w.

(** [decide] of the requests tab, with [onPledgeDeduct = handlePledgeDeduct]
    and [onApprove = member => addMember(venture.id, member)]. *)
Definition decide (req : JoinRequest) (action : Decision) (w : World) : list Dispatch :=
  ToVentures (UPDATE_JOIN_REQUEST_STATUS (v_id (venture scr)) (jr_id req) action)
  :: match action with
     | Denied => []
     | Approved =>
         (match jr_authUsername req with
          | Some authUsername =>
              if (0 <? jr_pitch req) && truthy (jr_authUsername req)
              then handlePledgeDeduct authUsername (jr_username req) (jr_pitch req) w
              else []
          | None => []
          end)
         ++ [ ToVentures (ADD_MEMBER (v_id (venture scr))
                {| m_id := "member-" +:+ jr_id req;
                   m_username := jr_username req;
                   m_authUsername := jr_authUsername req;
                   m_role := jr_role req;
                   m_privilege := jr_privilege req;
                   m_isOwner := None |}) ]
     end.

(** The "Remove"/"Leave" buttons of the members tab, with
    [onMemberRemoved = handleMemberRefund]. *)
Definition removeAndRefund (member : VentureMember) (w : World) : list Dispatch :=
  ToVentures (REMOVE_MEMBER (v_id (venture scr)) (m_id member))
  :: match m_authUsername member with
     | Some authUsername =>
         if truthy (m_authUsername member)
         then handleMemberRefund authUsername (m_username member) w
         else []
     | None => []
     end.

End Handlers.

(** The confirmation dialog's payout summary computes the remaining balance
    from the live ledger, [getVentureTxs(venture.id)]. *)
Definition summaryRemaining (w : World) (ventureId : string) : Z :=
  remainingOf (getVentureTxs (venturesState w) ventureId).

Definition balanceOf (w : World) (authUsername : string) : Z :=
  WalletStore.getBalance (walletState w) authUsername.

Definition pledgesOf (w : World) (ventureId : string) : list Pledge :=
  getPledgesForVenture (venturesState w) ventureId.

Definition ledgerOf (w : World) (ventureId : string) : list Transaction :=
  getVentureTxs (venturesState w) ventureId.

Definition requestsOf (w : World) (ventureId : string) : list JoinRequest :=
  getJoinRequestsForVenture (venturesState w) ventureId.

End VentureDetail.

(* ------------------------------------------------------------------ *)
(** ** Concrete scenarios over the seed data *)

Module Scenario.
Import MockData VenturesStore VentureDetail.

Definition v1 : Venture :=
  {| v_id := "v1"; v_name := "Sayaji Park Cleanup"; v_status := proposed;
     v_isFree := false; v_budget := 5000; v_currentFunding := 3200;
     v_eac := 250; v_ownerName := "Abhijeet P." |}.

Definition v3 : Venture :=
  {| v_id := "v3"; v_name := "Vizag Beach Drive"; v_status := proposed;
     v_isFree := false; v_budget := 12000; v_currentFunding := 4500;
     v_eac := 500; v_ownerName := "Rohan S." |}.

(** The seed join requests of v1, as [buildInitialJoinRequests] stores them
    (all pending). *)
Definition jr1 : JoinRequest :=
  {| jr_id := "jr1"; jr_ventureId := "v1"; jr_username := "Priya M.";
     jr_authUsername := Some "priya"; jr_role := contributing_volunteer;
     jr_privilege := Some buyer; jr_pitch := 300;
     jr_message := "I have done 4 cleanups before and can also help with procurement.";
     jr_status := Some pending |}.

Definition jr2 : JoinRequest :=
  {| jr_id := "jr2"; jr_ventureId := "v1"; jr_username := "Rahul D.";
     jr_authUsername := Some "rahul"; jr_role := volunteer;
     jr_privilege := None; jr_pitch := 0;
     jr_message := "Happy to show up and help however I can!";
     jr_status := Some pending |}.

Definition jr3 : JoinRequest :=
  {| jr_id := "jr3"; jr_ventureId := "v1"; jr_username := "GreenCorp Ltd.";
     jr_authUsername := None; jr_role := sponsor;
     jr_privilege := None; jr_pitch := 2000;
     jr_message := "We would like to sponsor this initiative as part of our CSR program.";
     jr_status := Some pending |}.

(** A request rahul files on v3 from the join dialog, pledging 300. *)
Definition jrRahul : JoinRequest :=
  {| jr_id := "jr-1770000000000"; jr_ventureId := "v3"; jr_username := "Rahul D.";
     jr_authUsername := Some "rahul"; jr_role := contributing_volunteer;
     jr_privilege := None; jr_pitch := 300;
     jr_message := ""; jr_status := Some pending |}.

(** A second request priya files on v1 while [jr1] is still pending. *)
Definition jrPriyaAgain : JoinRequest :=
  {| jr_id := "jr-1770000000000"; jr_ventureId := "v1"; jr_username := "Priya M.";
     jr_authUsername := Some "priya"; jr_role := volunteer;
     jr_privilege := None; jr_pitch := 0;
     jr_message := ""; jr_status := Some pending |}.

Definition abhijeet : AppUser := {| username := "abhijeet"; displayName := "Abhijeet P." |}.
Definition priya : AppUser := {| username := "priya"; displayName := "Priya M." |}.

Definition t0 : Clock := {| now := 1770000000000; iso := "2026-02-02T02:40:00.000Z" |}.
Definition t1 : Clock := {| now := 1770000060000; iso := "2026-02-02T02:41:00.000Z" |}.
Definition t2 : Clock := {| now := 1770000120000; iso := "2026-02-02T02:42:00.000Z" |}.

(** A cut of the seed stores: the ventures v1 and v3, v1's three seed
    requests, the seed ledger, no roster, no pledges, no wallet touched.
    (The stores as the providers load them, all eighteen ventures with
    their rosters, are [Scenario64.start].) *)
Definition seedWorld : World :=
  {| venturesState :=
       {| ventures := [v1; v3];
          joinRequests := <["v1" := [jr1; jr2; jr3]]> ∅;
          members := ∅;
          ventureTxs := buildInitialVentureTxs;
          pledges := ∅;
          loaded := true |};
     walletState := {| WalletStore.wallets := ∅; WalletStore.loaded := true |} |}.

(** abhijeet, owner of v1, looks at v1. *)
Definition ownerOnV1 : Screen := {| venture := v1; authUser := Some abhijeet |}.
(** priya looks at v1. *)
Definition priyaOnV1 : Screen := {| venture := v1; authUser := Some priya |}.
(** Somebody with the right to manage v3 looks at it. *)
Definition ownerOnV3 : Screen := {| venture := v3; authUser := Some abhijeet |}.

(** The owner approves priya's seed request [jr1] (pitch 300). *)
Definition afterApproval : World :=
  perform t0 (decide ownerOnV1 t0 jr1 Approved) seedWorld.

(** ... and then marks v1 complete. *)
Definition afterCompletion : World :=
  perform t1 (markComplete ownerOnV1 t1) afterApproval.

(** rahul's request on v3 is filed and approved, then v3 is completed. *)
Definition v3Requested : World :=
  perform t0 (fun _ => [ToVentures (ADD_JOIN_REQUEST "v3" jrRahul)]) seedWorld.

Definition v3Approved : World :=
  perform t1 (decide ownerOnV3 t1 jrRahul Approved) v3Requested.

Definition v3Completed : World :=
  perform t2 (markComplete ownerOnV3 t2) v3Approved.

End Scenario.

(* ------------------------------------------------------------------ *)
(** ** Notions the properties are stated with *)

Module Reference.
Import MockData VenturesStore.

(** The status transitions the specification allows (its sections 4.3 and
    7): proposed to ongoing, and ongoing to finished.  The registry has no
    such check; this predicate only serves to state what it would mean. *)
Definition allowedTransition (from to : VentureStatus) : bool :=
  match from, to with
  | proposed, ongoing => true
  | ongoing, finished => true
  | _, _ => false
  end.

(** The pending requests of one user on one venture. *)
Definition pendingRequestsOf (state : State) (ventureId authUsername : string)
    : list JoinRequest :=
  List.filter
    (fun r => bool_decide (jr_authUsername r = Some authUsername) && isPending r)
    (getJoinRequestsForVenture state ventureId).

End Reference.

(* ------------------------------------------------------------------ *)
(** ** lib/cart-store *)

Module CartStore.

Inductive CartItemType := product | service.
Inductive CartItemStatus := pending | purchased.

#[global] Instance CartItemType_eq_dec : EqDecision CartItemType.
Proof. solve_decision. Defined.
#[global] Instance CartItemStatus_eq_dec : EqDecision CartItemStatus.
Proof. solve_decision. Defined.

Record CartItem := {
  ci_id : string;
  ci_itemId : string;
  ci_itemType : CartItemType;
  ci_name : string;
  ci_image : string;
  ci_price : Z;
  ci_quantity : Z;
  ci_ventureId : option string;   (* null = personal cart *)
  ci_ventureName : option string;
  ci_status : CartItemStatus;
  ci_addedAt : string;
}.

Record State := {
  items : list CartItem;
  loaded : bool;
}.

Inductive Action :=
| LOAD (items : list CartItem)
| ADD (item : CartItem)
| REMOVE (id : string)
| UPDATE_QTY (id : string) (quantity : Z)
| CHECKOUT_VENTURE (ventureId : string)
| CHECKOUT_PERSONAL.

(** [{ ...i, quantity }] *)
Definition withQuantity (i : CartItem) (quantity : Z) : CartItem :=
  {| ci_id := ci_id i; ci_itemId := ci_itemId i; ci_itemType := ci_itemType i;
     ci_name := ci_name i; ci_image := ci_image i; ci_price := ci_price i;
     ci_quantity := quantity;
     ci_ventureId := ci_ventureId i; ci_ventureName := ci_ventureName i;
     ci_status := ci_status i; ci_addedAt := ci_addedAt i |}.

(** [{ ...i, status }] *)
Definition withStatus (i : CartItem) (status : CartItemStatus) : CartItem :=
  {| ci_id := ci_id i; ci_itemId := ci_itemId i; ci_itemType := ci_itemType i;
     ci_name := ci_name i; ci_image := ci_image i; ci_price := ci_price i;
     ci_quantity := ci_quantity i;
     ci_ventureId := ci_ventureId i; ci_ventureName := ci_ventureName i;
     ci_status := status; ci_addedAt := ci_addedAt i |}.

Definition setItems (s : State) (x : list CartItem) : State :=
  {| items := x; loaded := loaded s |}.

Definition reducer (state : State) (action : Action) : State :=
  match action with
  | LOAD its => {| items := its; loaded := true |}

  | ADD item =>
      (* If same item+venture already in cart, increment qty instead *)
      match List.find
              (fun i => bool_decide (ci_itemId i = ci_itemId item)
                        && bool_decide (ci_ventureId i = ci_ventureId item)
                        && bool_decide (ci_status i = pending))
              (items state) with
      | Some existing =>
          setItems state
            (map (fun i => if bool_decide (ci_id i = ci_id existing)
                           then withQuantity i (ci_quantity i + 1) else i)
                 (items state))
      | None => setItems state (item :: items state)
      end

  | REMOVE id =>
      setItems state
        (List.filter (fun i => negb (bool_decide (ci_id i = id))) (items state))

  | UPDATE_QTY id quantity =>
      setItems state
        (map (fun i => if bool_decide (ci_id i = id)
                       then withQuantity i (Z.max 1 quantity) else i)
             (items state))

  | CHECKOUT_VENTURE ventureId =>
      setItems state
        (map (fun i => if bool_decide (ci_ventureId i = Some ventureId)
                          && bool_decide (ci_status i = pending)
                       then withStatus i purchased else i)
             (items state))

  | CHECKOUT_PERSONAL =>
      setItems state
        (map (fun i => if bool_decide (ci_ventureId i = None)
                          && bool_decide (ci_status i = pending)
                       then withStatus i purchased else i)
             (items state))
  end.

(** [addToCart]: the provider stamps the id, the date and the pending
    status; [rnd] is [Math.random().toString(36).slice(2, 7)]. *)
Definition addToCart (clk : Clock) (rnd : string) (item : CartItem) : Action :=
  ADD {| ci_id := "cart-" +:+ show (now clk) +:+ "-" +:+ rnd;
         ci_itemId := ci_itemId item; ci_itemType := ci_itemType item;
         ci_name := ci_name item; ci_image := ci_image item;
         ci_price := ci_price item; ci_quantity := ci_quantity item;
         ci_ventureId := ci_ventureId item; ci_ventureName := ci_ventureName item;
         ci_status := pending; ci_addedAt := iso clk |}.

Definition getVentureItems (state : State) (ventureId : string) : list CartItem :=
  List.filter (fun i => bool_decide (ci_ventureId i = Some ventureId)) (items state).

Definition getPersonalItems (state : State) : list CartItem :=
  List.filter (fun i => bool_decide (ci_ventureId i = None)) (items state).

Definition pendingCount (state : State) : nat :=
  length (List.filter (fun i => bool_decide (ci_status i = pending)) (items state)).

End CartStore.

(* ------------------------------------------------------------------ *)
(** ** lib/activity-store *)

Module ActivityStore.

Inductive ActivityEventType :=
| venture_created | venture_activated | venture_completed | member_joined
| member_role_changed | task_created | task_completed | funds_contributed
| photo_uploaded.

Record ActivityEvent := {
  ev_id : string;
  ev_ventureId : string;
  ev_type : ActivityEventType;
  ev_icon : string;
  ev_iconColor : string;
  ev_text : string;
  ev_timestamp : string;
}.

Record State := {
  events : gmap string (list ActivityEvent);
  loaded : bool;
}.

Inductive Action :=
| LOAD (events : gmap string (list ActivityEvent))
| ADD_EVENT (ventureId : string) (event : ActivityEvent).

Definition reducer (state : State) (action : Action) : State :=
  match action with
  | LOAD evs => {| events := evs; loaded := true |}
  | ADD_EVENT ventureId event =>
      let existing := default [] (events state !! ventureId) in
      (* Avoid duplicate IDs *)
      if existsb (fun e => bool_decide (ev_id e = ev_id event)) existing
      then state
      else {| events := <[ventureId := take 50 (event :: existing)]> (events state);
              loaded := loaded state |}   (* keep last 50 per venture *)
  end.

Definition iconForType (type : ActivityEventType) : string * string :=
  match type with
  | venture_created => ("🌱", "#2d5016")
  | venture_activated => ("▶️", "#F59E0B")
  | venture_completed => ("✅", "#22C55E")
  | member_joined => ("👤", "#6366F1")
  | member_role_changed => ("🔑", "#8B5CF6")
  | task_created => ("📋", "#0EA5E9")
  | task_completed => ("✔️", "#22C55E")
  | funds_contributed => ("💰", "#F59E0B")
  | photo_uploaded => ("📷", "#EC4899")
  end.

Definition getEvents (state : State) (ventureId : string) : list ActivityEvent :=
  default [] (events state !! ventureId).

(** [emit], through [addEvent]: the id is
    [`ev-${Date.now()}-${Math.random().toString(36).slice(2, 7)}`]. *)
Definition emit (clk : Clock) (rnd : string) (ventureId : string)
    (type : ActivityEventType) (text : string) : Action :=
  ADD_EVENT ventureId
    {| ev_id := "ev-" +:+ show (now clk) +:+ "-" +:+ rnd;
       ev_ventureId := ventureId;
       ev_type := type;
       ev_icon := fst (iconForType type);
       ev_iconColor := snd (iconForType type);
       ev_text := text;
       ev_timestamp := iso clk |}.

End ActivityStore.

(* ------------------------------------------------------------------ *)
(** ** lib/notifications-store *)

Module NotificationsStore.

Inductive NotifType :=
| join_accepted | join_declined | task_assigned | venture_activated
| venture_completed | contribution | general.

Record Notification := {
  n_id : string;
  n_type : NotifType;
  n_title : string;
  n_body : string;
  n_timestamp : Z;
  n_read : bool;
  n_ventureId : option string;
}.

(** [{ ...n, read: true }] *)
Definition asRead (n : Notification) : Notification :=
  {| n_id := n_id n; n_type := n_type n; n_title := n_title n;
     n_body := n_body n; n_timestamp := n_timestamp n; n_read := true;
     n_ventureId := n_ventureId n |}.

(** The state is the list held by [useState]; each callback is the updater
    it hands to [setNotifications]. *)
Definition addNotification (clk : Clock) (type : NotifType) (title body : string)
    (ventureId : option string) (prev : list Notification) : list Notification :=
  {| n_id := "notif-" +:+ show (now clk); n_type := type; n_title := title;
     n_body := body; n_timestamp := now clk; n_read := false;
     n_ventureId := ventureId |} :: prev.

Definition markAllRead (prev : list Notification) : list Notification :=
  map asRead prev.

Definition markRead (id : string) (prev : list Notification) : list Notification :=
  map (fun n => if bool_decide (n_id n = id) then asRead n else n) prev.

Definition unreadCount (notifications : list Notification) : nat :=
  length (List.filter (fun n => negb (n_read n)) notifications).

(** The merge on load: saved takes precedence over seed (by id). *)
Definition mergeSaved (seed saved : list Notification) : list Notification :=
  saved ++ List.filter (fun n => negb (includes (map n_id saved) (n_id n))) seed.

End NotificationsStore.

(* ------------------------------------------------------------------ *)
(** ** app/venture/[id]: standing of the current user and what it unlocks *)

Module Access.
Import MockData VenturesStore Permissions.
Import VentureDetail (World, Screen, AppUser, venturesState, walletState,
  venture, authUser, username, displayName).

Section Standing.
(** [String.prototype.toLowerCase] and [String.prototype.includes]:
    [str_includes s sub] is [s.includes(sub)]. *)
Variable toLowerCase : string -> string.
Variable str_includes : string -> string -> bool.

(** The legacy-owner test shared by the venture screen and the cart:
    [v.ownerName === user.displayName ||
     v.ownerName?.toLowerCase().includes(user.username.toLowerCase())]. *)
Definition ownerNameMatches (v : Venture) (user : AppUser) : bool :=
  bool_decide (v_ownerName v = displayName user)
  || str_includes (toLowerCase (v_ownerName v)) (toLowerCase (username user)).

Variable w : World.
Variable scr : Screen.

Definition myMembership : option VentureMember :=
  match authUser scr with
  | Some u => getMemberForUser (venturesState w) (v_id (venture scr)) (username u)
  | None => None
  end.

Definition isLegacyOwner : bool :=
  match myMembership, authUser scr with
  | None, Some u => ownerNameMatches (venture scr) u
  | _, _ => false
  end.

(** [myMembership?.role ?? (isLegacyOwner ? 'volunteer' : undefined)] *)
Definition myRole : option UserRole :=
  match myMembership with
  | Some m => Some (m_role m)
  | None => if isLegacyOwner then Some volunteer else None
  end.

(** [myMembership?.privilege ?? (isLegacyOwner ? 'co-owner' : null)] *)
Definition myPrivilege : option UserPrivilege :=
  match myMembership with
  | Some m =>
      match m_privilege m with
      | Some p => Some p
      | None => if isLegacyOwner then Some co_owner else None
      end
  | None => if isLegacyOwner then Some co_owner else None
  end.

(** [!!myMembership?.isOwner || !!isLegacyOwner] *)
Definition isOwnerFlag : bool :=
  match myMembership with
  | Some m => default false (m_isOwner m)
  | None => false
  end || isLegacyOwner.

Definition canJoin : bool :=
  negb (bool_decide (is_Some myMembership)) && negb isLegacyOwner
  && (bool_decide (v_status (venture scr) = proposed)
      || bool_decide (v_status (venture scr) = ongoing)).

Definition isCoOwner : bool :=
  bool_decide (myPrivilege = Some co_owner) || isOwnerFlag.

Definition canDo (p : Permission) : bool :=
  can myPrivilege p (isOwnerFlag || bool_decide (myPrivilege = Some co_owner)).

Definition canSeeRequests : bool :=
  isOwnerFlag || isCoOwner || bool_decide (myPrivilege = Some admin).

Definition canSeeWallet : bool :=
  isCoOwner || bool_decide (myPrivilege = Some buyer).

Inductive Tab := mission | requests | tasks | wallet | products | members.

Definition tabs : list Tab :=
  [mission]
  ++ (if canSeeRequests then [requests] else [])
  ++ [tasks]
  ++ (if canSeeWallet then [wallet] else [])
  ++ (if canSeeWallet then [products] else [])
  ++ [members].

(** The status controls the mission tab renders, each with the status it
    hands to [onStatusChange]: "Activate Venture" on a proposed venture and
    "Mark as Complete" on an ongoing one, for who holds [canChangeStatus]. *)
Definition statusControls (canChangeStatus : bool) (v : Venture) : list VentureStatus :=
  (if canChangeStatus && bool_decide (v_status v = proposed) then [ongoing] else [])
  ++ (if canChangeStatus && bool_decide (v_status v = ongoing) then [finished] else []).

(** [canChangeStatus={canDo('CHANGE_VENTURE_STATUS')}] *)
Definition statusChangesOffered : list VentureStatus :=
  statusControls (canDo CHANGE_VENTURE_STATUS) (venture scr).

End Standing.

(** The marketplace sheet: ventures the user may add supplies for. *)
Definition eligibleVenture (w : World) (user : option AppUser) (v : Venture) : bool :=
  if negb (bool_decide (v_status v = proposed)) && negb (bool_decide (v_status v = ongoing))
  then false
  else match user with
       | None => false
       | Some u =>
           match getMemberForUser (venturesState w) (v_id v) (username u) with
           | None => false
           | Some membership =>
               let isOwnerOrCoOwner :=
                 default false (m_isOwner membership)
                 || bool_decide (m_privilege membership = Some co_owner) in
               can (m_privilege membership) PURCHASE_SUPPLIES isOwnerOrCoOwner
           end
       end.

End Access.

(* ------------------------------------------------------------------ *)
(** ** app/venture/[id]: the wallet tab *)

Module WalletTab.
Import MockData VenturesStore.
Import VentureDetail (World, Screen, Dispatch, ToVentures, ToWallet,
  venturesState, walletState, venture, authUser, username).

(** [transactions.reduce((sum, t) => sum + t.amount, 0)], the venture
    balance the wallet tab, the mission tab and the cart display. *)
Definition ventureBalance (w : World) (ventureId : string) : Z :=
  sum_by tx_amount (getVentureTxs (venturesState w) ventureId).

Definition personalBalance (w : World) (scr : Screen) : Z :=
  match authUser scr with
  | Some u => WalletStore.getBalance (walletState w) (username u)
  | None => 0
  end.

(** [handleContribute]; [amount] is what [parseInt(contributeAmount, 10)]
    gave, [None] standing for NaN. *)
Definition handleContribute (scr : Screen) (clk : Clock) (amount : option Z)
    (w : World) : list Dispatch :=
  match amount with
  | None => []
  | Some amount =>
      if bool_decide (amount = 0) || (amount <=? 0) then []
      else if personalBalance w scr <? amount then []
      else
        match authUser scr with
        | Some u =>
            [ ToWallet (WalletStore.DEDUCT (username u) amount
                          (Some ("Contribution to " +:+ v_name (venture scr)))) ]
        | None => []
        end
        ++ [ ToVentures (ADD_VENTURE_TX (v_id (venture scr))
               {| tx_id := "tx-" +:+ show (now clk);
                  tx_ventureId := v_id (venture scr);
                  tx_type := contribution;
                  tx_username := "You";
                  tx_amount := amount;
                  tx_description := "Member contribution";
                  tx_timestamp := iso clk |}) ]
  end.

End WalletTab.

(* ------------------------------------------------------------------ *)
(** ** app/cart: checkout *)

Module CartScreen.
Import MockData VenturesStore.
Import VentureDetail (World, AppUser, Dispatch, ToVentures, ToWallet,
  venturesState, walletState, username, displayName).

(** The three stores the cart screen works on. *)
Record Stores := {
  base : World;
  cartState : CartStore.State;
}.

Inductive CartDispatch :=
| ToBase (d : Dispatch)
| ToCart (a : CartStore.Action).

Definition dispatch (clk : Clock) (s : Stores) (d : CartDispatch) : Stores :=
  match d with
  | ToBase d => {| base := VentureDetail.dispatch clk (base s) d; cartState := cartState s |}
  | ToCart a => {| base := base s; cartState := CartStore.reducer (cartState s) a |}
  end.

Definition run (clk : Clock) (s : Stores) (ds : list CartDispatch) : Stores :=
  fold_left (dispatch clk) ds s.

Definition perform (clk : Clock) (handler : Stores -> list CartDispatch) (s : Stores)
    : Stores :=
  run clk s (handler s).

Record WalletOption := {
  wo_key : string;
  wo_label : string;
  wo_balance : Z;
  wo_ventureId : option string;
}.

Section Checkout.
Variable toLowerCase : string -> string.
Variable str_includes : string -> string -> bool.
Variable cartAuthUser : option AppUser.
Variable selectedWalletKey : string.
Variable s : Stores.

Definition personalBalance : Z :=
  match cartAuthUser with
  | Some u => WalletStore.getBalance (walletState (base s)) (username u)
  | None => 0
  end.

Definition pendingItems : list CartStore.CartItem :=
  List.filter (fun i => bool_decide (CartStore.ci_status i = CartStore.pending))
              (CartStore.items (cartState s)).

(** Wallet options: personal + ventures where user is buyer or co-owner. *)
Definition myVentures : list Venture :=
  match cartAuthUser with
  | None => []
  | Some u =>
      List.filter
        (fun v =>
           if negb (bool_decide (v_status v = proposed))
              && negb (bool_decide (v_status v = ongoing))
           then false
           else
             let member := getMemberForUser (venturesState (base s)) (v_id v) (username u) in
             let isLegacyOwner :=
               negb (bool_decide (is_Some member))
               && Access.ownerNameMatches toLowerCase str_includes v u in
             if isLegacyOwner then true
             else match member with
                  | Some m =>
                      bool_decide (m_privilege m = Some co_owner)
                      || bool_decide (m_privilege m = Some buyer)
                      || default false (m_isOwner m)
                  | None => false
                  end)
        (ventures (venturesState (base s)))
  end.

Definition getVentureBalance (ventureId : string) : Z :=
  sum_by tx_amount (getVentureTxs (venturesState (base s)) ventureId).

Definition walletOptions : list WalletOption :=
  {| wo_key := "personal"; wo_label := "Personal Wallet";
     wo_balance := personalBalance; wo_ventureId := None |}
  :: map (fun v => {| wo_key := v_id v; wo_label := v_name v;
                      wo_balance := getVentureBalance (v_id v);
                      wo_ventureId := Some (v_id v) |})
         myVentures.

Definition walletItems : list CartStore.CartItem :=
  if bool_decide (selectedWalletKey = "personal")
  then List.filter (fun i => bool_decide (CartStore.ci_ventureId i = None)) pendingItems
  else List.filter (fun i => bool_decide (CartStore.ci_ventureId i = Some selectedWalletKey))
                   pendingItems.

Definition selectedWallet : option WalletOption :=
  List.find (fun o => bool_decide (wo_key o = selectedWalletKey)) walletOptions.

Definition subtotal : Z :=
  sum_by (fun i => CartStore.ci_price i * CartStore.ci_quantity i) walletItems.

Definition delivery : Z := if (0 <? Z.of_nat (length walletItems)) then 50 else 0.

Definition total : Z := subtotal + delivery.

Definition hasEnoughFunds : bool :=
  total <=? default 0 (wo_balance <$> selectedWallet).

Definition hasItems : bool := 0 <? Z.of_nat (length walletItems).

(** [handleCheckout], with the confirmation dialog answered "Confirm". *)
Definition handleCheckout (clk : Clock) : list CartDispatch :=
  if negb hasItems || negb hasEnoughFunds then []
  else if bool_decide (selectedWalletKey = "personal") then
    match cartAuthUser with
    | Some u => [ ToBase (ToWallet (WalletStore.DEDUCT (username u) total
                                      (Some "Cart Checkout"))) ]
    | None => []
    end
    ++ [ ToCart CartStore.CHECKOUT_PERSONAL ]
  else
    (* Deduct from venture wallet by adding a negative transaction *)
    [ ToBase (ToVentures (ADD_VENTURE_TX selectedWalletKey
        {| tx_id := "tx-cart-" +:+ show (now clk);
           tx_ventureId := selectedWalletKey;
           tx_type := purchase;
           tx_amount := - total;
           tx_description := "Supplies purchase";
           tx_timestamp := iso clk;
           tx_username := default "Unknown" (displayName <$> cartAuthUser) |}));
      ToCart (CartStore.CHECKOUT_VENTURE selectedWalletKey) ].

End Checkout.

End CartScreen.

(* ------------------------------------------------------------------ *)
(** ** Replaying actions, and what a run of actions adds up to *)

Module Replay.

(** A store after a run of dispatched actions. *)
Definition wallet (clk : Clock) (actions : list WalletStore.Action)
    (state : WalletStore.State) : WalletStore.State :=
  fold_left (WalletStore.reducer clk) actions state.

Definition ventures (actions : list VenturesStore.Action)
    (state : VenturesStore.State) : VenturesStore.State :=
  fold_left VenturesStore.reducer actions state.

Definition cart (actions : list CartStore.Action)
    (state : CartStore.State) : CartStore.State :=
  fold_left CartStore.reducer actions state.

Definition activity (actions : list ActivityStore.Action)
    (state : ActivityStore.State) : ActivityStore.State :=
  fold_left ActivityStore.reducer actions state.

(** LOAD replaces a store wholesale; every other action edits it. *)
Definition walletEdit (a : WalletStore.Action) : bool :=
  match a with
  | WalletStore.LOAD _ => false
  | _ => true
  end.

Definition venturesEdit (a : VenturesStore.Action) : bool :=
  match a with
  | VenturesStore.LOAD _ _ _ _ _ => false
  | _ => true
  end.

Definition cartEdit (a : CartStore.Action) : bool :=
  match a with
  | CartStore.LOAD _ => false
  | _ => true
  end.

(** What an action asks to add to (or take from) one user's wallet. *)
Definition walletDelta (authUsername : string) (a : WalletStore.Action) : Z :=
  match a with
  | WalletStore.TOPUP u amount _ => if bool_decide (u = authUsername) then amount else 0
  | WalletStore.DEDUCT u amount _ => if bool_decide (u = authUsername) then - amount else 0
  | WalletStore.LOAD _ => 0
  end.

(** Whether an action writes one user's wallet. *)
Definition walletTouches (authUsername : string) (a : WalletStore.Action) : bool :=
  match a with
  | WalletStore.TOPUP u _ _ => bool_decide (u = authUsername)
  | WalletStore.DEDUCT u _ _ => bool_decide (u = authUsername)
  | WalletStore.LOAD _ => false
  end.


Definition activityEdit (a : ActivityStore.Action) : bool :=
  match a with
  | ActivityStore.LOAD _ => false
  | _ => true
  end.

(** A cart action that keeps quantities at one or more when they were: any
    edit, an ADD only when the item added has a quantity of at least one. *)
Definition cartKeepsQuantities (a : CartStore.Action) : bool :=
  match a with
  | CartStore.LOAD _ => false
  | CartStore.ADD item => 1 <=? CartStore.ci_quantity item
  | _ => true
  end.

(** [r'] is the request [r], possibly with a decision written into its
    status. *)
Definition sameRequestDecided (r r' : MockData.JoinRequest) : Prop :=
  r' = r ∨ ∃ d, r' = VenturesStore.withStatus r (VenturesStore.statusOf d).

End Replay.

(* ------------------------------------------------------------------ *)
(** ** More scenarios *)

Module Examples.
Import MockData VenturesStore.
Import VentureDetail (World, Screen, AppUser).

(** The two string built-ins on ASCII text. *)
Definition asciiLower (c : Ascii.ascii) : Ascii.ascii :=
  let n := Ascii.nat_of_ascii c in
  if (65 <=? n)%nat && (n <=? 90)%nat then Ascii.ascii_of_nat (n + 32) else c.

Fixpoint toLowerCase (s : string) : string :=
  match s with
  | EmptyString => EmptyString
  | String c rest => String (asciiLower c) (toLowerCase rest)
  end.

Definition str_includes (s sub : string) : bool :=
  match String.index 0 sub s with
  | Some _ => true
  | None => false
  end.

(** The users of the auth store. *)
Definition abhijeet : AppUser :=
  {| VentureDetail.username := "abhijeet"; VentureDetail.displayName := "Abhijeet Patil" |}.
Definition priya : AppUser :=
  {| VentureDetail.username := "priya"; VentureDetail.displayName := "Priya Mehta" |}.
Definition rahul : AppUser :=
  {| VentureDetail.username := "rahul"; VentureDetail.displayName := "Rahul Desai" |}.

Definition onV1 (user : AppUser) : Screen :=
  {| VentureDetail.venture := Scenario.v1; VentureDetail.authUser := Some user |}.

(** The seed roster of v1 (abhijeet owner, priya co-owner, rahul admin,
    Deepa viewer without an account). *)
Definition v1Members : list VentureMember :=
  [ {| m_id := "owner-v1"; m_username := "Abhijeet P."; m_authUsername := Some "abhijeet";
       m_role := volunteer; m_privilege := Some co_owner; m_isOwner := Some true |};
    {| m_id := "m-v1-priya"; m_username := "Priya M."; m_authUsername := Some "priya";
       m_role := contributing_volunteer; m_privilege := Some co_owner; m_isOwner := None |};
    {| m_id := "m-v1-rahul"; m_username := "Rahul D."; m_authUsername := Some "rahul";
       m_role := volunteer; m_privilege := Some admin; m_isOwner := None |};
    {| m_id := "m-v1-deepa"; m_username := "Deepa N."; m_authUsername := None;
       m_role := volunteer; m_privilege := Some viewer; m_isOwner := None |} ].

(** The seed world with the seed roster of v1 in place. *)
Definition rosterWorld : World :=
  {| VentureDetail.venturesState :=
       reducer (VentureDetail.venturesState Scenario.seedWorld)
               (LOAD [Scenario.v1; Scenario.v3]
                     (<["v1" := [Scenario.jr1; Scenario.jr2; Scenario.jr3]]> ∅)
                     (<["v1" := v1Members]> ∅)
                     buildInitialVentureTxs
                     ∅);
     VentureDetail.walletState := VentureDetail.walletState Scenario.seedWorld |}.

(** Gloves and trash bags, as the marketplace puts them in a cart. *)
Definition gloves (ventureId : option string) : CartStore.CartItem :=
  {| CartStore.ci_id :=
       match ventureId with
       | Some _ => "cart-1770000000000-a1b2c"
       | None => "cart-1770000060000-g5h6i"
       end;
     CartStore.ci_itemId := "p1";
     CartStore.ci_itemType := CartStore.product;
     CartStore.ci_name := "Heavy Duty Gloves"; CartStore.ci_image := "";
     CartStore.ci_price := 45; CartStore.ci_quantity := 4;
     CartStore.ci_ventureId := ventureId;
     CartStore.ci_ventureName :=
       match ventureId with Some _ => Some "Sayaji Park Cleanup" | None => None end;
     CartStore.ci_status := CartStore.pending;
     CartStore.ci_addedAt := "2026-02-02T02:40:00.000Z" |}.

Definition trashBags (ventureId : option string) : CartStore.CartItem :=
  {| CartStore.ci_id := "cart-1770000030000-d3e4f"; CartStore.ci_itemId := "p5";
     CartStore.ci_itemType := CartStore.product;
     CartStore.ci_name := "Trash Bags (Pack of 20)"; CartStore.ci_image := "";
     CartStore.ci_price := 80; CartStore.ci_quantity := 2;
     CartStore.ci_ventureId := ventureId;
     CartStore.ci_ventureName :=
       match ventureId with Some _ => Some "Sayaji Park Cleanup" | None => None end;
     CartStore.ci_status := CartStore.pending;
     CartStore.ci_addedAt := "2026-02-02T02:40:30.000Z" |}.

(** A cart with supplies for v1 and gloves for oneself. *)
Definition cart : CartStore.State :=
  {| CartStore.items := [ trashBags (Some "v1"); gloves (Some "v1"); gloves None ];
     CartStore.loaded := true |}.

Definition cartStores : CartScreen.Stores :=
  {| CartScreen.base := rosterWorld; CartScreen.cartState := cart |}.

End Examples.

(* ------------------------------------------------------------------ *)
(** ** lib/ventures-store: the seed and the merge on load *)

Module VenturesLoad.
Import MockData VenturesStore.

(** The seed ventures of lib/mock-data. *)
Definition MOCK_VENTURES : list Venture :=
  [
    {| v_id := "v1"; v_name := "Sayaji Park Cleanup"; v_status := proposed;
       v_isFree := false; v_budget := 5000; v_currentFunding := 3200;
       v_eac := 250; v_ownerName := "Abhijeet P." |};
    {| v_id := "v3"; v_name := "Vizag Beach Drive"; v_status := proposed;
       v_isFree := false; v_budget := 12000; v_currentFunding := 4500;
       v_eac := 500; v_ownerName := "Rohan S." |};
    {| v_id := "v6"; v_name := "Lodhi Garden Restoration"; v_status := proposed;
       v_isFree := false; v_budget := 18000; v_currentFunding := 7200;
       v_eac := 600; v_ownerName := "Neha G." |};
    {| v_id := "v7"; v_name := "Juhu Beach Sunday Clean"; v_status := proposed;
       v_isFree := true; v_budget := 0; v_currentFunding := 0;
       v_eac := 0; v_ownerName := "Sunita R." |};
    {| v_id := "v2"; v_name := "LBS Road Cleanup"; v_status := ongoing;
       v_isFree := true; v_budget := 0; v_currentFunding := 0;
       v_eac := 0; v_ownerName := "Priya M." |};
    {| v_id := "v5"; v_name := "Hubli Old Town Revival"; v_status := ongoing;
       v_isFree := true; v_budget := 0; v_currentFunding := 0;
       v_eac := 0; v_ownerName := "Kiran B." |};
    {| v_id := "v8"; v_name := "Sabarmati Riverfront Drive"; v_status := ongoing;
       v_isFree := false; v_budget := 9000; v_currentFunding := 6300;
       v_eac := 350; v_ownerName := "Farhan A." |};
    {| v_id := "v9"; v_name := "Bengaluru IT Corridor Greenway"; v_status := ongoing;
       v_isFree := false; v_budget := 22000; v_currentFunding := 18500;
       v_eac := 800; v_ownerName := "Aditya V." |};
    {| v_id := "v13"; v_name := "Pune FC Road Cleanup"; v_status := proposed;
       v_isFree := true; v_budget := 0; v_currentFunding := 0;
       v_eac := 0; v_ownerName := "Tanvi D." |};
    {| v_id := "v14"; v_name := "Chandigarh Rose Garden Restore"; v_status := proposed;
       v_isFree := false; v_budget := 14000; v_currentFunding := 3500;
       v_eac := 450; v_ownerName := "Harpreet S." |};
    {| v_id := "v15"; v_name := "Kochi Backwaters Bank Clean"; v_status := proposed;
       v_isFree := false; v_budget := 20000; v_currentFunding := 8000;
       v_eac := 700; v_ownerName := "Ananya M." |};
    {| v_id := "v16"; v_name := "Mysuru Palace Road Sweep"; v_status := ongoing;
       v_isFree := true; v_budget := 0; v_currentFunding := 0;
       v_eac := 0; v_ownerName := "Ravi K." |};
    {| v_id := "v17"; v_name := "Bhopal Upper Lake Drive"; v_status := ongoing;
       v_isFree := false; v_budget := 16000; v_currentFunding := 11200;
       v_eac := 550; v_ownerName := "Shweta P." |};
    {| v_id := "v18"; v_name := "Amritsar Golden Temple Periphery"; v_status := ongoing;
       v_isFree := true; v_budget := 0; v_currentFunding := 0;
       v_eac := 0; v_ownerName := "Gurpreet B." |};
    {| v_id := "v4"; v_name := "Surat Canal Restoration"; v_status := finished;
       v_isFree := false; v_budget := 8000; v_currentFunding := 8000;
       v_eac := 400; v_ownerName := "Meera K." |};
    {| v_id := "v10"; v_name := "Kolkata Maidan Sweep"; v_status := finished;
       v_isFree := true; v_budget := 0; v_currentFunding := 0;
       v_eac := 0; v_ownerName := "Debashish R." |};
    {| v_id := "v11"; v_name := "Jaipur Pink City Wall Clean"; v_status := finished;
       v_isFree := false; v_budget := 15000; v_currentFunding := 15000;
       v_eac := 750; v_ownerName := "Kavya S." |};
    {| v_id := "v12"; v_name := "Goa Palolem Shore Restore"; v_status := finished;
       v_isFree := true; v_budget := 0; v_currentFunding := 0;
       v_eac := 0; v_ownerName := "Marco F." |} ].

(** The seed join requests of lib/mock-data (no status yet). *)
Definition MOCK_JOIN_REQUESTS : list JoinRequest :=
  [
    {| jr_id := "jr1"; jr_ventureId := "v1";
       jr_username := "Priya M.";
       jr_authUsername := Some "priya";
       jr_role := contributing_volunteer;
       jr_privilege := Some buyer;
       jr_pitch := 300;
       jr_message := "I have done 4 cleanups before and can also help with procurement.";
       jr_status := None |};
    {| jr_id := "jr2"; jr_ventureId := "v1";
       jr_username := "Rahul D.";
       jr_authUsername := Some "rahul";
       jr_role := volunteer;
       jr_privilege := None;
       jr_pitch := 0;
       jr_message := "Happy to show up and help however I can!";
       jr_status := None |};
    {| jr_id := "jr3"; jr_ventureId := "v1";
       jr_username := "GreenCorp Ltd.";
       jr_authUsername := None;
       jr_role := sponsor;
       jr_privilege := None;
       jr_pitch := 2000;
       jr_message := "We would like to sponsor this initiative as part of our CSR program.";
       jr_status := None |};
    {| jr_id := "jr4"; jr_ventureId := "v6";
       jr_username := "Arjun T.";
       jr_authUsername := None;
       jr_role := volunteer;
       jr_privilege := None;
       jr_pitch := 0;
       jr_message := "I visit Lodhi Garden every morning. Would love to help restore it.";
       jr_status := None |} ].

(** Seed initial members per venture. *)
Definition buildInitialMembers : gmap string (list VentureMember) :=
  <["v1" :=
    [
      {| m_id := "owner-v1"; m_username := "Abhijeet P.";
         m_authUsername := Some "abhijeet";
         m_role := volunteer; m_privilege := Some co_owner;
         m_isOwner := Some true |};
      {| m_id := "m-v1-priya"; m_username := "Priya M.";
         m_authUsername := Some "priya";
         m_role := contributing_volunteer; m_privilege := Some co_owner;
         m_isOwner := None |};
      {| m_id := "m-v1-rahul"; m_username := "Rahul D.";
         m_authUsername := Some "rahul";
         m_role := volunteer; m_privilege := Some admin;
         m_isOwner := None |};
      {| m_id := "m-v1-deepa"; m_username := "Deepa N.";
         m_authUsername := None;
         m_role := volunteer; m_privilege := Some viewer;
         m_isOwner := None |} ]]> (
  <["v2" :=
    [
      {| m_id := "owner-v2"; m_username := "Priya M.";
         m_authUsername := Some "priya";
         m_role := volunteer; m_privilege := Some co_owner;
         m_isOwner := Some true |};
      {| m_id := "m-v2-abhijeet"; m_username := "Abhijeet P.";
         m_authUsername := Some "abhijeet";
         m_role := volunteer; m_privilege := Some viewer;
         m_isOwner := None |};
      {| m_id := "m-v2-rahul"; m_username := "Rahul D.";
         m_authUsername := Some "rahul";
         m_role := contributing_volunteer; m_privilege := Some buyer;
         m_isOwner := None |};
      {| m_id := "m-v2-anita"; m_username := "Anita R.";
         m_authUsername := None;
         m_role := contributing_volunteer; m_privilege := Some buyer;
         m_isOwner := None |} ]]> (
  <["v3" :=
    [
      {| m_id := "owner-v3"; m_username := "Abhijeet P.";
         m_authUsername := Some "abhijeet";
         m_role := volunteer; m_privilege := Some co_owner;
         m_isOwner := Some true |};
      {| m_id := "m-v3-priya"; m_username := "Priya M.";
         m_authUsername := Some "priya";
         m_role := volunteer; m_privilege := Some viewer;
         m_isOwner := None |};
      {| m_id := "m-v3-rahul"; m_username := "Rahul D.";
         m_authUsername := Some "rahul";
         m_role := volunteer; m_privilege := Some admin;
         m_isOwner := None |};
      {| m_id := "m-v3-suresh"; m_username := "Suresh K.";
         m_authUsername := None;
         m_role := volunteer; m_privilege := Some viewer;
         m_isOwner := None |} ]]> (
  <["v5" :=
    [
      {| m_id := "owner-v5"; m_username := "Kiran B.";
         m_authUsername := None;
         m_role := volunteer; m_privilege := Some co_owner;
         m_isOwner := Some true |};
      {| m_id := "m-v5-abhijeet"; m_username := "Abhijeet P.";
         m_authUsername := Some "abhijeet";
         m_role := sponsor; m_privilege := Some co_owner;
         m_isOwner := None |};
      {| m_id := "m-v5-priya"; m_username := "Priya M.";
         m_authUsername := Some "priya";
         m_role := volunteer; m_privilege := Some admin;
         m_isOwner := None |};
      {| m_id := "m-v5-rahul"; m_username := "Rahul D.";
         m_authUsername := Some "rahul";
         m_role := volunteer; m_privilege := Some viewer;
         m_isOwner := None |} ]]> (
  <["v6" :=
    [
      {| m_id := "owner-v6"; m_username := "Meera K.";
         m_authUsername := None;
         m_role := volunteer; m_privilege := Some co_owner;
         m_isOwner := Some true |};
      {| m_id := "m-v6-abhijeet"; m_username := "Abhijeet P.";
         m_authUsername := Some "abhijeet";
         m_role := contributing_volunteer; m_privilege := Some co_owner;
         m_isOwner := None |};
      {| m_id := "m-v6-farhan"; m_username := "Farhan A.";
         m_authUsername := None;
         m_role := volunteer; m_privilege := Some viewer;
         m_isOwner := None |} ]]> (
  <["v7" :=
    [
      {| m_id := "owner-v7"; m_username := "Rahul D.";
         m_authUsername := Some "rahul";
         m_role := volunteer; m_privilege := Some co_owner;
         m_isOwner := Some true |};
      {| m_id := "m-v7-priya"; m_username := "Priya M.";
         m_authUsername := Some "priya";
         m_role := volunteer; m_privilege := Some admin;
         m_isOwner := None |};
      {| m_id := "m-v7-suresh"; m_username := "Suresh P.";
         m_authUsername := None;
         m_role := volunteer; m_privilege := Some viewer;
         m_isOwner := None |} ]]> (
  <["v8" :=
    [
      {| m_id := "owner-v8"; m_username := "Priya M.";
         m_authUsername := Some "priya";
         m_role := volunteer; m_privilege := Some co_owner;
         m_isOwner := Some true |};
      {| m_id := "m-v8-rahul"; m_username := "Rahul D.";
         m_authUsername := Some "rahul";
         m_role := contributing_volunteer; m_privilege := Some viewer;
         m_isOwner := None |};
      {| m_id := "m-v8-farhan"; m_username := "Farhan A.";
         m_authUsername := None;
         m_role := volunteer; m_privilege := Some buyer;
         m_isOwner := None |} ]]> (
  <["v9" :=
    [
      {| m_id := "owner-v9"; m_username := "Nisha T.";
         m_authUsername := None;
         m_role := volunteer; m_privilege := Some co_owner;
         m_isOwner := Some true |};
      {| m_id := "m-v9-rahul"; m_username := "Rahul D.";
         m_authUsername := Some "rahul";
         m_role := volunteer; m_privilege := Some co_owner;
         m_isOwner := None |};
      {| m_id := "m-v9-abhijeet"; m_username := "Abhijeet P.";
         m_authUsername := Some "abhijeet";
         m_role := volunteer; m_privilege := Some admin;
         m_isOwner := None |} ]]> (
  ∅)))))))).

(** Build initial join requests map from MOCK_JOIN_REQUESTS (all start as
    pending). *)
Definition buildInitialJoinRequests : gmap string (list JoinRequest) :=
  fold_left
    (fun map req =>
       <[jr_ventureId req :=
           default [] (map !! jr_ventureId req)
           ++ [withStatus req (default pending (jr_status req))]]> map)
    MOCK_JOIN_REQUESTS ∅.

(** The state the provider hands to [useReducer] before anything is
    loaded. *)
Definition initialState : State :=
  {| ventures := MOCK_VENTURES;
     joinRequests := buildInitialJoinRequests;
     members := buildInitialMembers;
     ventureTxs := buildInitialVentureTxs;
     pledges := ∅;
     loaded := false |}.

Definition CURRENT_SCHEMA_VERSION : string := "v17".

(** Merge ventures: the saved ones, then the seed ventures that were not
    saved. *)
Definition mergeVentures (rawVentures : option (list Venture)) : list Venture :=
  match rawVentures with
  | None => MOCK_VENTURES
  | Some saved =>
      saved
      ++ List.filter (fun v => negb (includes (map v_id saved) (v_id v))) MOCK_VENTURES
  end.

(** [new Map(seedMembers.map(m => [m.id, m])).get(id)]: the last seed
    member with that id. *)
Definition seedById (seedMembers : list VentureMember) (id : string)
    : option VentureMember :=
  List.find (fun m => bool_decide (m_id m = id)) (rev seedMembers).

(** [{ ...m, authUsername }] *)
Definition withAuthUsername (m : VentureMember) (authUsername : option string)
    : VentureMember :=
  {| m_id := m_id m; m_username := m_username m; m_authUsername := authUsername;
     m_role := m_role m; m_privilege := m_privilege m; m_isOwner := m_isOwner m |}.

(** Backfill authUsername on a saved member. *)
Definition backfill (seedMembers : list VentureMember) (m : VentureMember)
    : VentureMember :=
  if truthy (m_authUsername m) then m
  else match seedById seedMembers (m_id m) with
       | Some seed =>
           if truthy (m_authUsername seed)
           then withAuthUsername m (m_authUsername seed)
           else m
       | None => m
       end.

(** The body of the loop over [allVentureIds]. *)
Definition mergeVentureMembers (seedMembers saved : list VentureMember)
    : list VentureMember :=
  let mergedSaved := map (backfill seedMembers) saved in
  let missingSeedMembers :=
    List.filter (fun m => negb (includes (map m_id mergedSaved) (m_id m))) seedMembers in
  mergedSaved ++ missingSeedMembers.

(** Merge members: every venture that is saved or seeded gets the merge of
    its two rosters. *)
Definition mergeMembers (initialMembers savedMembers : gmap string (list VentureMember))
    : gmap string (list VentureMember) :=
  merge (fun saved seed =>
           match saved, seed with
           | None, None => None
           | _, _ => Some (mergeVentureMembers (default [] seed) (default [] saved))
           end)
        savedMembers initialMembers.

(** The action dispatched at the end of the load, from what AsyncStorage
    held ([None] for a key that was never written). *)
Definition load
    (rawVentures : option (list Venture))
    (rawJoinRequests : option (gmap string (list JoinRequest)))
    (rawMembers : option (gmap string (list VentureMember)))
    (rawVentureTxs : option (gmap string (list Transaction)))
    (rawPledges : option (gmap string (list Pledge)))
    (savedSchemaVersion : option string) : Action :=
  let schemaOutdated := negb (bool_decide (savedSchemaVersion = Some CURRENT_SCHEMA_VERSION)) in
  LOAD
    (mergeVentures rawVentures)
    (match rawJoinRequests with
     | Some saved => saved ∪ buildInitialJoinRequests
     | None => buildInitialJoinRequests
     end)
    (match rawMembers with
     | Some savedMembers =>
         if schemaOutdated then buildInitialMembers
         else mergeMembers buildInitialMembers savedMembers
     | None => buildInitialMembers
     end)
    (match rawVentureTxs with
     | Some savedTxs => savedTxs ∪ buildInitialVentureTxs
     | None => buildInitialVentureTxs
     end)
    (default ∅ rawPledges).

(** app/venture/[id]: [ventures.find(v => v.id === id)] *)
Definition findVenture (ventures : list Venture) (id : string) : option Venture :=
  List.find (fun v => bool_decide (v_id v = id)) ventures.

End VenturesLoad.

(* ------------------------------------------------------------------ *)
(** ** Amounts as JS numbers

    The modules above take a currency amount for a whole number.  A JS
    [number] is an IEEE-754 double, and the join dialog stores
    [parseFloat(pitchAmount) || 0] as the pitch, so pitches, pledges, ledger
    amounts and balances can be fractional.  The modules below render the
    same code with amounts as doubles (Rocq's primitive [float], the same
    binary64 arithmetic), and with every call the handlers make, those to the
    activity feed and to the notifications included.  They are the reference
    wherever a property chains two or more arithmetic operations. *)

Module JSNumber.
Import PrimFloat.
Local Open Scope float_scope.

(** [Math.max(a, b)]: NaN when either is NaN, and +0 above -0. *)
Definition Math_max (a b : float) : float :=
  if is_nan a || is_nan b then nan
  else if a <? b then b
  else if b <? a then a
  else if is_zero a then (if get_sign a then b else a)
  else a.

(** 2^52: from here on every double is a whole number. *)
Definition two52 : float := 4503599627370496.

(** [Math.floor(x)].  Below 2^52, adding and subtracting 2^52 rounds to the
    nearest whole number, which is the floor or one above it. *)
Definition Math_floor (x : float) : float :=
  if is_nan x || (two52 <=? abs x) then x
  else
    let r := if x <? 0 then (x - two52) + two52 else (x + two52) - two52 in
    let f := if x <? r then r - 1 else r in
    if is_zero f then (if get_sign x then neg_zero else zero) else f.

(** [Math.round(x)]: the nearest whole number, ties towards plus infinity;
    a zero result keeps the sign of [x]. *)
Definition Math_round (x : float) : float :=
  if is_nan x || (two52 <=? abs x) then x
  else
    let f := Math_floor x in
    let r := if 0.5 <=? x - f then f + 1 else f in
    if is_zero r then (if get_sign x then neg_zero else zero) else r.

(** [xs.reduce((sum, x) => sum + f(x), 0)] *)
Definition sum_by {A : Type} (f : A -> float) (xs : list A) : float :=
  fold_left (fun sum x => sum + f x) xs 0.

(** JS truthiness of a number: 0, -0 and NaN are falsy. *)
Definition truthyNumber (x : float) : bool :=
  negb (is_zero x || is_nan x).

(** [x || 0] *)
Definition orZero (x : float) : float :=
  if truthyNumber x then x else 0.

End JSNumber.

(* ------------------------------------------------------------------ *)
(** ** lib/mock-data, amounts as doubles *)

Module MockData64.
Import PrimFloat.
Import MockData (VentureStatus, proposed, ongoing, finished,
  UserRole, volunteer, contributing_volunteer, sponsor,
  UserPrivilege, co_owner, admin, buyer, viewer,
  RequestStatus, pending, approved, denied,
  TransactionType, contribution, purchase, cashout, refund).
Local Open Scope float_scope.

Record Venture := {
  v_id : string;
  v_name : string;
  v_status : VentureStatus;
  v_isFree : bool;
  v_budget : float;
  v_currentFunding : float;
  v_eac : float;
  v_ownerName : string;
}.

Record JoinRequest := {
  jr_id : string;
  jr_ventureId : string;
  jr_username : string;
  jr_authUsername : option string;
  jr_role : UserRole;
  jr_privilege : option UserPrivilege;
  jr_pitch : float;
  jr_message : string;
  jr_status : option RequestStatus;
}.

Record Transaction := {
  tx_id : string;
  tx_ventureId : string;
  tx_type : TransactionType;
  tx_username : string;
  tx_amount : float;
  tx_description : string;
  tx_timestamp : string;
}.

Definition MOCK_VENTURES : list Venture :=
  [
    {| v_id := "v1"; v_name := "Sayaji Park Cleanup"; v_status := proposed;
       v_isFree := false; v_budget := 5000; v_currentFunding := 3200;
       v_eac := 250; v_ownerName := "Abhijeet P." |};
    {| v_id := "v3"; v_name := "Vizag Beach Drive"; v_status := proposed;
       v_isFree := false; v_budget := 12000; v_currentFunding := 4500;
       v_eac := 500; v_ownerName := "Rohan S." |};
    {| v_id := "v6"; v_name := "Lodhi Garden Restoration"; v_status := proposed;
       v_isFree := false; v_budget := 18000; v_currentFunding := 7200;
       v_eac := 600; v_ownerName := "Neha G." |};
    {| v_id := "v7"; v_name := "Juhu Beach Sunday Clean"; v_status := proposed;
       v_isFree := true; v_budget := 0; v_currentFunding := 0;
       v_eac := 0; v_ownerName := "Sunita R." |};
    {| v_id := "v2"; v_name := "LBS Road Cleanup"; v_status := ongoing;
       v_isFree := true; v_budget := 0; v_currentFunding := 0;
       v_eac := 0; v_ownerName := "Priya M." |};
    {| v_id := "v5"; v_name := "Hubli Old Town Revival"; v_status := ongoing;
       v_isFree := true; v_budget := 0; v_currentFunding := 0;
       v_eac := 0; v_ownerName := "Kiran B." |};
    {| v_id := "v8"; v_name := "Sabarmati Riverfront Drive"; v_status := ongoing;
       v_isFree := false; v_budget := 9000; v_currentFunding := 6300;
       v_eac := 350; v_ownerName := "Farhan A." |};
    {| v_id := "v9"; v_name := "Bengaluru IT Corridor Greenway"; v_status := ongoing;
       v_isFree := false; v_budget := 22000; v_currentFunding := 18500;
       v_eac := 800; v_ownerName := "Aditya V." |};
    {| v_id := "v13"; v_name := "Pune FC Road Cleanup"; v_status := proposed;
       v_isFree := true; v_budget := 0; v_currentFunding := 0;
       v_eac := 0; v_ownerName := "Tanvi D." |};
    {| v_id := "v14"; v_name := "Chandigarh Rose Garden Restore"; v_status := proposed;
       v_isFree := false; v_budget := 14000; v_currentFunding := 3500;
       v_eac := 450; v_ownerName := "Harpreet S." |};
    {| v_id := "v15"; v_name := "Kochi Backwaters Bank Clean"; v_status := proposed;
       v_isFree := false; v_budget := 20000; v_currentFunding := 8000;
       v_eac := 700; v_ownerName := "Ananya M." |};
    {| v_id := "v16"; v_name := "Mysuru Palace Road Sweep"; v_status := ongoing;
       v_isFree := true; v_budget := 0; v_currentFunding := 0;
       v_eac := 0; v_ownerName := "Ravi K." |};
    {| v_id := "v17"; v_name := "Bhopal Upper Lake Drive"; v_status := ongoing;
       v_isFree := false; v_budget := 16000; v_currentFunding := 11200;
       v_eac := 550; v_ownerName := "Shweta P." |};
    {| v_id := "v18"; v_name := "Amritsar Golden Temple Periphery"; v_status := ongoing;
       v_isFree := true; v_budget := 0; v_currentFunding := 0;
       v_eac := 0; v_ownerName := "Gurpreet B." |};
    {| v_id := "v4"; v_name := "Surat Canal Restoration"; v_status := finished;
       v_isFree := false; v_budget := 8000; v_currentFunding := 8000;
       v_eac := 400; v_ownerName := "Meera K." |};
    {| v_id := "v10"; v_name := "Kolkata Maidan Sweep"; v_status := finished;
       v_isFree := true; v_budget := 0; v_currentFunding := 0;
       v_eac := 0; v_ownerName := "Debashish R." |};
    {| v_id := "v11"; v_name := "Jaipur Pink City Wall Clean"; v_status := finished;
       v_isFree := false; v_budget := 15000; v_currentFunding := 15000;
       v_eac := 750; v_ownerName := "Kavya S." |};
    {| v_id := "v12"; v_name := "Goa Palolem Shore Restore"; v_status := finished;
       v_isFree := true; v_budget := 0; v_currentFunding := 0;
       v_eac := 0; v_ownerName := "Marco F." |} ].

Definition MOCK_JOIN_REQUESTS : list JoinRequest :=
  [
    {| jr_id := "jr1"; jr_ventureId := "v1";
       jr_username := "Priya M.";
       jr_authUsername := Some "priya";
       jr_role := contributing_volunteer;
       jr_privilege := Some buyer;
       jr_pitch := 300;
       jr_message := "I have done 4 cleanups before and can also help with procurement.";
       jr_status := None |};
    {| jr_id := "jr2"; jr_ventureId := "v1";
       jr_username := "Rahul D.";
       jr_authUsername := Some "rahul";
       jr_role := volunteer;
       jr_privilege := None;
       jr_pitch := 0;
       jr_message := "Happy to show up and help however I can!";
       jr_status := None |};
    {| jr_id := "jr3"; jr_ventureId := "v1";
       jr_username := "GreenCorp Ltd.";
       jr_authUsername := None;
       jr_role := sponsor;
       jr_privilege := None;
       jr_pitch := 2000;
       jr_message := "We would like to sponsor this initiative as part of our CSR program.";
       jr_status := None |};
    {| jr_id := "jr4"; jr_ventureId := "v6";
       jr_username := "Arjun T.";
       jr_authUsername := None;
       jr_role := volunteer;
       jr_privilege := None;
       jr_pitch := 0;
       jr_message := "I visit Lodhi Garden every morning. Would love to help restore it.";
       jr_status := None |} ].

Definition MOCK_TRANSACTIONS : list Transaction :=
  [
    {| tx_id := "tx1"; tx_ventureId := "v1";
       tx_type := contribution; tx_username := "Abhijeet P.";
       tx_amount := 500;
       tx_description := "Owner initial contribution";
       tx_timestamp := "2026-02-15T10:00:00Z" |};
    {| tx_id := "tx2"; tx_ventureId := "v1";
       tx_type := contribution; tx_username := "Priya M.";
       tx_amount := 300;
       tx_description := "Contributing volunteer joined";
       tx_timestamp := "2026-02-16T14:30:00Z" |};
    {| tx_id := "tx3"; tx_ventureId := "v1";
       tx_type := contribution; tx_username := "TechCorp Sponsor";
       tx_amount := 2000;
       tx_description := "Sponsor contribution";
       tx_timestamp := "2026-02-17T09:00:00Z" |};
    {| tx_id := "tx4"; tx_ventureId := "v1";
       tx_type := purchase; tx_username := "Abhijeet P.";
       tx_amount := -450;
       tx_description := "Ordered 20 pairs of gloves + masks";
       tx_timestamp := "2026-02-18T11:00:00Z" |};
    {| tx_id := "tx5"; tx_ventureId := "v1";
       tx_type := contribution; tx_username := "Rohan S.";
       tx_amount := 400;
       tx_description := "Contributing volunteer joined";
       tx_timestamp := "2026-02-19T16:00:00Z" |};
    {| tx_id := "tx6"; tx_ventureId := "v8";
       tx_type := contribution; tx_username := "Farhan A.";
       tx_amount := 700;
       tx_description := "Owner initial contribution";
       tx_timestamp := "2026-02-01T08:00:00Z" |};
    {| tx_id := "tx7"; tx_ventureId := "v8";
       tx_type := contribution; tx_username := "Priya M.";
       tx_amount := 350;
       tx_description := "Contributing volunteer";
       tx_timestamp := "2026-02-03T10:00:00Z" |} ].

End MockData64.

(* ------------------------------------------------------------------ *)
(** ** lib/wallet-store, amounts as doubles *)

Module WalletStore64.
Import PrimFloat JSNumber.
Import WalletStore (WalletTxType, topup, deduct).
Local Open Scope float_scope.

Record WalletTransaction := {
  wt_id : string;
  wt_type : WalletTxType;
  wt_amount : float;
  wt_label : string;
  wt_timestamp : string;
}.

Record UserWallet := {
  balance : float;
  transactions : list WalletTransaction;
}.

Record State := {
  wallets : gmap string UserWallet;
  loaded : bool;
}.

Inductive Action :=
| LOAD (wallets : gmap string UserWallet)
| TOPUP (authUsername : string) (amount : float) (label : string)
| DEDUCT (authUsername : string) (amount : float) (label : option string).

Definition INITIAL_BALANCES : gmap string float :=
  <["abhijeet" := 5000]> (<["priya" := 3500]> (<["rahul" := 2800]> ∅)).

Definition DEFAULT_INITIAL_BALANCE : float := 1200.

Definition getOrCreateWallet (wallets : gmap string UserWallet)
    (authUsername : string) : UserWallet :=
  default
    {| balance := default DEFAULT_INITIAL_BALANCE (INITIAL_BALANCES !! authUsername);
       transactions := [] |}
    (wallets !! authUsername).

Definition reducer (clk : Clock) (state : State) (action : Action) : State :=
  match action with
  | LOAD ws => {| wallets := ws; loaded := true |}
  | TOPUP authUsername amount label =>
      let wallet := getOrCreateWallet (wallets state) authUsername in
      let tx := {| wt_id := "tx-" +:+ show (now clk);
                   wt_type := topup;
                   wt_amount := amount;
                   wt_label := label;
                   wt_timestamp := iso clk |} in
      {| wallets := <[authUsername :=
                        {| balance := balance wallet + amount;
                           transactions := tx :: transactions wallet |}]>
                      (wallets state);
         loaded := loaded state |}
  | DEDUCT authUsername amount label =>
      let wallet := getOrCreateWallet (wallets state) authUsername in
      let tx := {| wt_id := "tx-" +:+ show (now clk);
                   wt_type := deduct;
                   wt_amount := amount;
                   wt_label := default "Purchase" label;
                   wt_timestamp := iso clk |} in
      {| wallets := <[authUsername :=
                        {| balance := Math_max 0 (balance wallet - amount);
                           transactions := tx :: transactions wallet |}]>
                      (wallets state);
         loaded := loaded state |}
  end.

(** The state the provider starts from, and the LOAD it dispatches when
    nothing was saved. *)
Definition initialState : State := {| wallets := ∅; loaded := false |}.

Definition firstLoad : Action := LOAD ∅.

Definition getBalance (state : State) (authUsername : string) : float :=
  balance (getOrCreateWallet (wallets state) authUsername).

Definition getTransactions (state : State) (authUsername : string)
    : list WalletTransaction :=
  transactions (getOrCreateWallet (wallets state) authUsername).

End WalletStore64.

(* ------------------------------------------------------------------ *)
(** ** lib/ventures-store, amounts as doubles *)

Module VenturesStore64.
Import PrimFloat JSNumber.
Import MockData (VentureStatus, proposed, ongoing, finished,
  UserRole, UserPrivilege, RequestStatus, pending, approved, denied,
  TransactionType, contribution, purchase, cashout, refund).
Import MockData64.
Import VenturesStore (VentureMember, Build_VentureMember, m_id, m_username,
  m_authUsername, m_role, m_privilege, m_isOwner, MemberPatch, patchMember,
  Decision, Approved, Denied, statusOf).
Local Open Scope float_scope.

Record Pledge := {
  p_authUsername : string;
  p_displayName : string;
  p_amount : float;
  p_ventureId : string;
}.

(** [Partial<Venture>]: the fields a patch carries. *)
Record VenturePatch := {
  vp_name : option string;
  vp_status : option VentureStatus;
  vp_budget : option float;
  vp_currentFunding : option float;
}.

(** [{ ...v, ...patch }] *)
Definition patchVenture (v : Venture) (patch : VenturePatch) : Venture :=
  {| v_id := v_id v;
     v_name := default (v_name v) (vp_name patch);
     v_status := default (v_status v) (vp_status patch);
     v_isFree := v_isFree v;
     v_budget := default (v_budget v) (vp_budget patch);
     v_currentFunding := default (v_currentFunding v) (vp_currentFunding patch);
     v_eac := v_eac v;
     v_ownerName := v_ownerName v |}.

(** [{ ...r, status }] *)
Definition withStatus (r : JoinRequest) (status : RequestStatus) : JoinRequest :=
  {| jr_id := jr_id r;
     jr_ventureId := jr_ventureId r;
     jr_username := jr_username r;
     jr_authUsername := jr_authUsername r;
     jr_role := jr_role r;
     jr_privilege := jr_privilege r;
     jr_pitch := jr_pitch r;
     jr_message := jr_message r;
     jr_status := Some status |}.

(** [!r.status || r.status === 'pending'] *)
Definition isPending (r : JoinRequest) : bool :=
  match jr_status r with
  | None => true
  | Some st => bool_decide (st = pending)
  end.

Record State := {
  ventures : list Venture;
  joinRequests : gmap string (list JoinRequest);
  members : gmap string (list VentureMember);
  ventureTxs : gmap string (list Transaction);
  pledges : gmap string (list Pledge);
  loaded : bool;
}.

Inductive Action :=
| LOAD (ventures : list Venture)
       (joinRequests : gmap string (list JoinRequest))
       (members : gmap string (list VentureMember))
       (ventureTxs : gmap string (list Transaction))
       (pledges : gmap string (list Pledge))
| ADD_VENTURE (venture : Venture) (ownerMember : option VentureMember)
| UPDATE_VENTURE (id : string) (patch : VenturePatch)
| ADD_JOIN_REQUEST (ventureId : string) (request : JoinRequest)
| UPDATE_JOIN_REQUEST_STATUS (ventureId : string) (requestId : string)
                             (status : Decision)
| REJECT_ALL_PENDING_REQUESTS (ventureId : string)
| ADD_MEMBER (ventureId : string) (member : VentureMember)
| REMOVE_MEMBER (ventureId : string) (memberId : string)
| UPDATE_MEMBER (ventureId : string) (memberId : string) (patch : MemberPatch)
| ADD_VENTURE_TX (ventureId : string) (tx : Transaction)
| RECORD_PLEDGE (pledge : Pledge)
| REMOVE_PLEDGE (ventureId : string) (authUsername : string).

(** Field updates, [{ ...state, field: value }]. *)
Definition setVentures (s : State) (x : list Venture) : State :=
  {| ventures := x; joinRequests := joinRequests s; members := members s;
     ventureTxs := ventureTxs s; pledges := pledges s; loaded := loaded s |}.

Definition setJoinRequests (s : State) (x : gmap string (list JoinRequest)) : State :=
  {| ventures := ventures s; joinRequests := x; members := members s;
     ventureTxs := ventureTxs s; pledges := pledges s; loaded := loaded s |}.

Definition setMembers (s : State) (x : gmap string (list VentureMember)) : State :=
  {| ventures := ventures s; joinRequests := joinRequests s; members := x;
     ventureTxs := ventureTxs s; pledges := pledges s; loaded := loaded s |}.

Definition setVentureTxs (s : State) (x : gmap string (list Transaction)) : State :=
  {| ventures := ventures s; joinRequests := joinRequests s; members := members s;
     ventureTxs := x; pledges := pledges s; loaded := loaded s |}.

Definition setPledges (s : State) (x : gmap string (list Pledge)) : State :=
  {| ventures := ventures s; joinRequests := joinRequests s; members := members s;
     ventureTxs := ventureTxs s; pledges := x; loaded := loaded s |}.

Definition reducer (state : State) (action : Action) : State :=
  match action with
  | LOAD vs jrs ms txs ps =>
      {| ventures := vs; joinRequests := jrs; members := ms;
         ventureTxs := txs; pledges := ps; loaded := true |}

  | ADD_VENTURE venture ownerMember =>
      let newMembers :=
        match ownerMember with
        | Some owner => <[v_id venture := [owner]]> (members state)
        | None => members state
        end in
      setMembers (setVentures state (venture :: ventures state)) newMembers

  | UPDATE_VENTURE id patch =>
      setVentures state
        (map (fun v => if bool_decide (v_id v = id) then patchVenture v patch else v)
             (ventures state))

  | ADD_JOIN_REQUEST ventureId request =>
      let existing := default [] (joinRequests state !! ventureId) in
      (* Don't add duplicate requests from the same user *)
      if existsb (fun r => bool_decide (jr_id r = jr_id request)) existing
      then state
      else setJoinRequests state
             (<[ventureId := existing ++ [request]]> (joinRequests state))

  | UPDATE_JOIN_REQUEST_STATUS ventureId requestId status =>
      let existing := default [] (joinRequests state !! ventureId) in
      setJoinRequests state
        (<[ventureId :=
             map (fun r => if bool_decide (jr_id r = requestId)
                           then withStatus r (statusOf status) else r)
                 existing]> (joinRequests state))

  | REJECT_ALL_PENDING_REQUESTS ventureId =>
      let existing := default [] (joinRequests state !! ventureId) in
      setJoinRequests state
        (<[ventureId :=
             map (fun r => if isPending r then withStatus r denied else r)
                 existing]> (joinRequests state))

  | ADD_MEMBER ventureId member =>
      let existing := default [] (members state !! ventureId) in
      if existsb (fun m => bool_decide (m_id m = m_id member)) existing
      then state
      else setMembers state (<[ventureId := existing ++ [member]]> (members state))

  | REMOVE_MEMBER ventureId memberId =>
      let existing := default [] (members state !! ventureId) in
      setMembers state
        (<[ventureId :=
             List.filter (fun m => negb (bool_decide (m_id m = memberId))) existing]>
           (members state))

  | UPDATE_MEMBER ventureId memberId patch =>
      let existing := default [] (members state !! ventureId) in
      setMembers state
        (<[ventureId :=
             map (fun m => if bool_decide (m_id m = memberId)
                           then patchMember m patch else m)
                 existing]> (members state))

  | ADD_VENTURE_TX ventureId tx =>
      let existing := default [] (ventureTxs state !! ventureId) in
      setVentureTxs state (<[ventureId := tx :: existing]> (ventureTxs state))

  | RECORD_PLEDGE pledge =>
      let ventureId := p_ventureId pledge in
      let authUsername := p_authUsername pledge in
      let existing :=
        List.filter (fun p => negb (bool_decide (p_authUsername p = authUsername)))
                    (default [] (pledges state !! ventureId)) in
      setPledges state (<[ventureId := existing ++ [pledge]]> (pledges state))

  | REMOVE_PLEDGE ventureId authUsername =>
      let existing := default [] (pledges state !! ventureId) in
      setPledges state
        (<[ventureId :=
             List.filter (fun p => negb (bool_decide (p_authUsername p = authUsername)))
                         existing]> (pledges state))
  end.

(** The selectors and dispatching callbacks the provider hands out. *)

Definition updateVentureStatus (id : string) (status : VentureStatus) : Action :=
  UPDATE_VENTURE id
    {| vp_name := None; vp_status := Some status;
       vp_budget := None; vp_currentFunding := None |}.

Definition getJoinRequestsForVenture (state : State) (ventureId : string)
    : list JoinRequest :=
  default [] (joinRequests state !! ventureId).

Definition getMembersForVenture (state : State) (ventureId : string)
    : list VentureMember :=
  default [] (members state !! ventureId).

Definition getVentureTxs (state : State) (ventureId : string) : list Transaction :=
  default [] (ventureTxs state !! ventureId).

Definition getMemberForUser (state : State) (ventureId authUsername : string)
    : option VentureMember :=
  List.find (fun m => bool_decide (m_authUsername m = Some authUsername))
            (default [] (members state !! ventureId)).

Definition getPledgesForVenture (state : State) (ventureId : string) : list Pledge :=
  default [] (pledges state !! ventureId).

(** [buildInitialVentureTxs]: the seed ledger grouped by venture, in seed
    order. *)
Definition buildInitialVentureTxs : gmap string (list Transaction) :=
  fold_left
    (fun map tx =>
       <[tx_ventureId tx := default [] (map !! tx_ventureId tx) ++ [tx]]> map)
    MOCK_TRANSACTIONS ∅.

(** [buildInitialJoinRequests]: the seed requests grouped by venture, all
    pending. *)
Definition buildInitialJoinRequests : gmap string (list JoinRequest) :=
  fold_left
    (fun map req =>
       <[jr_ventureId req :=
           default [] (map !! jr_ventureId req)
           ++ [withStatus req (default pending (jr_status req))]]> map)
    MOCK_JOIN_REQUESTS ∅.

(** The state the provider starts from, and the LOAD it dispatches when
    nothing was saved. *)
Definition initialState : State :=
  {| ventures := MOCK_VENTURES;
     joinRequests := buildInitialJoinRequests;
     members := VenturesLoad.buildInitialMembers;
     ventureTxs := buildInitialVentureTxs;
     pledges := ∅;
     loaded := false |}.

Definition firstLoad : Action :=
  LOAD MOCK_VENTURES buildInitialJoinRequests VenturesLoad.buildInitialMembers
       buildInitialVentureTxs ∅.

End VenturesStore64.

(* ------------------------------------------------------------------ *)
(** ** app/venture/[id], amounts as doubles and every call included *)

Module VentureDetail64.
Import PrimFloat JSNumber.
Import MockData (VentureStatus, proposed, ongoing, finished,
  UserRole, volunteer, contributing_volunteer, sponsor,
  UserPrivilege, co_owner, admin, buyer, viewer,
  RequestStatus, pending, approved, denied,
  TransactionType, contribution, purchase, cashout, refund).
Import MockData64.
Import VenturesStore (VentureMember, Build_VentureMember, m_id, m_username,
  m_authUsername, m_role, m_privilege, m_isOwner,
  Decision, Approved, Denied, statusOf).
Import VenturesStore64.
Import VentureDetail (AppUser, Build_AppUser, username, displayName).
Local Open Scope float_scope.

(** What the screen closes over: the venture it shows and the logged-in
    user ([null] when nobody is logged in). *)
Record Screen := {
  venture : Venture;
  authUser : option AppUser;
}.

(** The four stores the handlers write to. *)
Record World := {
  venturesState : VenturesStore64.State;
  walletState : WalletStore64.State;
  activityState : ActivityStore.State;
  notifications : list NotificationsStore.Notification;
}.

Inductive Dispatch :=
| ToVentures (a : VenturesStore64.Action)
| ToWallet (a : WalletStore64.Action)
| EmitActivity (ventureId : string) (type : ActivityStore.ActivityEventType)
               (text : string)
| AddNotification (type : NotificationsStore.NotifType) (title body : string)
                  (ventureId : option string).

(** One call reaches its store; [random] is what
    [Math.random().toString(36).slice(2, 7)] gives an emitted event. *)
Definition dispatch (clk : Clock) (random : string) (w : World) (d : Dispatch) : World :=
  match d with
  | ToVentures a =>
      {| venturesState := VenturesStore64.reducer (venturesState w) a;
         walletState := walletState w;
         activityState := activityState w;
         notifications := notifications w |}
  | ToWallet a =>
      {| venturesState := venturesState w;
         walletState := WalletStore64.reducer clk (walletState w) a;
         activityState := activityState w;
         notifications := notifications w |}
  | EmitActivity ventureId type text =>
      {| venturesState := venturesState w;
         walletState := walletState w;
         activityState :=
           ActivityStore.reducer (activityState w)
             (ActivityStore.emit clk random ventureId type text);
         notifications := notifications w |}
  | AddNotification type title body ventureId =>
      {| venturesState := venturesState w;
         walletState := walletState w;
         activityState := activityState w;
         notifications :=
           NotificationsStore.addNotification clk type title body ventureId
             (notifications w) |}
  end.

(** The calls of one handler, applied in order; the [k]-th call draws
    [rnd k]. *)
Fixpoint runFrom (clk : Clock) (rnd : nat -> string) (k : nat) (w : World)
    (ds : list Dispatch) : World :=
  match ds with
  | [] => w
  | d :: ds => runFrom clk rnd (S k) (dispatch clk (rnd k) w d) ds
  end.

Definition run (clk : Clock) (rnd : nat -> string) (w : World)
    (ds : list Dispatch) : World :=
  runFrom clk rnd 0 w ds.

(** Run a handler: it reads the snapshot [w] and its calls are applied to
    [w] in order. *)
Definition perform (clk : Clock) (rnd : nat -> string)
    (handler : World -> list Dispatch) (w : World) : World :=
  run clk rnd w (handler w).

(** The strings of the privilege and role types, as the templates print
    them; [.replace('_', ' ')] turns the one underscore there is into a
    space. *)
Definition privilegeText (p : option UserPrivilege) : string :=
  match p with
  | Some co_owner => "co-owner"
  | Some admin => "admin"
  | Some buyer => "buyer"
  | Some viewer => "viewer"
  | None => "member"
  end.

Definition roleText (r : UserRole) : string :=
  match r with
  | volunteer => "volunteer"
  | contributing_volunteer => "contributing volunteer"
  | sponsor => "sponsor"
  end.

(** The member record the requests tab hands to [onApprove]. *)
Definition memberFor (req : JoinRequest) : VentureMember :=
  {| m_id := "member-" +:+ jr_id req;
     m_username := jr_username req;
     m_authUsername := jr_authUsername req;
     m_role := jr_role req;
     m_privilege := jr_privilege req;
     m_isOwner := None |}.

Section Handlers.
Variable scr : Screen.
Variable clk : Clock.
(** Template-literal interpolation of a number, [`${amount}`]. *)
Variable numberToString : float -> string.

(** Called when a join request with a pledge is approved: deduct from
    wallet, record pledge, add venture TX. *)
Definition handlePledgeDeduct (authUsername displayName : string) (amount : float)
    (w : World) : list Dispatch :=
  [ ToWallet (WalletStore64.DEDUCT authUsername amount
                (Some ("Pledge to " +:+ v_name (venture scr))));
    ToVentures (RECORD_PLEDGE
                  {| p_ventureId := v_id (venture scr);
                     p_authUsername := authUsername;
                     p_displayName := displayName;
                     p_amount := amount |});
    ToVentures (ADD_VENTURE_TX (v_id (venture scr))
                  {| tx_id := "tx-pledge-" +:+ show (now clk);
                     tx_ventureId := v_id (venture scr);
                     tx_type := contribution;
                     tx_username := displayName;
                     tx_amount := amount;
                     tx_description := "Pledge on joining";
                     tx_timestamp := iso clk |});
    EmitActivity (v_id (venture scr)) ActivityStore.funds_contributed
      (displayName +:+ " pledged ₹" +:+ numberToString amount +:+ " on joining") ].

(** Called when a member is removed or leaves: refund their pledge from
    venture wallet. *)
Definition handleMemberRefund (authUsername displayName : string)
    (w : World) : list Dispatch :=
  let pledges := getPledgesForVenture (venturesState w) (v_id (venture scr)) in
  match List.find (fun p => bool_decide (p_authUsername p = authUsername)) pledges with
  | None => []
  | Some pledge =>
      if p_amount pledge <=? 0 then []
      else
        [ ToWallet (WalletStore64.TOPUP authUsername (p_amount pledge)
                      ("Refund from " +:+ v_name (venture scr)));
          ToVentures (REMOVE_PLEDGE (v_id (venture scr)) authUsername);
          ToVentures (ADD_VENTURE_TX (v_id (venture scr))
                        {| tx_id := "tx-refund-" +:+ show (now clk);
                           tx_ventureId := v_id (venture scr);
                           tx_type := refund;
                           tx_username := displayName;
                           tx_amount := p_amount pledge;
                           tx_description := "Refund on leaving/removal";
                           tx_timestamp := iso clk |});
          EmitActivity (v_id (venture scr)) ActivityStore.member_joined
            (displayName +:+ " left and was refunded ₹"
               +:+ numberToString (p_amount pledge)) ]
  end.

(** [authUser?.username === pledge.authUsername] *)
Definition isLoggedInAs (authUsername : string) : bool :=
  match authUser scr with
  | Some u => bool_decide (username u = authUsername)
  | None => false
  end.

(** [pledge.amount / totalPledged] *)
Definition shareOf (pledge : Pledge) (totalPledged : float) : float :=
  p_amount pledge / totalPledged.

(** [Math.round(remaining * share)] *)
Definition refundAmountOf (remaining : float) (pledge : Pledge)
    (totalPledged : float) : float :=
  Math_round (remaining * shareOf pledge totalPledged).

(** The body of [pledges.forEach(pledge => ...)] in the payout branch. *)
Definition payoutFor (ventureId : string) (remaining totalPledged : float)
    (pledge : Pledge) : list Dispatch :=
  let share := shareOf pledge totalPledged in
  let refundAmount := refundAmountOf remaining pledge totalPledged in
  if 0 <? refundAmount then
    (if isLoggedInAs (p_authUsername pledge)
     then [ ToWallet (WalletStore64.TOPUP (p_authUsername pledge) refundAmount
                        ("Payout from completed venture " +:+ v_name (venture scr))) ]
     else [])
    ++ [ ToVentures (ADD_VENTURE_TX ventureId
           {| tx_id := "tx-payout-" +:+ show (now clk) +:+ "-" +:+ p_authUsername pledge;
              tx_ventureId := ventureId;
              tx_type := cashout;
              tx_username := p_displayName pledge;
              tx_amount := refundAmount;
              tx_description :=
                "Proportional payout ("
                  +:+ numberToString (Math_round (share * 100))
                  +:+ "% share)";
              tx_timestamp := iso clk |}) ]
  else [].

(** [Math.max(0, totalContributed - totalSpent)] over a list of
    transactions. *)
Definition remainingOf (txs : list Transaction) : float :=
  let totalContributed :=
    sum_by tx_amount (List.filter (fun t => bool_decide (tx_type t = contribution)) txs) in
  let totalSpent :=
    sum_by tx_amount (List.filter (fun t => bool_decide (tx_type t = purchase)) txs) in
  Math_max 0 (totalContributed - totalSpent).

(** The transactions [handleVentureCompletion] computes the remaining
    balance from: [MOCK_TRANSACTIONS.filter(t => t.ventureId === ventureId)]. *)
Definition storedTxs (ventureId : string) : list Transaction :=
  List.filter (fun t => bool_decide (tx_ventureId t = ventureId)) MOCK_TRANSACTIONS.

(** Called when venture is marked complete: proportional payout +
    auto-reject pending requests. *)
Definition handleVentureCompletion (ventureId : string) (w : World) : list Dispatch :=
  let pledges := getPledgesForVenture (venturesState w) ventureId in
  let totalPledged := sum_by p_amount pledges in
  let remaining := remainingOf (storedTxs ventureId) in
  (if (0 <? remaining) && (0 <? totalPledged)
   then flat_map (payoutFor ventureId remaining totalPledged) pledges
   else [])
  (* Clear all pledges for this venture *)
  ++ map (fun p => ToVentures (REMOVE_PLEDGE ventureId (p_authUsername p))) pledges
  ++ [ EmitActivity ventureId ActivityStore.venture_completed
         "Venture completed — proportional payouts issued" ].

(** The "Mark Complete" button of the confirmation dialog. *)
Definition markComplete (w : World) : list Dispatch :=
  ToVentures (updateVentureStatus (v_id (venture scr)) finished)
  :: handleVentureCompletion (v_id (venture scr)) w.

(** [decide] of the requests tab, with [ventureId = venture.id],
    [onPledgeDeduct = handlePledgeDeduct] and
    [onApprove = member => addMember(venture.id, member)]. *)
Definition decide (req : JoinRequest) (action : Decision) (w : World) : list Dispatch :=
  [ ToVentures (UPDATE_JOIN_REQUEST_STATUS (v_id (venture scr)) (jr_id req) action);
    match action with
    | Approved =>
        AddNotification NotificationsStore.join_accepted "Request Approved"
          (jr_username req +:+ " has been approved to join the venture.")
          (Some (v_id (venture scr)))
    | Denied =>
        AddNotification NotificationsStore.join_declined "Request Denied"
          (jr_username req +:+ "'s request has been declined.")
          (Some (v_id (venture scr)))
    end;
    match action with
    | Approved =>
        EmitActivity (v_id (venture scr)) ActivityStore.member_joined
          (jr_username req +:+ " joined the venture as "
             +:+ privilegeText (jr_privilege req))
    | Denied =>
        EmitActivity (v_id (venture scr)) ActivityStore.member_joined
          (jr_username req +:+ "'s join request was declined")
    end ]
  ++ match action with
     | Denied => []
     | Approved =>
         (match jr_authUsername req with
          | Some authUsername =>
              if (0 <? jr_pitch req) && truthy (jr_authUsername req)
              then handlePledgeDeduct authUsername (jr_username req) (jr_pitch req) w
              else []
          | None => []
          end)
         ++ [ ToVentures (ADD_MEMBER (v_id (venture scr)) (memberFor req)) ]
     end.

(** The "Remove"/"Leave" buttons of the members tab once confirmed, with
    [onMemberRemoved = handleMemberRefund]. *)
Definition removeAndRefund (member : VentureMember) (w : World) : list Dispatch :=
  ToVentures (REMOVE_MEMBER (v_id (venture scr)) (m_id member))
  :: match m_authUsername member with
     | Some authUsername =>
         if truthy (m_authUsername member)
         then handleMemberRefund authUsername (m_username member) w
         else []
     | None => []
     end.

(** The "Send Request" button of the join dialog; [pitchAmount] is what
    [parseFloat] made of the text typed (NaN when it is no number). *)
Definition sendRequest (selectedRole : UserRole)
    (selectedPrivilege : option UserPrivilege) (pitchAmount : float)
    (joinMessage : string) (w : World) : list Dispatch :=
  ToVentures (ADD_JOIN_REQUEST (v_id (venture scr))
    {| jr_id := "jr-" +:+ show (now clk);
       jr_ventureId := v_id (venture scr);
       jr_username := match authUser scr with
                      | Some u => displayName u
                      | None => "Unknown"
                      end;
       jr_authUsername := option_map username (authUser scr);
       jr_role := selectedRole;
       jr_privilege := selectedPrivilege;
       jr_pitch := orZero pitchAmount;
       jr_message := joinMessage;
       jr_status := Some pending |})
  :: match authUser scr with
     | Some u =>
         [ EmitActivity (v_id (venture scr)) ActivityStore.member_joined
             (displayName u +:+ " requested to join as " +:+ roleText selectedRole) ]
     | None => []
     end.

(** The wallet tab's "Contribute"; [amount] is what [parseInt] made of the
    text typed (NaN when it is no number). *)
Definition handleContribute (amount : float) (w : World) : list Dispatch :=
  let personalBalance :=
    match authUser scr with
    | Some u => WalletStore64.getBalance (walletState w) (username u)
    | None => 0
    end in
  if negb (truthyNumber amount) || (amount <=? 0) then []
  else if personalBalance <? amount then []
  else
    (match authUser scr with
     | Some u =>
         [ ToWallet (WalletStore64.DEDUCT (username u) amount
                       (Some ("Contribution to " +:+ v_name (venture scr)))) ]
     | None => []
     end)
    ++ [ ToVentures (ADD_VENTURE_TX (v_id (venture scr))
           {| tx_id := "tx-" +:+ show (now clk);
              tx_ventureId := v_id (venture scr);
              tx_type := contribution;
              tx_username := "You";
              tx_amount := amount;
              tx_description := "Member contribution";
              tx_timestamp := iso clk |});
         EmitActivity (v_id (venture scr)) ActivityStore.funds_contributed
           ("You contributed ₹" +:+ numberToString amount +:+ " to the venture") ].

End Handlers.

(** The balance the wallet tab shows:
    [transactions.reduce((sum, t) => sum + t.amount, 0)], newest entry
    first. *)
Definition ventureBalance (w : World) (ventureId : string) : float :=
  sum_by tx_amount (getVentureTxs (venturesState w) ventureId).

Definition balanceOf (w : World) (authUsername : string) : float :=
  WalletStore64.getBalance (walletState w) authUsername.

Definition pledgesOf (w : World) (ventureId : string) : list Pledge :=
  getPledgesForVenture (venturesState w) ventureId.

Definition ledgerOf (w : World) (ventureId : string) : list Transaction :=
  getVentureTxs (venturesState w) ventureId.

Definition requestsOf (w : World) (ventureId : string) : list JoinRequest :=
  getJoinRequestsForVenture (venturesState w) ventureId.

Definition membersOf (w : World) (ventureId : string) : list VentureMember :=
  getMembersForVenture (venturesState w) ventureId.

End VentureDetail64.

(* ------------------------------------------------------------------ *)
(** ** Scenarios from the real start-up state, amounts as doubles *)

Module Scenario64.
Import PrimFloat JSNumber.
Import MockData (proposed, ongoing, finished, volunteer, contributing_volunteer,
  sponsor, co_owner, admin, buyer, viewer).
Import MockData64.
Import VenturesStore (Approved, Denied).
Import VenturesStore64.
Import VentureDetail (AppUser, Build_AppUser, username, displayName).
Import VentureDetail64.
Local Open Scope float_scope.
#[local] Set Warnings "-inexact-float".

(** The decimal digits of a whole number held in a double. *)
Definition wholeToString (x : float) : string :=
  match FloatOps.Prim2SF x with
  | SpecFloat.S754_zero _ => "0"
  | SpecFloat.S754_infinity s => if s then "-Infinity" else "Infinity"
  | SpecFloat.S754_nan => "NaN"
  | SpecFloat.S754_finite s m e =>
      let digits :=
        if (0 <=? e)%Z then show (Z.pos m * 2 ^ e)%Z
        else show (Z.pos m / 2 ^ (- e))%Z in
      if s then "-" +:+ digits else digits
  end.

(** Number-to-string conversion for the scenarios: right on whole numbers
    and on the two fractional amounts the scenarios print. *)
Definition numberToString (x : float) : string :=
  if x =? 256.1 then "256.1"
  else if x =? 1452.2 then "1452.2"
  else wholeToString x.

(** [SEED_NOTIFICATIONS], for a module loaded at [startup]. *)
Definition SEED_NOTIFICATIONS (startup : Z) : list NotificationsStore.Notification :=
  [ {| NotificationsStore.n_id := "n1";
       NotificationsStore.n_type := NotificationsStore.join_accepted;
       NotificationsStore.n_title := "Request Accepted!";
       NotificationsStore.n_body :=
         "Ravi Kumar accepted your request to join LBS Road Cleanup as a Volunteer.";
       NotificationsStore.n_timestamp := (startup - 1000 * 60 * 30)%Z;
       NotificationsStore.n_read := false;
       NotificationsStore.n_ventureId := Some "v1" |};
    {| NotificationsStore.n_id := "n2";
       NotificationsStore.n_type := NotificationsStore.venture_activated;
       NotificationsStore.n_title := "Venture Activated";
       NotificationsStore.n_body :=
         "Juhu Beach Mega Clean-Up has moved from Proposed to Active. Get ready!";
       NotificationsStore.n_timestamp := (startup - 1000 * 60 * 60 * 2)%Z;
       NotificationsStore.n_read := false;
       NotificationsStore.n_ventureId := Some "v2" |};
    {| NotificationsStore.n_id := "n3";
       NotificationsStore.n_type := NotificationsStore.task_assigned;
       NotificationsStore.n_title := "New Task: Waste Segregation";
       NotificationsStore.n_body :=
         "You've been assigned the 'Waste Segregation' task in Sabarmati Riverfront Drive.";
       NotificationsStore.n_timestamp := (startup - 1000 * 60 * 60 * 5)%Z;
       NotificationsStore.n_read := true;
       NotificationsStore.n_ventureId := Some "v3" |};
    {| NotificationsStore.n_id := "n4";
       NotificationsStore.n_type := NotificationsStore.contribution;
       NotificationsStore.n_title := "Contribution Received";
       NotificationsStore.n_body :=
         "Priya Mehta contributed ₹500 to your venture Vadodara Old City Heritage Walk.";
       NotificationsStore.n_timestamp := (startup - 1000 * 60 * 60 * 24)%Z;
       NotificationsStore.n_read := true;
       NotificationsStore.n_ventureId := Some "v1" |} ].

Definition at_ (minute : Z) : Clock :=
  {| now := (1770000000000 + 60000 * minute)%Z;
     iso := "2026-02-02T02:" +:+ show (40 + minute)%Z +:+ ":00.000Z" |}.

(** The random part of the [k]-th event id of a handler run. *)
Definition rnd (k : nat) : string := "r" +:+ show (Z.of_nat k).

(** The stores once every provider has loaded and nothing was saved. *)
Definition start : World :=
  {| venturesState :=
       VenturesStore64.reducer VenturesStore64.initialState VenturesStore64.firstLoad;
     walletState :=
       WalletStore64.reducer (at_ 0) WalletStore64.initialState WalletStore64.firstLoad;
     activityState :=
       ActivityStore.reducer
         {| ActivityStore.events := ∅; ActivityStore.loaded := false |}
         (ActivityStore.LOAD ∅);
     notifications := SEED_NOTIFICATIONS 1770000000000 |}.

(** The demo users of the auth store. *)
Definition abhijeet : AppUser :=
  {| username := "abhijeet"; displayName := "Abhijeet Patil" |}.
Definition priya : AppUser := {| username := "priya"; displayName := "Priya Mehta" |}.
Definition rahul : AppUser := {| username := "rahul"; displayName := "Rahul Desai" |}.

(** The venture detail screen of [id] as [user] sees it:
    [ventures.find(v => v.id === id) || MOCK_VENTURES[0]]. *)
Definition ventureShown (w : World) (id : string) : option Venture :=
  match List.find (fun v => bool_decide (v_id v = id)) (ventures (venturesState w)) with
  | Some v => Some v
  | None => head MOCK_VENTURES
  end.

Definition screenOn (w : World) (id : string) (user : AppUser) : Screen :=
  {| venture := default (Build_Venture "" "" proposed false 0 0 0 "") (ventureShown w id);
     authUser := Some user |}.

(** The request a user has on a venture, [jr-<Date.now()>] of the minute it
    was sent. *)
Definition requestSentAt (w : World) (ventureId : string) (minute : Z)
    : JoinRequest :=
  default
    (Build_JoinRequest "" "" "" None volunteer None 0 "" None)
    (List.find (fun r => bool_decide (jr_id r = "jr-" +:+ show (now (at_ minute))))
               (requestsOf w ventureId)).


(** priya asks to join v6 (Lodhi Garden) pledging 1452.2, and abhijeet, its
    co-owner, approves. *)
Definition priyaAsksV6 : World :=
  perform (at_ 1) rnd
    (sendRequest (screenOn start "v6" priya) (at_ 1) contributing_volunteer None 1452.2 "")
    start.

Definition priyaOnV6 : World :=
  perform (at_ 2) rnd
    (decide (screenOn priyaAsksV6 "v6" abhijeet) (at_ 2) numberToString
            (requestSentAt priyaAsksV6 "v6" 1) Approved)
    priyaAsksV6.

(** She then asks to join v9 (Bengaluru greenway) pledging 256.1, is
    approved by abhijeet, its admin, and leaves again. *)
Definition priyaAsksV9 : World :=
  perform (at_ 3) rnd
    (sendRequest (screenOn priyaOnV6 "v9" priya) (at_ 3) volunteer None 256.1 "")
    priyaOnV6.



(** The scenario of the specification: bob holds 1000 and pledges 300 on
    v1. *)
Definition bob : AppUser := {| username := "bob"; displayName := "Bob" |}.


(** The seed request of GreenCorp on v1: a pitch of 2000 and no account. *)
Definition greenCorp : JoinRequest :=
  default (Build_JoinRequest "" "" "" None volunteer None 0 "" None)
          (List.find (fun r => bool_decide (jr_id r = "jr3")) (requestsOf start "v1")).

End Scenario64.

(* ------------------------------------------------------------------ *)
(** ** lib/cart-store, prices and quantities as doubles *)

Module CartStore64.
Import PrimFloat JSNumber.
Import CartStore (CartItemType, product, service, CartItemStatus, pending, purchased).
Local Open Scope float_scope.

Record CartItem := {
  ci_id : string;
  ci_itemId : string;
  ci_itemType : CartItemType;
  ci_name : string;
  ci_image : string;
  ci_price : float;
  ci_quantity : float;
  ci_ventureId : option string;   (* null = personal cart *)
  ci_ventureName : option string;
  ci_status : CartItemStatus;
  ci_addedAt : string;
}.

Record State := {
  items : list CartItem;
  loaded : bool;
}.

Inductive Action :=
| LOAD (items : list CartItem)
| ADD (item : CartItem)
| REMOVE (id : string)
| UPDATE_QTY (id : string) (quantity : float)
| CHECKOUT_VENTURE (ventureId : string)
| CHECKOUT_PERSONAL.

(** [{ ...i, quantity }] *)
Definition withQuantity (i : CartItem) (quantity : float) : CartItem :=
  {| ci_id := ci_id i; ci_itemId := ci_itemId i; ci_itemType := ci_itemType i;
     ci_name := ci_name i; ci_image := ci_image i; ci_price := ci_price i;
     ci_quantity := quantity;
     ci_ventureId := ci_ventureId i; ci_ventureName := ci_ventureName i;
     ci_status := ci_status i; ci_addedAt := ci_addedAt i |}.

(** [{ ...i, status }] *)
Definition withStatus (i : CartItem) (status : CartItemStatus) : CartItem :=
  {| ci_id := ci_id i; ci_itemId := ci_itemId i; ci_itemType := ci_itemType i;
     ci_name := ci_name i; ci_image := ci_image i; ci_price := ci_price i;
     ci_quantity := ci_quantity i;
     ci_ventureId := ci_ventureId i; ci_ventureName := ci_ventureName i;
     ci_status := status; ci_addedAt := ci_addedAt i |}.

Definition setItems (s : State) (x : list CartItem) : State :=
  {| items := x; loaded := loaded s |}.

Definition reducer (state : State) (action : Action) : State :=
  match action with
  | LOAD its => {| items := its; loaded := true |}

  | ADD item =>
      (* If same item+venture already in cart, increment qty instead *)
      match List.find
              (fun i => bool_decide (ci_itemId i = ci_itemId item)
                        && bool_decide (ci_ventureId i = ci_ventureId item)
                        && bool_decide (ci_status i = pending))
              (items state) with
      | Some existing =>
          setItems state
            (map (fun i => if bool_decide (ci_id i = ci_id existing)
                           then withQuantity i (ci_quantity i + 1) else i)
                 (items state))
      | None => setItems state (item :: items state)
      end

  | REMOVE id =>
      setItems state
        (List.filter (fun i => negb (bool_decide (ci_id i = id))) (items state))

  | UPDATE_QTY id quantity =>
      setItems state
        (map (fun i => if bool_decide (ci_id i = id)
                       then withQuantity i (Math_max 1 quantity) else i)
             (items state))

  | CHECKOUT_VENTURE ventureId =>
      setItems state
        (map (fun i => if bool_decide (ci_ventureId i = Some ventureId)
                          && bool_decide (ci_status i = pending)
                       then withStatus i purchased else i)
             (items state))

  | CHECKOUT_PERSONAL =>
      setItems state
        (map (fun i => if bool_decide (ci_ventureId i = None)
                          && bool_decide (ci_status i = pending)
                       then withStatus i purchased else i)
             (items state))
  end.

(** [useReducer(reducer, { items: [], loaded: false })], and the load of a
    first start, when nothing was saved. *)
Definition initialState : State := {| items := []; loaded := false |}.

Definition firstLoad : Action := LOAD [].

(** What the marketplace hands to [addToCart]. *)
Record NewItem := {
  ni_itemId : string;
  ni_itemType : CartItemType;
  ni_name : string;
  ni_image : string;
  ni_price : float;
  ni_quantity : float;
  ni_ventureId : option string;
  ni_ventureName : option string;
}.

(** [addToCart]: the provider stamps the id, the date and the pending
    status; [random] is [Math.random().toString(36).slice(2, 7)]. *)
Definition addToCart (clk : Clock) (random : string) (item : NewItem) : Action :=
  ADD {| ci_id := "cart-" +:+ show (now clk) +:+ "-" +:+ random;
         ci_itemId := ni_itemId item; ci_itemType := ni_itemType item;
         ci_name := ni_name item; ci_image := ni_image item;
         ci_price := ni_price item; ci_quantity := ni_quantity item;
         ci_ventureId := ni_ventureId item; ci_ventureName := ni_ventureName item;
         ci_status := pending; ci_addedAt := iso clk |}.

End CartStore64.

(* ------------------------------------------------------------------ *)
(** ** The cart screen, amounts as doubles *)

Module CartScreen64.
Import PrimFloat JSNumber.
Import MockData (VentureStatus, proposed, ongoing, finished,
  UserPrivilege, co_owner, admin, buyer, viewer,
  TransactionType, contribution, purchase, cashout, refund).
Import MockData64.
Import VenturesStore (VentureMember, m_privilege, m_isOwner).
Import VenturesStore64.
Import VentureDetail (AppUser, username, displayName).
Import VentureDetail64 (World, Dispatch, ToVentures, ToWallet, AddNotification,
  venturesState, walletState, activityState, notifications).
Local Open Scope float_scope.

(** The stores the cart screen works on. *)
Record Stores := {
  base : World;
  cartState : CartStore64.State;
}.

Inductive CartDispatch :=
| ToBase (d : Dispatch)
| ToCart (a : CartStore64.Action).

Definition dispatch (clk : Clock) (random : string) (s : Stores) (d : CartDispatch)
    : Stores :=
  match d with
  | ToBase d =>
      {| base := VentureDetail64.dispatch clk random (base s) d;
         cartState := cartState s |}
  | ToCart a =>
      {| base := base s; cartState := CartStore64.reducer (cartState s) a |}
  end.

(** The calls of one handler, applied in order; the [k]-th call draws
    [rnd k]. *)
Fixpoint runFrom (clk : Clock) (rnd : nat -> string) (k : nat) (s : Stores)
    (ds : list CartDispatch) : Stores :=
  match ds with
  | [] => s
  | d :: ds => runFrom clk rnd (S k) (dispatch clk (rnd k) s d) ds
  end.

Definition run (clk : Clock) (rnd : nat -> string) (s : Stores)
    (ds : list CartDispatch) : Stores :=
  runFrom clk rnd 0 s ds.

Definition perform (clk : Clock) (rnd : nat -> string)
    (handler : Stores -> list CartDispatch) (s : Stores) : Stores :=
  run clk rnd s (handler s).

Record WalletOption := {
  wo_key : string;
  wo_label : string;
  wo_balance : float;
  wo_ventureId : option string;
}.

(** [names.join(', ')] *)
Definition joinNames (names : list string) : string :=
  match names with
  | [] => ""
  | n :: names => fold_left (fun acc m => acc +:+ ", " +:+ m) names n
  end.

Section Checkout.
Variable toLowerCase : string -> string.
Variable str_includes : string -> string -> bool.
Variable numberToString : float -> string.
Variable cartAuthUser : option AppUser.
Variable selectedWalletKey : string.
Variable s : Stores.

Definition personalBalance : float :=
  match cartAuthUser with
  | Some u => WalletStore64.getBalance (walletState (base s)) (username u)
  | None => 0
  end.

Definition pendingItems : list CartStore64.CartItem :=
  List.filter (fun i => bool_decide (CartStore64.ci_status i = CartStore.pending))
              (CartStore64.items (cartState s)).

(** Wallet options: personal + ventures where user is buyer or co-owner. *)
Definition myVentures : list Venture :=
  match cartAuthUser with
  | None => []
  | Some u =>
      List.filter
        (fun v =>
           if negb (bool_decide (v_status v = proposed))
              && negb (bool_decide (v_status v = ongoing))
           then false
           else
             let member := getMemberForUser (venturesState (base s)) (v_id v) (username u) in
             (* Legacy fallback: check ownerName contains username *)
             let isLegacyOwner :=
               negb (bool_decide (is_Some member))
               && (bool_decide (v_ownerName v = displayName u)
                   || str_includes (toLowerCase (v_ownerName v))
                                   (toLowerCase (username u))) in
             if isLegacyOwner then true
             else match member with
                  | Some m =>
                      bool_decide (m_privilege m = Some co_owner)
                      || bool_decide (m_privilege m = Some buyer)
                      || default false (m_isOwner m)
                  | None => false
                  end)
        (ventures (venturesState (base s)))
  end.

(** Venture wallet balance from transactions (not the stale
    [currentFunding] field). *)
Definition getVentureBalance (ventureId : string) : float :=
  sum_by tx_amount (getVentureTxs (venturesState (base s)) ventureId).

Definition walletOptions : list WalletOption :=
  {| wo_key := "personal"; wo_label := "Personal Wallet";
     wo_balance := personalBalance; wo_ventureId := None |}
  :: map (fun v => {| wo_key := v_id v; wo_label := v_name v;
                      wo_balance := getVentureBalance (v_id v);
                      wo_ventureId := Some (v_id v) |})
         myVentures.

Definition walletItems : list CartStore64.CartItem :=
  if bool_decide (selectedWalletKey = "personal")
  then List.filter (fun i => bool_decide (CartStore64.ci_ventureId i = None)) pendingItems
  else List.filter (fun i => bool_decide (CartStore64.ci_ventureId i = Some selectedWalletKey))
                   pendingItems.

Definition selectedWallet : option WalletOption :=
  List.find (fun o => bool_decide (wo_key o = selectedWalletKey)) walletOptions.

Definition subtotal : float :=
  sum_by (fun i => CartStore64.ci_price i * CartStore64.ci_quantity i) walletItems.

Definition hasItems : bool := bool_decide (0 < length walletItems)%nat.

Definition delivery : float := if hasItems then 50 else 0.

Definition total : float := subtotal + delivery.

(** [(selectedWallet?.balance ?? 0) >= total] *)
Definition hasEnoughFunds : bool :=
  total <=? default 0 (wo_balance <$> selectedWallet).

Definition itemNames : string :=
  joinNames (map CartStore64.ci_name (take 2 walletItems)).

Definition moreItems : string :=
  if bool_decide (2 < length walletItems)%nat
  then " +" +:+ show (Z.of_nat (length walletItems) - 2)%Z +:+ " more"
  else "".

(** [handleCheckout], with the confirmation dialog answered "Confirm". *)
Definition handleCheckout (clk : Clock) : list CartDispatch :=
  if negb hasItems || negb hasEnoughFunds then []
  else if bool_decide (selectedWalletKey = "personal") then
    match cartAuthUser with
    | Some u => [ ToBase (ToWallet (WalletStore64.DEDUCT (username u) total
                                      (Some "Cart Checkout"))) ]
    | None => []
    end
    ++ [ ToCart CartStore64.CHECKOUT_PERSONAL;
         ToBase (AddNotification NotificationsStore.general "Order Placed"
                   ("₹" +:+ numberToString total +:+ " paid from Personal Wallet for "
                    +:+ itemNames +:+ moreItems +:+ ".")
                   None) ]
  else
    (* Deduct from venture wallet by adding a negative transaction *)
    [ ToBase (ToVentures (ADD_VENTURE_TX selectedWalletKey
        {| tx_id := "tx-cart-" +:+ show (now clk);
           tx_ventureId := selectedWalletKey;
           tx_type := purchase;
           tx_amount := - total;
           tx_description := "Supplies purchase";
           tx_timestamp := iso clk;
           tx_username := default "Unknown" (displayName <$> cartAuthUser) |}));
      ToCart (CartStore64.CHECKOUT_VENTURE selectedWalletKey);
      ToBase (AddNotification NotificationsStore.general "Order Placed"
                ("₹" +:+ numberToString total +:+ " paid from "
                 +:+ default "venture" (wo_label <$> selectedWallet)
                 +:+ " wallet for " +:+ itemNames +:+ moreItems +:+ ".")
                (Some selectedWalletKey)) ].

End Checkout.

End CartScreen64.

(* ------------------------------------------------------------------ *)
(** ** A cart on the start-up stores *)

Module CartScenario64.
Import PrimFloat.
Import VentureDetail (AppUser).
Import Scenario64.
Local Open Scope float_scope.

(** Two products of the marketplace, put in v1's cart: 2 packs of trash
    bags at 80 and 4 pairs of gloves at 45. *)
Definition trashBags : CartStore64.NewItem :=
  {| CartStore64.ni_itemId := "p5"; CartStore64.ni_itemType := CartStore.product;
     CartStore64.ni_name := "Trash Bags (Pack of 20)";
     CartStore64.ni_image :=
       "https://images.unsplash.com/photo-1542601906897-ecd5e2b5b8b0?w=400&q=80";
     CartStore64.ni_price := 80; CartStore64.ni_quantity := 2;
     CartStore64.ni_ventureId := Some "v1";
     CartStore64.ni_ventureName := Some "Sayaji Park Cleanup" |}.

Definition gloves : CartStore64.NewItem :=
  {| CartStore64.ni_itemId := "p1"; CartStore64.ni_itemType := CartStore.product;
     CartStore64.ni_name := "Heavy Duty Gloves";
     CartStore64.ni_image :=
       "https://images.unsplash.com/photo-1583947581924-860bda6a26df?w=400&q=80";
     CartStore64.ni_price := 45; CartStore64.ni_quantity := 4;
     CartStore64.ni_ventureId := Some "v1";
     CartStore64.ni_ventureName := Some "Sayaji Park Cleanup" |}.

(** The stores after a first start, with the two products added to the
    cart at minutes 1 and 2. *)
Definition cart : CartStore64.State :=
  fold_left CartStore64.reducer
    [ CartStore64.firstLoad;
      CartStore64.addToCart (at_ 1) "a1b2c" gloves;
      CartStore64.addToCart (at_ 2) "d3e4f" trashBags ]
    CartStore64.initialState.

Definition cartStores : CartScreen64.Stores :=
  {| CartScreen64.base := start; CartScreen64.cartState := cart |}.

End CartScenario64.

(* ------------------------------------------------------------------ *)
(** * Properties *)

(** ** Shared list facts *)

Lemma includes_elem_of {A : Type} `{EqDecision A} (l : list A) (x : A) :
  includes l x = true ↔ x ∈ l.
Proof.
  unfold includes. rewrite existsb_exists. split.
  - intros (y & Hin & Heq). apply bool_decide_eq_true in Heq. subst y.
    by apply list_elem_of_In.
  - intros Hin. exists x. split; [by apply list_elem_of_In |].
    by apply bool_decide_eq_true.
Qed.

Lemma sum_by_from {A : Type} (f : A -> Z) (xs : list A) (acc : Z) :
  fold_left (fun sum x => sum + f x) xs acc = acc + sum_by f xs.
Proof.
  unfold sum_by. revert acc.
  induction xs as [| x xs IH]; intros acc; simpl; [lia |].
  rewrite IH, (IH (0 + f x)). lia.
Qed.

Lemma sum_by_cons {A : Type} (f : A -> Z) (x : A) (xs : list A) :
  sum_by f (x :: xs) = f x + sum_by f xs.
Proof. unfold sum_by at 1. simpl. by rewrite sum_by_from. Qed.

(** [Math.round] of [r * (a / t)] is the nearest integer to [r * a / t],
    ties upwards. *)
Lemma Math_round_ratio (r a t : Z) :
  0 < t →
  Math_round (Qmult (inject_Z r) (Qdiv (inject_Z a) (inject_Z t)))
  = (2 * r * a + t) / (2 * t).
Proof.
  intros Ht. unfold Math_round. rewrite Zdiv_Qdiv. apply Qfloor_comp.
  rewrite inject_Z_plus, !inject_Z_mult.
  assert (Hne : ¬ Qeq (inject_Z t) 0%Q).
  { change 0%Q with (inject_Z 0). rewrite inject_Z_injective. lia. }
  field. exact Hne.
Qed.

(** ** Permission model *)

Section PermissionFacts.
Import MockData Permissions.

(** C7.  The owner flag short-circuits [can] to true for every privilege
    (null included) and every permission; without it [can] is exactly a
    membership test in [PRIVILEGE_PERMISSIONS], so a viewer cannot
    COMPLETE_TASK, a non-member can VIEW_VENTURE, and a permission outside
    the privilege's list is refused. *)
Theorem can_owner_override_and_table_lookup :
  (∀ privilege permission, can privilege permission true = true)
  ∧ can (Some viewer) COMPLETE_TASK false = false
  ∧ can None VIEW_VENTURE false = true
  ∧ (∀ privilege permission,
       can privilege permission false = true
       ↔ permission ∈ PRIVILEGE_PERMISSIONS privilege)
  ∧ (∀ privilege permission,
       can privilege permission false = false
       ↔ permission ∉ PRIVILEGE_PERMISSIONS privilege).
Proof.
  split; [done |]. split; [done |]. split; [done |].
  assert (Hlookup : ∀ privilege permission,
             can privilege permission false = true
             ↔ permission ∈ PRIVILEGE_PERMISSIONS privilege).
  { intros privilege permission. unfold can. apply includes_elem_of. }
  split; [exact Hlookup |].
  intros privilege permission. rewrite <- Hlookup.
  destruct (can privilege permission false); split; congruence.
Qed.

End PermissionFacts.

(** ** Wallet ledger *)

Section WalletFacts.
Import WalletStore.

Lemma getOrCreateWallet_insert wallets authUsername wallet :
  getOrCreateWallet (<[authUsername := wallet]> wallets) authUsername = wallet.
Proof. unfold getOrCreateWallet. by rewrite lookup_insert_eq. Qed.

Lemma getOrCreateWallet_insert_ne wallets authUsername other wallet :
  authUsername ≠ other →
  getOrCreateWallet (<[authUsername := wallet]> wallets) other
  = getOrCreateWallet wallets other.
Proof. intros Hne. unfold getOrCreateWallet. by rewrite lookup_insert_ne. Qed.

Lemma getBalance_TOPUP clk state authUsername amount label :
  getBalance (reducer clk state (TOPUP authUsername amount label)) authUsername
  = getBalance state authUsername + amount.
Proof. unfold getBalance. simpl. by rewrite getOrCreateWallet_insert. Qed.

Lemma getBalance_TOPUP_ne clk state authUsername other amount label :
  authUsername ≠ other →
  getBalance (reducer clk state (TOPUP authUsername amount label)) other
  = getBalance state other.
Proof.
  intros Hne. unfold getBalance. simpl. by rewrite getOrCreateWallet_insert_ne.
Qed.

Lemma getBalance_DEDUCT clk state authUsername amount label :
  getBalance (reducer clk state (DEDUCT authUsername amount label)) authUsername
  = Z.max 0 (getBalance state authUsername - amount).
Proof. unfold getBalance. simpl. by rewrite getOrCreateWallet_insert. Qed.

Lemma getBalance_DEDUCT_ne clk state authUsername other amount label :
  authUsername ≠ other →
  getBalance (reducer clk state (DEDUCT authUsername amount label)) other
  = getBalance state other.
Proof.
  intros Hne. unfold getBalance. simpl. by rewrite getOrCreateWallet_insert_ne.
Qed.



End WalletFacts.

(** ** Venture registry and join requests *)

Section VenturesStoreFacts.
Import MockData VenturesStore Reference.

(** C10.  Called without an [authUsername], [hasRequestedJoin] answers true
    exactly when the venture has at least one join request, whatever its
    status and whoever filed it. *)
Theorem hasRequestedJoin_without_user state ventureId :
  hasRequestedJoin state ventureId None = true
  ↔ ∃ r, r ∈ getJoinRequestsForVenture state ventureId.
Proof.
  unfold hasRequestedJoin, getJoinRequestsForVenture. simpl.
  destruct (default [] (joinRequests state !! ventureId)) as [| r rs]; simpl.
  - split; [discriminate |]. intros [r Hr]. by apply not_elem_of_nil in Hr.
  - split; [| done]. intros _. exists r. apply list_elem_of_here.
Qed.

(** The empty string is falsy too, and takes the same branch. *)
Lemma hasRequestedJoin_empty_user state ventureId :
  hasRequestedJoin state ventureId (Some "")
  = hasRequestedJoin state ventureId None.
Proof. reflexivity. Qed.

(** A decided request of approved or denied status still counts. *)
Example hasRequestedJoin_counts_decided_requests :
  let state := VentureDetail.venturesState Scenario.afterCompletion in
  hasRequestedJoin state "v1" None = true
  ∧ hasRequestedJoin state "v1" (Some "priya") = false.
Proof. split; reflexivity. Qed.

(** With a user name the test is scoped to that user's pending requests. *)
Lemma hasRequestedJoin_for_user state ventureId authUsername :
  authUsername ≠ "" →
  hasRequestedJoin state ventureId (Some authUsername) = true
  ↔ ∃ r, r ∈ getJoinRequestsForVenture state ventureId
         ∧ jr_authUsername r = Some authUsername ∧ isPending r = true.
Proof.
  intros Hne. unfold hasRequestedJoin, getJoinRequestsForVenture. simpl.
  rewrite (proj2 (String.eqb_neq authUsername "") Hne). simpl.
  rewrite existsb_exists. split.
  - intros (r & Hin & Hr). apply andb_true_iff in Hr as [Hu Hp].
    apply bool_decide_eq_true in Hu. exists r.
    split; [by apply list_elem_of_In | done].
  - intros (r & Hin & Hu & Hp). exists r.
    split; [by apply list_elem_of_In |].
    apply andb_true_iff. split; [by apply bool_decide_eq_true | done].
Qed.

(** REJECT_ALL_PENDING_REQUESTS, the action meant for venture completion:
    every pending request of the venture becomes denied and the decided ones
    stay as they are. *)
Lemma REJECT_ALL_PENDING_REQUESTS_denies_pending state ventureId :
  getJoinRequestsForVenture (reducer state (REJECT_ALL_PENDING_REQUESTS ventureId))
                            ventureId
  = map (fun r => if isPending r then withStatus r denied else r)
        (getJoinRequestsForVenture state ventureId)
  ∧ Forall (fun r => isPending r = false)
      (getJoinRequestsForVenture
         (reducer state (REJECT_ALL_PENDING_REQUESTS ventureId)) ventureId).
Proof.
  unfold getJoinRequestsForVenture. simpl. rewrite lookup_insert_eq. simpl.
  split; [done |].
  induction (default [] (joinRequests state !! ventureId)) as [| r rs IH];
    simpl; constructor; [| exact IH].
  destruct (isPending r) eqn:Hr; [reflexivity | exact Hr].
Qed.

(** What ADD_JOIN_REQUEST does guard against: a request whose [id] is
    already stored for the venture. *)
Lemma ADD_JOIN_REQUEST_same_id_ignored state ventureId request r :
  r ∈ getJoinRequestsForVenture state ventureId →
  jr_id r = jr_id request →
  reducer state (ADD_JOIN_REQUEST ventureId request) = state.
Proof.
  unfold getJoinRequestsForVenture. intros Hin Hid. simpl.
  destruct (existsb _ _) eqn:Hex; [done |].
  apply not_true_iff_false in Hex. exfalso. apply Hex.
  apply existsb_exists. exists r. split; [by apply list_elem_of_In |].
  by apply bool_decide_eq_true.
Qed.

(** C8 (evaluation at the failing input).  priya already has the pending
    request [jr1] on v1; a second submission from the join dialog carries a
    fresh [id], passes the id-based duplicate check and is stored: priya
    then has two pending requests on v1. *)
Theorem duplicate_pending_request_is_stored :
  let state := VentureDetail.venturesState Scenario.seedWorld in
  let state' := reducer state (ADD_JOIN_REQUEST "v1" Scenario.jrPriyaAgain) in
  pendingRequestsOf state "v1" "priya" = [Scenario.jr1]
  ∧ pendingRequestsOf state' "v1" "priya" = [Scenario.jr1; Scenario.jrPriyaAgain].
Proof. split; reflexivity. Qed.

(** C9 (counterexample).  v1 is finished; asking for the status proposed,
    which is not an allowed transition, is applied all the same. *)
Lemma finished_venture_can_be_reopened :
  let state := VentureDetail.venturesState Scenario.afterCompletion in
  let state' := reducer state (updateVentureStatus "v1" proposed) in
  map v_status (ventures state) = [finished; proposed]
  ∧ allowedTransition finished proposed = false
  ∧ map v_status (ventures state') = [proposed; proposed].
Proof. repeat split; reflexivity. Qed.

(** C9 (amended).  [updateVentureStatus id status] is applied
    unconditionally by the store: every venture whose id is [id] takes the
    new status whatever its current one and keeps every other field, every
    other venture is unchanged, and so are the requests, the rosters, the
    ledgers, the pledges and the loaded flag.  Only the screen restricts the
    change: the status controls it renders offer proposed to ongoing and
    ongoing to finished, to who holds CHANGE_VENTURE_STATUS, and nothing
    else. *)
Theorem updateVentureStatus_unconditional state id status :
  let state' := reducer state (updateVentureStatus id status) in
  ventures state'
  = map (fun v => if bool_decide (v_id v = id)
                  then {| v_id := v_id v; v_name := v_name v; v_status := status;
                          v_isFree := v_isFree v; v_budget := v_budget v;
                          v_currentFunding := v_currentFunding v;
                          v_eac := v_eac v; v_ownerName := v_ownerName v |}
                  else v)
        (ventures state)
  ∧ map v_status (ventures state')
    = map (fun v => if bool_decide (v_id v = id) then status else v_status v)
          (ventures state)
  ∧ joinRequests state' = joinRequests state
  ∧ members state' = members state
  ∧ ventureTxs state' = ventureTxs state
  ∧ pledges state' = pledges state
  ∧ loaded state' = loaded state
  ∧ (∀ toLowerCase str_includes w scr to,
       to ∈ Access.statusChangesOffered toLowerCase str_includes w scr
       ↔ Access.canDo toLowerCase str_includes w scr Permissions.CHANGE_VENTURE_STATUS
         = true
         ∧ allowedTransition (v_status (VentureDetail.venture scr)) to = true).
Proof.
  split; [done |].
  split; [simpl; rewrite map_map; apply map_ext; intros v;
          by destruct (bool_decide (v_id v = id)) |].
  do 5 (split; [done |]).
  intros toLowerCase str_includes w scr to.
  unfold Access.statusChangesOffered, Access.statusControls.
  destruct (Access.canDo toLowerCase str_includes w scr Permissions.CHANGE_VENTURE_STATUS);
    destruct (v_status (VentureDetail.venture scr)); destruct to; simpl;
    (split; [intros H | intros [H1 H2]]); try done;
    first [ by apply list_elem_of_here | set_solver ].
Qed.

End VenturesStoreFacts.

(** ** Pledge and settlement engine *)

Section SettlementFacts.
Import MockData VenturesStore.
Import VentureDetail (World, Screen, Dispatch, ToVentures, ToWallet,
  venturesState, walletState, venture, authUser, username, dispatch, run,
  perform, handlePledgeDeduct, handleMemberRefund, handleVentureCompletion,
  markComplete, payoutFor, refundAmountOf, shareOf, isLoggedInAs, remainingOf,
  storedTxs, summaryRemaining, balanceOf, pledgesOf, ledgerOf, requestsOf).

(** [p => p.authUsername === u] and [p => p.authUsername !== u]. *)
Local Abbreviation is_user u := (fun p => bool_decide (p_authUsername p = u)).
Local Abbreviation not_user u := (fun p => negb (bool_decide (p_authUsername p = u))).

Lemma find_not_user (u : string) (ps : list Pledge) :
  List.find (is_user u) (List.filter (not_user u) ps) = None.
Proof.
  induction ps as [| p ps IH]; simpl; [done |].
  destruct (bool_decide (p_authUsername p = u)) eqn:Hp; simpl; [done |].
  by rewrite Hp.
Qed.

Lemma find_is_user_None (u : string) (ps : list Pledge) :
  List.find (is_user u) ps = None ↔ ∀ p, p ∈ ps → p_authUsername p ≠ u.
Proof.
  split.
  - intros Hnone p Hin Heq.
    apply list_elem_of_In in Hin.
    pose proof (find_none _ _ Hnone p Hin) as Hp. simpl in Hp.
    apply bool_decide_eq_false in Hp. done.
  - intros Hall. induction ps as [| p ps IH]; simpl; [done |].
    rewrite bool_decide_eq_false_2.
    + apply IH. intros q Hq. apply Hall. by apply list_elem_of_further.
    + apply Hall. apply list_elem_of_here.
Qed.

Lemma filter_not_user_clean (u : string) (ps : list Pledge) :
  ∀ p, p ∈ List.filter (not_user u) ps → p_authUsername p ≠ u.
Proof.
  intros p Hin. apply list_elem_of_In, filter_In in Hin as [_ Hp].
  apply negb_true_iff, bool_decide_eq_false in Hp. done.
Qed.

Lemma find_after_record (u : string) (ps : list Pledge) (pledge : Pledge) :
  p_authUsername pledge = u →
  List.find (is_user u) (List.filter (not_user u) ps ++ [pledge]) = Some pledge.
Proof.
  intros Hu. induction ps as [| p ps IH]; simpl.
  - by rewrite bool_decide_eq_true_2.
  - destruct (bool_decide (p_authUsername p = u)) eqn:Hp; simpl; [done |].
    by rewrite Hp.
Qed.

(** *** The refund path *)

Section Refund.
Variable scr : Screen.

Let v := v_id (venture scr).

(** Enter the branch of [handleMemberRefund] that the lookup result [Hfind]
    and the sign of the amount select. *)
Ltac refund_branch Hfind :=
  unfold perform, handleMemberRefund; fold v;
  unfold pledgesOf in Hfind; rewrite Hfind;
  try match goal with
      | Hpos : 0 < p_amount ?pledge |- _ =>
          rewrite (proj2 (Z.leb_gt (p_amount pledge) 0) Hpos)
      | Hle : p_amount ?pledge ≤ 0 |- _ =>
          rewrite (proj2 (Z.leb_le (p_amount pledge) 0) Hle)
      end.

Lemma refund_balance clk w authUsername displayName pledge :
  List.find (is_user authUsername) (pledgesOf w v) = Some pledge →
  0 < p_amount pledge →
  balanceOf (perform clk (handleMemberRefund scr clk authUsername displayName) w)
            authUsername
  = balanceOf w authUsername + p_amount pledge.
Proof.
  intros Hfind Hpos. refund_branch Hfind.
  unfold balanceOf. simpl. apply getBalance_TOPUP.
Qed.

Lemma refund_balance_other clk w authUsername displayName pledge other :
  List.find (is_user authUsername) (pledgesOf w v) = Some pledge →
  0 < p_amount pledge →
  authUsername ≠ other →
  balanceOf (perform clk (handleMemberRefund scr clk authUsername displayName) w) other
  = balanceOf w other.
Proof.
  intros Hfind Hpos Hne. refund_branch Hfind.
  unfold balanceOf. simpl. by apply getBalance_TOPUP_ne.
Qed.

Lemma refund_pledges clk w authUsername displayName pledge :
  List.find (is_user authUsername) (pledgesOf w v) = Some pledge →
  0 < p_amount pledge →
  pledgesOf (perform clk (handleMemberRefund scr clk authUsername displayName) w) v
  = List.filter (not_user authUsername) (pledgesOf w v).
Proof.
  intros Hfind Hpos. refund_branch Hfind.
  unfold pledgesOf, getPledgesForVenture. simpl. by rewrite lookup_insert_eq.
Qed.

Lemma refund_ledger clk w authUsername displayName pledge :
  List.find (is_user authUsername) (pledgesOf w v) = Some pledge →
  0 < p_amount pledge →
  ∃ tx,
    ledgerOf (perform clk (handleMemberRefund scr clk authUsername displayName) w) v
    = tx :: ledgerOf w v
    ∧ tx_type tx = refund ∧ tx_amount tx = p_amount pledge.
Proof.
  intros Hfind Hpos. refund_branch Hfind.
  eexists. unfold ledgerOf, getVentureTxs. simpl. rewrite lookup_insert_eq.
  done.
Qed.

Lemma refund_not_found clk w authUsername displayName :
  List.find (is_user authUsername) (pledgesOf w v) = None →
  perform clk (handleMemberRefund scr clk authUsername displayName) w = w.
Proof. intros Hfind. by refund_branch Hfind. Qed.

Lemma refund_nothing_pledged clk w authUsername displayName pledge :
  List.find (is_user authUsername) (pledgesOf w v) = Some pledge →
  p_amount pledge ≤ 0 →
  perform clk (handleMemberRefund scr clk authUsername displayName) w = w.
Proof. intros Hfind Hle. by refund_branch Hfind. Qed.

(** C4.  When the lookup finds a pledge of the user with amount > 0, the
    refund credits the user's wallet by exactly that amount (no other wallet
    moves), removes the user's pledge record from the venture and puts
    exactly one refund-type transaction of that amount on the venture's
    ledger.  When the user has no pledge on the venture, or the pledge found
    has amount <= 0, nothing changes at all.  In particular a second refund
    right after the first (made on the stores as the first one left them)
    never changes anything. *)
Theorem handleMemberRefund_exactly_once clk clk' w authUsername displayName :
  let w' := perform clk (handleMemberRefund scr clk authUsername displayName) w in
  (∀ pledge,
     List.find (is_user authUsername) (pledgesOf w v) = Some pledge →
     0 < p_amount pledge →
     balanceOf w' authUsername = balanceOf w authUsername + p_amount pledge
     ∧ (∀ other, authUsername ≠ other → balanceOf w' other = balanceOf w other)
     ∧ pledgesOf w' v = List.filter (not_user authUsername) (pledgesOf w v)
     ∧ (∀ p, p ∈ pledgesOf w' v → p_authUsername p ≠ authUsername)
     ∧ (∃ tx, ledgerOf w' v = tx :: ledgerOf w v
              ∧ tx_type tx = refund ∧ tx_amount tx = p_amount pledge))
  ∧ ((∀ p, p ∈ pledgesOf w v → p_authUsername p ≠ authUsername) → w' = w)
  ∧ (∀ pledge,
       List.find (is_user authUsername) (pledgesOf w v) = Some pledge →
       p_amount pledge ≤ 0 → w' = w)
  ∧ perform clk' (handleMemberRefund scr clk' authUsername displayName) w' = w'.
Proof.
  intros w'. subst w'.
  split; [| split; [| split]].
  - intros pledge Hfind Hpos.
    split; [by apply refund_balance |].
    split; [intros other Hne; by eapply refund_balance_other |].
    split; [by eapply refund_pledges |].
    split; [| by apply refund_ledger].
    erewrite refund_pledges by done. apply filter_not_user_clean.
  - intros Hnone. apply find_is_user_None in Hnone. by apply refund_not_found.
  - intros pledge Hfind Hle. by eapply refund_nothing_pledged.
  - destruct (List.find (is_user authUsername) (pledgesOf w v))
      as [pledge |] eqn:Hfind.
    + destruct (Z_lt_le_dec 0 (p_amount pledge)) as [Hpos | Hle].
      * apply refund_not_found.
        erewrite refund_pledges by done. apply find_not_user.
      * rewrite (refund_nothing_pledged clk _ _ _ _ Hfind Hle).
        by eapply refund_nothing_pledged.
    + rewrite (refund_not_found clk _ _ _ Hfind). by apply refund_not_found.
Qed.

End Refund.

(** priya's pledge of 300 on v1 is refunded once; the second call finds no
    pledge and leaves every store as it is. *)
Lemma handleMemberRefund_exactly_once_witness :
  let refundPriya clk :=
    perform clk (handleMemberRefund Scenario.ownerOnV1 clk "priya" "Priya M.") in
  balanceOf Scenario.afterApproval "priya" = 3200
  ∧ balanceOf (refundPriya Scenario.t1 Scenario.afterApproval) "priya" = 3500
  ∧ refundPriya Scenario.t2 (refundPriya Scenario.t1 Scenario.afterApproval)
    = refundPriya Scenario.t1 Scenario.afterApproval.
Proof.
  intros refundPriya. subst refundPriya. cbv beta.
  destruct (handleMemberRefund_exactly_once Scenario.ownerOnV1
              Scenario.t1 Scenario.t2 Scenario.afterApproval "priya" "Priya M.")
    as (Hrefund & _ & _ & Honce).
  split; [reflexivity |]. split; [| exact Honce].
  destruct (Hrefund
              {| p_authUsername := "priya"; p_displayName := "Priya M.";
                 p_amount := 300; p_ventureId := "v1" |})
    as (Hbalance & _); [reflexivity | simpl; lia |].
  rewrite Hbalance. reflexivity.
Defined.

(** *** Pledge deduction followed by refund *)

Section PledgeRoundTrip.
Variable scr : Screen.

Let v := v_id (venture scr).

Lemma pledge_balance clk w authUsername displayName amount :
  balanceOf (perform clk (handlePledgeDeduct scr clk authUsername displayName amount) w)
            authUsername
  = Z.max 0 (balanceOf w authUsername - amount).
Proof.
  unfold balanceOf, WalletStore.getBalance. simpl.
  by rewrite getOrCreateWallet_insert.
Qed.

Lemma pledge_pledges clk w authUsername displayName amount :
  pledgesOf (perform clk (handlePledgeDeduct scr clk authUsername displayName amount) w) v
  = List.filter (not_user authUsername) (pledgesOf w v)
    ++ [ {| p_authUsername := authUsername; p_displayName := displayName;
            p_amount := amount; p_ventureId := v |} ].
Proof.
  unfold pledgesOf, getPledgesForVenture. simpl. by rewrite lookup_insert_eq.
Qed.

Lemma pledge_ledger clk w authUsername displayName amount :
  ∃ tx,
    ledgerOf (perform clk (handlePledgeDeduct scr clk authUsername displayName amount) w) v
    = tx :: ledgerOf w v
    ∧ tx_type tx = contribution ∧ tx_amount tx = amount.
Proof.
  eexists. unfold ledgerOf, getVentureTxs. simpl. rewrite lookup_insert_eq.
  done.
Qed.

End PledgeRoundTrip.

(** *** Settlement on completion *)

Lemma run_app clk w (ds1 ds2 : list Dispatch) :
  run clk w (ds1 ++ ds2) = run clk (run clk w ds1) ds2.
Proof. unfold run. apply fold_left_app. Qed.

Lemma run_cons clk w (d : Dispatch) (ds : list Dispatch) :
  run clk w (d :: ds) = run clk (dispatch clk w d) ds.
Proof. reflexivity. Qed.

Lemma isLoggedInAs_other scr (u u' : string) :
  isLoggedInAs scr u = true → isLoggedInAs scr u' = false → u ≠ u'.
Proof.
  unfold isLoggedInAs. destruct (authUser scr) as [a |]; [| done].
  intros Hu Hu' ->. congruence.
Qed.

(** Pledges that survive the removal of every user of [qs]. *)
Local Abbreviation survives qs :=
  (fun p => forallb (fun q => negb (bool_decide (p_authUsername p = p_authUsername q))) qs).

Lemma filter_survives_nil (ps : list Pledge) :
  List.filter (survives []) ps = ps.
Proof. induction ps as [| p ps IH]; simpl; [done |]. f_equal. exact IH. Qed.

Lemma filter_survives_cons (q : Pledge) (qs ps : list Pledge) :
  List.filter (survives qs) (List.filter (not_user (p_authUsername q)) ps)
  = List.filter (survives (q :: qs)) ps.
Proof.
  induction ps as [| p ps IH]; simpl; [done |].
  destruct (bool_decide (p_authUsername p = p_authUsername q)); simpl; [done |].
  destruct (forallb _ qs); simpl; by rewrite IH.
Qed.

Section Completion.
Variable scr : Screen.
Variable clk : Clock.

(** One payout writes to the wallet of the logged-in user and to the ledger
    only. *)
Lemma payout_frame ventureId remaining totalPledged (p : Pledge) w :
  let w' := run clk w (payoutFor scr clk ventureId remaining totalPledged p) in
  joinRequests (venturesState w') = joinRequests (venturesState w)
  ∧ pledges (venturesState w') = pledges (venturesState w)
  ∧ ventures (venturesState w') = ventures (venturesState w)
  ∧ ∀ u, isLoggedInAs scr u = false → balanceOf w' u = balanceOf w u.
Proof.
  unfold payoutFor.
  destruct (0 <? refundAmountOf remaining p totalPledged); simpl; [| done].
  destruct (isLoggedInAs scr (p_authUsername p)) eqn:Hlogged; simpl; [| done].
  repeat split; try done. intros u Hu.
  unfold balanceOf. simpl. apply getBalance_TOPUP_ne.
  by eapply isLoggedInAs_other.
Qed.

(** ... and so does the whole payout loop. *)
Lemma payouts_frame ventureId remaining totalPledged (ps : list Pledge) :
  ∀ w,
    let w' := run clk w (flat_map (payoutFor scr clk ventureId remaining totalPledged) ps) in
    joinRequests (venturesState w') = joinRequests (venturesState w)
    ∧ pledges (venturesState w') = pledges (venturesState w)
    ∧ ventures (venturesState w') = ventures (venturesState w)
    ∧ ∀ u, isLoggedInAs scr u = false → balanceOf w' u = balanceOf w u.
Proof.
  induction ps as [| p ps IH]; intros w; simpl; [done |].
  rewrite run_app.
  destruct (payout_frame ventureId remaining totalPledged p w)
    as (Hreq1 & Hpl1 & Hvs1 & Hbal1).
  destruct (IH (run clk w (payoutFor scr clk ventureId remaining totalPledged p)))
    as (Hreq & Hpl & Hvs & Hbal).
  rewrite Hreq, Hpl, Hvs, Hreq1, Hpl1, Hvs1.
  repeat split; try done. intros u Hu. by rewrite (Hbal u Hu), (Hbal1 u Hu).
Qed.

Lemma removals_frame ventureId (qs : list Pledge) :
  ∀ w,
    let w' := run clk w
                (map (fun p => ToVentures (REMOVE_PLEDGE ventureId (p_authUsername p))) qs) in
    joinRequests (venturesState w') = joinRequests (venturesState w)
    ∧ ventureTxs (venturesState w') = ventureTxs (venturesState w)
    ∧ ventures (venturesState w') = ventures (venturesState w)
    ∧ walletState w' = walletState w
    ∧ pledgesOf w' ventureId = List.filter (survives qs) (pledgesOf w ventureId).
Proof.
  induction qs as [| q qs IH]; intros w; cbn [map].
  - repeat split; try done. simpl. by rewrite filter_survives_nil.
  - rewrite run_cons.
    destruct (IH (dispatch clk w (ToVentures (REMOVE_PLEDGE ventureId (p_authUsername q)))))
      as (Hreq & Htx & Hvs & Hwal & Hpl).
    rewrite Hreq, Htx, Hvs, Hwal, Hpl. clear Hreq Htx Hvs Hwal Hpl.
    repeat split; try done.
    unfold pledgesOf, getPledgesForVenture. simpl. rewrite lookup_insert_eq.
    simpl. apply filter_survives_cons.
Qed.

Lemma nobody_survives_itself (ps : list Pledge) :
  List.filter (survives ps) ps = [].
Proof.
  assert (Hgen : ∀ qs, (∀ p, p ∈ qs → p ∈ ps) → List.filter (survives ps) qs = []).
  { induction qs as [| q qs IH]; intros Hsub; simpl; [done |].
    assert (Hq : q ∈ ps) by (apply Hsub, list_elem_of_here).
    replace (survives ps q) with false.
    - apply IH. intros p Hp. apply Hsub. by apply list_elem_of_further.
    - symmetry. apply not_true_iff_false. intros Hall.
      rewrite forallb_forall in Hall.
      apply list_elem_of_In in Hq. specialize (Hall q Hq).
      apply negb_true_iff, bool_decide_eq_false in Hall. done. }
  by apply Hgen.
Qed.

(** Bring in what [payouts_frame] says about the payout loop in the goal. *)
Ltac payouts_frame_in_goal Hreq Hpl Hvs Hbal :=
  match goal with
  | |- context [run clk ?w0 (flat_map (payoutFor scr clk ?v ?r ?t) ?ps)] =>
      destruct (payouts_frame v r t ps w0) as (Hreq & Hpl & Hvs & Hbal)
  end.

(** Settlement leaves no pledge record on the venture. *)
Lemma completion_clears_pledges ventureId w :
  pledgesOf (perform clk (handleVentureCompletion scr clk ventureId) w) ventureId = [].
Proof.
  unfold perform, handleVentureCompletion. rewrite run_app.
  set (ps := getPledgesForVenture (venturesState w) ventureId).
  match goal with
  | |- pledgesOf (run clk ?w1 _) _ = _ =>
      destruct (removals_frame ventureId ps w1) as (_ & _ & _ & _ & Hremoved);
      assert (Hsame : pledgesOf w1 ventureId = ps)
  end.
  { unfold pledgesOf, getPledgesForVenture.
    destruct (_ && _); [| done].
    payouts_frame_in_goal Hreq Hpl Hvs Hbal. by rewrite Hpl. }
  rewrite Hremoved, Hsame. apply nobody_survives_itself.
Qed.

(** Settlement, and the whole "Mark Complete" button, never write to the
    join requests: no REJECT_ALL_PENDING_REQUESTS is dispatched. *)
Lemma completion_leaves_requests w :
  joinRequests (venturesState (perform clk (markComplete scr clk) w))
  = joinRequests (venturesState w).
Proof.
  unfold perform, markComplete, handleVentureCompletion.
  rewrite run_cons, run_app.
  match goal with
  | |- joinRequests (venturesState (run clk ?w1 (map _ ?qs))) = _ =>
      destruct (removals_frame (v_id (venture scr)) qs w1) as (Hremoved & _)
  end.
  rewrite Hremoved. clear Hremoved.
  destruct (_ && _); [| done].
  payouts_frame_in_goal Hreq Hpl Hvs Hbal. by rewrite Hreq.
Qed.

(** Settlement credits nobody but the logged-in user. *)
Lemma completion_credits_logged_in_user_only ventureId w u :
  isLoggedInAs scr u = false →
  balanceOf (perform clk (handleVentureCompletion scr clk ventureId) w) u
  = balanceOf w u.
Proof.
  intros Hu. unfold perform, handleVentureCompletion. rewrite run_app.
  match goal with
  | |- balanceOf (run clk ?w1 (map _ ?qs)) _ = _ =>
      destruct (removals_frame ventureId qs w1) as (_ & _ & _ & Hwallet & _)
  end.
  unfold balanceOf in *. rewrite Hwallet. clear Hwallet.
  destruct (_ && _); [| done].
  payouts_frame_in_goal Hreq Hpl Hvs Hbal. by apply Hbal.
Qed.

(** With nothing pledged (or nothing remaining) settlement makes no payout:
    no wallet and no ledger moves. *)
Lemma completion_without_payout ventureId w :
  sum_by p_amount (pledgesOf w ventureId) ≤ 0
  ∨ remainingOf (storedTxs ventureId) ≤ 0 →
  let w' := perform clk (handleVentureCompletion scr clk ventureId) w in
  walletState w' = walletState w
  ∧ ventureTxs (venturesState w') = ventureTxs (venturesState w).
Proof.
  intros Hnone. unfold perform, handleVentureCompletion.
  fold (pledgesOf w ventureId).
  replace ((0 <? remainingOf (storedTxs ventureId))
           && (0 <? sum_by p_amount (pledgesOf w ventureId))) with false.
  - simpl.
    by destruct (removals_frame ventureId (pledgesOf w ventureId) w)
      as (_ & -> & _ & -> & _).
  - symmetry. apply andb_false_iff.
    destruct Hnone as [H | H]; [right | left]; apply Z.ltb_ge; lia.
Qed.

(** The handler looks at the pledges and at nothing else of the stores:
    whatever the live ledger holds, the dispatches are the same. *)
Lemma completion_reads_pledges_only ventureId w1 w2 :
  pledgesOf w1 ventureId = pledgesOf w2 ventureId →
  handleVentureCompletion scr clk ventureId w1
  = handleVentureCompletion scr clk ventureId w2.
Proof.
  unfold pledgesOf, handleVentureCompletion. by intros ->.
Qed.

(** The payout of a pledge is [remaining * amount / totalPledged] rounded to
    the nearest unit. *)
Lemma refundAmountOf_nearest remaining pledge totalPledged :
  0 < totalPledged →
  refundAmountOf remaining pledge totalPledged
  = (2 * remaining * p_amount pledge + totalPledged) / (2 * totalPledged).
Proof. intros Ht. unfold refundAmountOf, shareOf. by apply Math_round_ratio. Qed.

End Completion.

(** The pledges of the specification's example (alice 100, bob 150) against
    a remaining balance of 200 pay out 80 and 120. *)
Example refundAmountOf_alice_bob :
  let alice := {| p_authUsername := "alice"; p_displayName := "Alice";
                  p_amount := 100; p_ventureId := "v1" |} in
  let bob := {| p_authUsername := "bob"; p_displayName := "Bob";
                p_amount := 150; p_ventureId := "v1" |} in
  refundAmountOf 200 alice 250 = 80 ∧ refundAmountOf 200 bob 250 = 120.
Proof. split; reflexivity. Qed.

(** C1 (evaluation at the failing input).  abhijeet, the owner, approves
    priya's request (pledge 300) and marks v1 complete.  The payout computed
    for priya is 3650 and a cashout of 3650 in her name goes on the ledger,
    but her wallet stays at 3200: the credit is only made when the pledger is
    the logged-in user.  Had priya pressed the button herself she would hold
    6850. *)
Theorem completion_payout_not_credited :
  pledgesOf Scenario.afterApproval "v1"
  = [ {| p_authUsername := "priya"; p_displayName := "Priya M.";
         p_amount := 300; p_ventureId := "v1" |} ]
  ∧ remainingOf (storedTxs "v1") = 3650
  ∧ map (fun tx => (tx_type tx, tx_username tx, tx_amount tx))
        (take 1 (ledgerOf Scenario.afterCompletion "v1"))
    = [ (cashout, "Priya M.", 3650) ]
  ∧ length (ledgerOf Scenario.afterCompletion "v1")
    = S (length (ledgerOf Scenario.afterApproval "v1"))
  ∧ balanceOf Scenario.afterApproval "priya" = 3200
  ∧ balanceOf Scenario.afterCompletion "priya" = 3200
  ∧ balanceOf (perform Scenario.t1 (markComplete Scenario.priyaOnV1 Scenario.t1)
                 Scenario.afterApproval) "priya" = 6850.
Proof. repeat split; reflexivity. Qed.

(** C2 (evaluation at the failing input).  rahul's pledge of 300 on v3 has
    put a contribution of 300 on v3's ledger; the payout summary of the
    confirmation dialog, which reads the ledger, shows a remaining balance
    of 300.  The settlement reads the seed transactions instead, which hold
    nothing for v3: its remaining balance is 0, it dispatches no payout,
    only the removal of the pledge, and rahul stays at 2500. *)
Theorem completion_remaining_ignores_live_ledger :
  map (fun tx => (tx_type tx, tx_amount tx)) (ledgerOf Scenario.v3Approved "v3")
  = [ (contribution, 300) ]
  ∧ summaryRemaining Scenario.v3Approved "v3" = 300
  ∧ remainingOf (storedTxs "v3") = 0
  ∧ handleVentureCompletion Scenario.ownerOnV3 Scenario.t2 "v3" Scenario.v3Approved
    = [ ToVentures (REMOVE_PLEDGE "v3" "rahul") ]
  ∧ ledgerOf Scenario.v3Completed "v3" = ledgerOf Scenario.v3Approved "v3"
  ∧ balanceOf Scenario.seedWorld "rahul" = 2800
  ∧ balanceOf Scenario.v3Completed "rahul" = 2500.
Proof. repeat split; reflexivity. Qed.

(** C3 (evaluation at the failing input).  After the owner has marked v1
    complete the pledges of v1 are gone, but the two requests that were
    pending (jr2, jr3) are still pending: the completion handler never
    dispatches REJECT_ALL_PENDING_REQUESTS. *)
Theorem completion_leaves_pending_requests_pending :
  map v_status (ventures (venturesState Scenario.afterCompletion))
  = [finished; proposed]
  ∧ pledgesOf Scenario.afterCompletion "v1" = []
  ∧ map (fun r => (jr_id r, jr_status r)) (requestsOf Scenario.afterApproval "v1")
    = [ ("jr1", Some approved); ("jr2", Some pending); ("jr3", Some pending) ]
  ∧ map (fun r => (jr_id r, jr_status r)) (requestsOf Scenario.afterCompletion "v1")
    = [ ("jr1", Some approved); ("jr2", Some pending); ("jr3", Some pending) ].
Proof. repeat split; reflexivity. Qed.

(** What the store would do had the handler dispatched it. *)
Example rejectAllPendingRequests_on_v1 :
  map (fun r => (jr_id r, jr_status r))
      (getJoinRequestsForVenture
         (reducer (venturesState Scenario.afterCompletion)
                  (REJECT_ALL_PENDING_REQUESTS "v1")) "v1")
  = [ ("jr1", Some approved); ("jr2", Some denied); ("jr3", Some denied) ].
Proof. reflexivity. Qed.

End SettlementFacts.

(* ------------------------------------------------------------------ *)
(** * Further properties of the stores and screens *)

(** ** Wallet ledger over runs of actions *)

Section WalletRuns.
Import WalletStore.

Lemma wallet_step_lower_bound clk state a authUsername :
  Replay.walletEdit a = true →
  getBalance state authUsername + Replay.walletDelta authUsername a
  ≤ getBalance (reducer clk state a) authUsername.
Proof.
  destruct a as [ws | u amount label | u amount label];
    cbn [Replay.walletEdit Replay.walletDelta]; [done | |]; intros _.
  - destruct (decide (u = authUsername)) as [-> | Hne].
    + rewrite bool_decide_eq_true_2 by done. rewrite getBalance_TOPUP. lia.
    + rewrite bool_decide_eq_false_2 by done.
      rewrite getBalance_TOPUP_ne by done. lia.
  - destruct (decide (u = authUsername)) as [-> | Hne].
    + rewrite bool_decide_eq_true_2 by done. rewrite getBalance_DEDUCT. lia.
    + rewrite bool_decide_eq_false_2 by done.
      rewrite getBalance_DEDUCT_ne by done. lia.
Qed.



Lemma getTransactions_step clk state a authUsername :
  Replay.walletEdit a = true →
  length (getTransactions (reducer clk state a) authUsername)
  = (length (getTransactions state authUsername)
     + (if Replay.walletTouches authUsername a then 1 else 0))%nat.
Proof.
  unfold getTransactions.
  destruct a as [ws | u amount label | u amount label]; simpl; [done | |]; intros _.
  - destruct (decide (u = authUsername)) as [-> | Hne].
    + rewrite bool_decide_eq_true_2 by done.
      rewrite getOrCreateWallet_insert. simpl. lia.
    + rewrite bool_decide_eq_false_2 by done.
      rewrite getOrCreateWallet_insert_ne by done. lia.
  - destruct (decide (u = authUsername)) as [-> | Hne].
    + rewrite bool_decide_eq_true_2 by done.
      rewrite getOrCreateWallet_insert. simpl. lia.
    + rewrite bool_decide_eq_false_2 by done.
      rewrite getOrCreateWallet_insert_ne by done. lia.
Qed.

(** Every top-up or deduction leaves exactly one record in the history
    of the user it addresses and none in anybody else's: after a run, a
    user's history has grown by the number of actions addressed to that
    user (a deduction that was floored is recorded with its full amount all
    the same). *)
Theorem wallet_history_counts_actions clk actions state authUsername :
  forallb Replay.walletEdit actions = true →
  length (getTransactions (Replay.wallet clk actions state) authUsername)
  = (length (getTransactions state authUsername)
     + length (List.filter (Replay.walletTouches authUsername) actions))%nat.
Proof.
  revert state. induction actions as [| a actions IH]; intros state Hedit.
  - simpl. lia.
  - simpl in Hedit. apply andb_true_iff in Hedit as [Ha Hrest].
    unfold Replay.wallet in *. simpl.
    rewrite (IH _ Hrest), (getTransactions_step _ _ _ _ Ha).
    destruct (Replay.walletTouches authUsername a); simpl; lia.
Qed.

Lemma wallet_history_counts_actions_witness :
  length (getTransactions
            (Replay.wallet Scenario.t0
               [DEDUCT "rahul" 3000 None; TOPUP "priya" 100 "Wallet Top-Up";
                TOPUP "rahul" 100 "Wallet Top-Up"]
               {| wallets := ∅; loaded := true |}) "rahul") = 2%nat.
Proof.
  rewrite wallet_history_counts_actions; reflexivity.
Defined.

End WalletRuns.

(** ** Invariants of the ventures store *)

Section VenturesStoreRuns.
Import MockData VenturesStore.

(** Case analysis on an action of the ventures store, with the names the
    reducer gives to the payload. *)
Ltac destruct_action a :=
  destruct a as
    [ vs jrs ms txs ps | venture ownerMember | id patch
    | ventureId0 request | ventureId0 requestId status | ventureId0
    | ventureId0 member | ventureId0 memberId | ventureId0 memberId patch
    | ventureId0 tx | pledge | ventureId0 authUsername ].

(** Facts on [List.filter] and [map] used below. *)
Lemma NoDup_map_filter {A B : Type} (f : A → B) (g : A → bool) (l : list A) :
  NoDup (map f l) → NoDup (map f (List.filter g l)).
Proof.
  induction l as [| x l IH]; simpl; [done |].
  rewrite NoDup_cons. intros [Hx Hl].
  destruct (g x); simpl; [| by apply IH].
  apply NoDup_cons. split; [| by apply IH].
  intros Hin. apply Hx.
  apply list_elem_of_In, in_map_iff in Hin as (y & Hy & Hyin).
  apply filter_In in Hyin as [Hyin _].
  apply list_elem_of_In, in_map_iff. by exists y.
Qed.

Lemma existsb_false_not_in {A B : Type} `{EqDecision B} (f : A → B) (b : B) (l : list A) :
  existsb (fun x => bool_decide (f x = b)) l = false → b ∉ map f l.
Proof.
  intros Hex Hin. apply list_elem_of_In, in_map_iff in Hin as (x & Hx & Hxin).
  apply not_true_iff_false in Hex. apply Hex.
  apply existsb_exists. exists x. split; [done |]. by apply bool_decide_eq_true.
Qed.

Lemma NoDup_map_snoc {A B : Type} (f : A → B) (l : list A) (x : A) :
  NoDup (map f l) → f x ∉ map f l → NoDup (map f (l ++ [x])).
Proof.
  intros Hl Hx. rewrite map_app. simpl. apply NoDup_app.
  split; [done |]. split; [| apply NoDup_singleton].
  intros y Hy Hy'. apply list_elem_of_singleton in Hy'. by subst y.
Qed.

(** *** The ledger *)

Lemma ledger_step state a ventureId :
  Replay.venturesEdit a = true →
  getVentureTxs state ventureId `suffix_of` getVentureTxs (reducer state a) ventureId.
Proof.
  unfold getVentureTxs.
  destruct_action a; simpl; try done; intros _.
  - by destruct (existsb _ _).
  - by destruct (existsb _ _).
  - destruct (decide (ventureId0 = ventureId)) as [-> | Hne].
    + rewrite lookup_insert_eq. simpl. by apply suffix_cons_r.
    + by rewrite lookup_insert_ne.
Qed.

(** X3.  The venture ledger is append-only: whatever actions other than a
    wholesale LOAD are dispatched, the ledger a venture had before is still
    there afterwards, entry for entry, below whatever was added. *)
Theorem ledger_append_only actions state ventureId :
  forallb Replay.venturesEdit actions = true →
  getVentureTxs state ventureId
  `suffix_of` getVentureTxs (Replay.ventures actions state) ventureId.
Proof.
  revert state. induction actions as [| a actions IH]; intros state Hedit.
  - done.
  - simpl in Hedit. apply andb_true_iff in Hedit as [Ha Hrest].
    unfold Replay.ventures in *. simpl.
    etrans; [by apply ledger_step | by apply IH].
Qed.

(** Two entries are written in the course of a run, a contribution and a
    purchase: both end up on top of v1's seed entries, which are still
    there below them. *)
Lemma ledger_append_only_witness :
  let state := VentureDetail.venturesState Scenario.seedWorld in
  let gift :=
    {| tx_id := "tx-1770000000000"; tx_ventureId := "v1"; tx_type := contribution;
       tx_username := "You"; tx_amount := 100;
       tx_description := "Member contribution";
       tx_timestamp := "2026-02-02T02:40:00.000Z" |} in
  let order :=
    {| tx_id := "tx-cart-1770000060000"; tx_ventureId := "v1"; tx_type := purchase;
       tx_username := "Abhijeet P."; tx_amount := -230;
       tx_description := "Supplies purchase";
       tx_timestamp := "2026-02-02T02:41:00.000Z" |} in
  let state' :=
    Replay.ventures
      [ ADD_VENTURE_TX "v1" gift;
        UPDATE_JOIN_REQUEST_STATUS "v1" "jr1" Approved;
        REMOVE_PLEDGE "v1" "priya";
        ADD_VENTURE_TX "v1" order;
        updateVentureStatus "v1" finished ]
      state in
  getVentureTxs state "v1" `suffix_of` getVentureTxs state' "v1"
  ∧ getVentureTxs state' "v1" = order :: gift :: getVentureTxs state "v1"
  ∧ length (getVentureTxs state "v1") = 5%nat.
Proof.
  intros state gift order state'.
  split; [by apply ledger_append_only | split; reflexivity].
Defined.

(** *** Join requests *)

Lemma sameRequestDecided_trans r1 r2 r3 :
  Replay.sameRequestDecided r1 r2 → Replay.sameRequestDecided r2 r3 → Replay.sameRequestDecided r1 r3.
Proof.
  intros [-> | [d ->]] [-> | [d' ->]]; [by left | right; by exists d'
                                        | right; by exists d | right; by exists d'].
Qed.

Lemma sameRequestDecided_stays_decided r r' :
  Replay.sameRequestDecided r r' → isPending r = false → isPending r' = false.
Proof. intros [-> | [d ->]]; [done |]. intros _. by destruct d. Qed.

Lemma requests_step state a ventureId i r :
  Replay.venturesEdit a = true →
  getJoinRequestsForVenture state ventureId !! i = Some r →
  ∃ r', getJoinRequestsForVenture (reducer state a) ventureId !! i = Some r'
        ∧ Replay.sameRequestDecided r r'.
Proof.
  unfold getJoinRequestsForVenture.
  destruct_action a; simpl; try done; intros _ Hr;
    try (exists r; split; [done | by left]).
  - destruct (existsb _ _); simpl; [exists r; split; [done | by left] |].
    destruct (decide (ventureId0 = ventureId)) as [-> | Hne].
    + rewrite lookup_insert_eq. simpl. exists r. split; [| by left].
      by apply lookup_app_l_Some.
    + rewrite lookup_insert_ne by done. exists r. split; [done | by left].
  - destruct (decide (ventureId0 = ventureId)) as [-> | Hne].
    + rewrite lookup_insert_eq. simpl. rewrite list_lookup_fmap, Hr. simpl.
      eexists. split; [done |].
      destruct (bool_decide _); [right; by exists status | by left].
    + rewrite lookup_insert_ne by done. exists r. split; [done | by left].
  - destruct (decide (ventureId0 = ventureId)) as [-> | Hne].
    + rewrite lookup_insert_eq. simpl. rewrite list_lookup_fmap, Hr. simpl.
      eexists. split; [done |].
      destruct (isPending r); [right; by exists Denied | by left].
    + rewrite lookup_insert_ne by done. exists r. split; [done | by left].
  - destruct (existsb _ _); exists r; (split; [done | by left]).
Qed.

(** X4.  Join requests are never deleted, reordered or rewritten, and a
    decision is never taken back: after any run of actions other than LOAD a
    stored request is still at its place, identical except that a decision
    (approved or denied) may have been written into its status; a request
    that was decided is still decided. *)
Theorem requests_persist_and_stay_decided actions state ventureId i r :
  forallb Replay.venturesEdit actions = true →
  getJoinRequestsForVenture state ventureId !! i = Some r →
  ∃ r', getJoinRequestsForVenture (Replay.ventures actions state) ventureId !! i
        = Some r'
        ∧ Replay.sameRequestDecided r r'
        ∧ (isPending r = false → isPending r' = false).
Proof.
  revert state r. induction actions as [| a actions IH]; intros state r Hedit Hr.
  - exists r. split; [done |]. split; [by left | done].
  - simpl in Hedit. apply andb_true_iff in Hedit as [Ha Hrest].
    destruct (requests_step state a ventureId i r Ha Hr) as (r1 & Hr1 & Hsame1).
    destruct (IH (reducer state a) r1 Hrest Hr1) as (r' & Hr' & Hsame & _).
    exists r'. split; [exact Hr' |].
    assert (Hall : Replay.sameRequestDecided r r') by by eapply sameRequestDecided_trans.
    split; [exact Hall | by apply sameRequestDecided_stays_decided].
Qed.

Lemma requests_persist_and_stay_decided_witness :
  ∃ r', getJoinRequestsForVenture
          (Replay.ventures
             [ UPDATE_JOIN_REQUEST_STATUS "v1" "jr1" Approved;
               ADD_JOIN_REQUEST "v1" Scenario.jrPriyaAgain;
               REJECT_ALL_PENDING_REQUESTS "v1" ]
             (VentureDetail.venturesState Scenario.seedWorld)) "v1" !! 0%nat
        = Some r'
        ∧ Replay.sameRequestDecided Scenario.jr1 r'
        ∧ (isPending Scenario.jr1 = false → isPending r' = false).
Proof.
  apply (requests_persist_and_stay_decided
           [ UPDATE_JOIN_REQUEST_STATUS "v1" "jr1" Approved;
             ADD_JOIN_REQUEST "v1" Scenario.jrPriyaAgain;
             REJECT_ALL_PENDING_REQUESTS "v1" ]
           (VentureDetail.venturesState Scenario.seedWorld) "v1" 0%nat Scenario.jr1);
    reflexivity.
Defined.

(** *** Pledges and members *)

Lemma not_in_map_filter_out {A B : Type} `{EqDecision B} (f : A → B) (b : B) (l : list A) :
  b ∉ map f (List.filter (fun y => negb (bool_decide (f y = b))) l).
Proof.
  intros Hin. apply list_elem_of_In, in_map_iff in Hin as (y & Hy & Hyin).
  apply filter_In in Hyin as [_ Hneq].
  apply negb_true_iff, bool_decide_eq_false in Hneq. done.
Qed.

Lemma pledges_step state a ventureId :
  Replay.venturesEdit a = true →
  NoDup (map p_authUsername (getPledgesForVenture state ventureId)) →
  NoDup (map p_authUsername (getPledgesForVenture (reducer state a) ventureId)).
Proof.
  unfold getPledgesForVenture.
  destruct_action a; simpl; try done; intros _ Hnodup.
  - by destruct (existsb _ _).
  - by destruct (existsb _ _).
  - destruct (decide (p_ventureId pledge = ventureId)) as [<- | Hne].
    + rewrite lookup_insert_eq. simpl. apply NoDup_map_snoc.
      * by apply NoDup_map_filter.
      * apply not_in_map_filter_out.
    + by rewrite lookup_insert_ne.
  - destruct (decide (ventureId0 = ventureId)) as [-> | Hne].
    + rewrite lookup_insert_eq. simpl. by apply NoDup_map_filter.
    + by rewrite lookup_insert_ne.
Qed.

(** X5.  At most one pledge per user and venture: if no user holds two
    pledge records on a venture, then after any run of actions other than
    LOAD no user does (a new pledge of the same user supersedes the old
    one). *)
Theorem one_pledge_per_user actions state ventureId :
  forallb Replay.venturesEdit actions = true →
  NoDup (map p_authUsername (getPledgesForVenture state ventureId)) →
  NoDup (map p_authUsername
           (getPledgesForVenture (Replay.ventures actions state) ventureId)).
Proof.
  revert state. induction actions as [| a actions IH]; intros state Hedit Hnodup.
  - done.
  - simpl in Hedit. apply andb_true_iff in Hedit as [Ha Hrest].
    unfold Replay.ventures in *. simpl. apply IH; [done |].
    by apply pledges_step.
Qed.

(** priya pledges 300 and then 500 on v1, rahul pledges 200: two records,
    priya's is the one of 500. *)
Lemma one_pledge_per_user_witness :
  let pledge u n a := {| p_authUsername := u; p_displayName := n;
                         p_amount := a; p_ventureId := "v1" |} in
  let actions := [ RECORD_PLEDGE (pledge "priya" "Priya M." 300);
                   RECORD_PLEDGE (pledge "rahul" "Rahul D." 200);
                   RECORD_PLEDGE (pledge "priya" "Priya M." 500) ] in
  let state := VentureDetail.venturesState Scenario.seedWorld in
  map (fun p => (p_authUsername p, p_amount p))
      (getPledgesForVenture (Replay.ventures actions state) "v1")
  = [ ("rahul", 200); ("priya", 500) ]
  ∧ NoDup (map p_authUsername
             (getPledgesForVenture (Replay.ventures actions state) "v1")).
Proof.
  intros pledge actions state. split; [reflexivity |].
  apply one_pledge_per_user; [reflexivity |]. apply NoDup_nil_2.
Defined.

Lemma members_step state a ventureId :
  Replay.venturesEdit a = true →
  NoDup (map m_id (getMembersForVenture state ventureId)) →
  NoDup (map m_id (getMembersForVenture (reducer state a) ventureId)).
Proof.
  unfold getMembersForVenture.
  destruct_action a; simpl; try done; intros _ Hnodup.
  - destruct ownerMember as [owner |]; [| done].
    destruct (decide (v_id venture = ventureId)) as [<- | Hne].
    + rewrite lookup_insert_eq. simpl. apply NoDup_singleton.
    + by rewrite lookup_insert_ne.
  - by destruct (existsb _ _).
  - destruct (existsb _ _) eqn:Hex; [done |]. simpl.
    destruct (decide (ventureId0 = ventureId)) as [-> | Hne].
    + rewrite lookup_insert_eq. simpl. apply NoDup_map_snoc; [done |].
      by apply existsb_false_not_in.
    + by rewrite lookup_insert_ne.
  - destruct (decide (ventureId0 = ventureId)) as [-> | Hne].
    + rewrite lookup_insert_eq. simpl. by apply NoDup_map_filter.
    + by rewrite lookup_insert_ne.
  - destruct (decide (ventureId0 = ventureId)) as [-> | Hne].
    + rewrite lookup_insert_eq. simpl. rewrite map_map.
      erewrite map_ext; [exact Hnodup |].
      intros m. simpl. by destruct (bool_decide _).
    + by rewrite lookup_insert_ne.
Qed.

(** X6.  Member ids stay unique within a venture: adding a member whose id
    is already on the roster is ignored, so no run of actions other than
    LOAD can put two members with the same id on a roster that had none. *)
Theorem member_ids_stay_unique actions state ventureId :
  forallb Replay.venturesEdit actions = true →
  NoDup (map m_id (getMembersForVenture state ventureId)) →
  NoDup (map m_id (getMembersForVenture (Replay.ventures actions state) ventureId)).
Proof.
  revert state. induction actions as [| a actions IH]; intros state Hedit Hnodup.
  - done.
  - simpl in Hedit. apply andb_true_iff in Hedit as [Ha Hrest].
    unfold Replay.ventures in *. simpl. apply IH; [done |].
    by apply members_step.
Qed.

(** The approval of jr1 dispatched twice adds priya once. *)
Lemma member_ids_stay_unique_witness :
  let priya := {| m_id := "member-jr1"; m_username := "Priya M.";
                  m_authUsername := Some "priya"; m_role := contributing_volunteer;
                  m_privilege := Some buyer; m_isOwner := None |} in
  let actions := [ ADD_MEMBER "v1" priya; ADD_MEMBER "v1" priya ] in
  let state := VentureDetail.venturesState Scenario.seedWorld in
  map m_id (getMembersForVenture (Replay.ventures actions state) "v1")
  = [ "member-jr1" ]
  ∧ NoDup (map m_id (getMembersForVenture (Replay.ventures actions state) "v1")).
Proof.
  intros priya actions state. split; [reflexivity |].
  apply member_ids_stay_unique; [reflexivity |]. apply NoDup_nil_2.
Defined.

(** *** The seed ledger *)

Lemma group_by_venture (txs : list Transaction) (m : gmap string (list Transaction))
    (ventureId : string) :
  default []
    (fold_left
       (fun map tx =>
          <[tx_ventureId tx := default [] (map !! tx_ventureId tx) ++ [tx]]> map)
       txs m !! ventureId)
  = default [] (m !! ventureId)
    ++ List.filter (fun t => bool_decide (tx_ventureId t = ventureId)) txs.
Proof.
  revert m. induction txs as [| tx txs IH]; intros m; simpl.
  - by rewrite app_nil_r.
  - rewrite IH. destruct (decide (tx_ventureId tx = ventureId)) as [-> | Hne].
    + rewrite lookup_insert_eq, bool_decide_eq_true_2 by done. simpl.
      by rewrite <- app_assoc.
    + rewrite lookup_insert_ne, bool_decide_eq_false_2 by done. done.
Qed.

(** X7.  On a fresh store the ledger of every venture is exactly the seed
    transactions of that venture, in seed order: so before anything is
    written, the remaining balance the settlement computes (from the seed)
    and the one the confirmation dialog shows (from the ledger) agree. *)
Theorem seed_ledger_is_the_stored_transactions ventureId state :
  ventureTxs state = buildInitialVentureTxs →
  getVentureTxs state ventureId = VentureDetail.storedTxs ventureId
  ∧ VentureDetail.remainingOf (getVentureTxs state ventureId)
    = VentureDetail.remainingOf (VentureDetail.storedTxs ventureId).
Proof.
  intros Hseed.
  assert (Hsame : getVentureTxs state ventureId = VentureDetail.storedTxs ventureId).
  { unfold getVentureTxs, VentureDetail.storedTxs. rewrite Hseed.
    unfold buildInitialVentureTxs. rewrite group_by_venture.
    by rewrite lookup_empty. }
  split; [exact Hsame | by rewrite Hsame].
Qed.

Lemma seed_ledger_is_the_stored_transactions_witness :
  getVentureTxs (VentureDetail.venturesState Scenario.seedWorld) "v8"
  = VentureDetail.storedTxs "v8"
  ∧ VentureDetail.remainingOf
      (getVentureTxs (VentureDetail.venturesState Scenario.seedWorld) "v8")
    = VentureDetail.remainingOf (VentureDetail.storedTxs "v8").
Proof. by apply seed_ledger_is_the_stored_transactions. Defined.

End VenturesStoreRuns.

(** ** Privileges, standing and what the screens unlock *)

Section AccessFacts.
Import MockData VenturesStore Permissions.

(** X8.  The privilege levels nest: whatever a non-member may do a viewer
    may do, whatever a viewer may do a buyer and an admin may do, and a
    co-owner may do everything (so for a co-owner the owner flag adds
    nothing).  Buyer and admin do not nest: only the buyer may purchase
    supplies, only the admin may create tasks. *)
Theorem privileges_nest :
  (∀ p, can None p false = true → can (Some viewer) p false = true)
  ∧ (∀ p, can (Some viewer) p false = true → can (Some buyer) p false = true)
  ∧ (∀ p, can (Some viewer) p false = true → can (Some admin) p false = true)
  ∧ (∀ p, can (Some co_owner) p false = true)
  ∧ (∀ p isOwner, can (Some co_owner) p isOwner = true)
  ∧ can (Some buyer) PURCHASE_SUPPLIES false = true
  ∧ can (Some admin) PURCHASE_SUPPLIES false = false
  ∧ can (Some admin) CREATE_TASK false = true
  ∧ can (Some buyer) CREATE_TASK false = false.
Proof.
  repeat split; try reflexivity.
  - intros p. by destruct p.
  - intros p. by destruct p.
  - intros p. by destruct p.
  - intros p. by destruct p.
  - intros p isOwner. by destruct p, isOwner.
Qed.

Section Standing.
Variable toLowerCase : string → string.
Variable str_includes : string → string → bool.
Variable w : VentureDetail.World.
Variable scr : VentureDetail.Screen.

Local Abbreviation myMembership := (Access.myMembership w scr).
Local Abbreviation isLegacyOwner := (Access.isLegacyOwner toLowerCase str_includes w scr).
Local Abbreviation myPrivilege := (Access.myPrivilege toLowerCase str_includes w scr).
Local Abbreviation isOwnerFlag := (Access.isOwnerFlag toLowerCase str_includes w scr).
Local Abbreviation canDo := (Access.canDo toLowerCase str_includes w scr).
Local Abbreviation canJoin := (Access.canJoin toLowerCase str_includes w scr).
Local Abbreviation canSeeRequests := (Access.canSeeRequests toLowerCase str_includes w scr).
Local Abbreviation canSeeWallet := (Access.canSeeWallet toLowerCase str_includes w scr).
Local Abbreviation tabs := (Access.tabs toLowerCase str_includes w scr).

(** Split on everything the standing of the user is computed from. *)
Ltac standing_cases :=
  unfold Access.tabs, Access.canSeeRequests, Access.canSeeWallet, Access.canJoin,
    Access.canDo, Access.isCoOwner, Access.isOwnerFlag, Access.myPrivilege,
    Access.myRole, Access.isLegacyOwner;
  destruct (Access.myMembership w scr) as [[mid mname mauth mrole [[] |] [[] |]] |];
  destruct (VentureDetail.authUser scr) as [u |];
  try destruct (Access.ownerNameMatches toLowerCase str_includes
                  (VentureDetail.venture scr) u);
  cbn [m_privilege m_isOwner m_role default].

(** X9.  The tabs follow the permission table, but not the permission one
    would expect: the Requests tab is shown exactly to those who hold
    VIEW_REQUESTS, while the Wallet and Supplies tabs are shown exactly to
    those who hold PURCHASE_SUPPLIES, which is fewer than the holders of
    VIEW_WALLET and VIEW_SUPPLIES (a viewer or an admin holds both and sees
    neither tab).  Mission, Tasks and Members are always shown. *)
Theorem tabs_follow_permissions :
  canSeeRequests = canDo VIEW_REQUESTS
  ∧ canSeeWallet = canDo PURCHASE_SUPPLIES
  ∧ tabs
    = [Access.mission]
      ++ (if canDo VIEW_REQUESTS then [Access.requests] else [])
      ++ [Access.tasks]
      ++ (if canDo PURCHASE_SUPPLIES then [Access.wallet; Access.products] else [])
      ++ [Access.members]
  ∧ (∀ privilege, privilege = viewer ∨ privilege = admin →
       can (Some privilege) VIEW_WALLET false = true
       ∧ can (Some privilege) VIEW_SUPPLIES false = true
       ∧ can (Some privilege) PURCHASE_SUPPLIES false = false).
Proof.
  split; [standing_cases; reflexivity |].
  split; [standing_cases; reflexivity |].
  split; [standing_cases; reflexivity |].
  intros privilege [-> | ->]; repeat split.
Qed.

(** X10.  Whoever is offered the Join button is not on the roster and holds
    nothing but VIEW_VENTURE: the only tabs are Mission, Tasks and Members. *)
Theorem joiner_holds_nothing_but_view :
  canJoin = true →
  myMembership = None
  ∧ (∀ p, canDo p = true ↔ p = VIEW_VENTURE)
  ∧ tabs = [Access.mission; Access.tasks; Access.members].
Proof.
  standing_cases; simpl; try discriminate; intros _.
  all: split; [done |]; split; [| done].
  all: intros p; destruct p; split; (done || discriminate).
Qed.

(** A legacy owner (no member record, but the venture's owner name
    contains the user's name) holds every permission and sees every tab. *)
Theorem legacy_owner_holds_everything :
  isLegacyOwner = true →
  myMembership = None
  ∧ (∀ p, canDo p = true)
  ∧ canJoin = false
  ∧ tabs = [Access.mission; Access.requests; Access.tasks; Access.wallet;
            Access.products; Access.members].
Proof.
  standing_cases; simpl; try discriminate; intros _.
  all: split; [done |]; split; [| done].
  all: intros p; by destruct p.
Qed.

End Standing.

Section Eligibility.
Variable toLowerCase : string → string.
Variable str_includes : string → string → bool.

(** X11.  The marketplace and the cart agree on who buys for a venture: a
    venture is among the cart's wallet options exactly when it is in the
    store, and either the marketplace lets the user add supplies for it
    (the user is on its roster as owner, co-owner or buyer, and it is
    proposed or ongoing) or the user has no member record but matches its
    owner name. *)
Theorem cart_wallets_match_market_eligibility (user : VentureDetail.AppUser)
    (s : CartScreen.Stores) (v : Venture) :
  v ∈ CartScreen.myVentures toLowerCase str_includes (Some user) s
  ↔ v ∈ ventures (VentureDetail.venturesState (CartScreen.base s))
    ∧ (Access.eligibleVenture (CartScreen.base s) (Some user) v = true
       ∨ (v_status v ≠ finished
          ∧ getMemberForUser (VentureDetail.venturesState (CartScreen.base s))
              (v_id v) (VentureDetail.username user) = None
          ∧ Access.ownerNameMatches toLowerCase str_includes v user = true)).
Proof.
  unfold CartScreen.myVentures, Access.eligibleVenture.
  rewrite list_elem_of_In, filter_In, <- list_elem_of_In.
  apply and_iff_compat_l.
  destruct (getMemberForUser _ _ _) as [[mid mname mauth mrole [[] |] [[] |]] |];
    destruct (v_status v);
    destruct (Access.ownerNameMatches toLowerCase str_includes v user);
    simpl; split; intros H; try done; try (by left); try (by right);
    try (destruct H as [H | (H1 & H2 & H3)]; done).
Qed.

End Eligibility.

(** Nobody is on v1's roster yet: priya is offered the Join button. *)
Lemma joiner_holds_nothing_but_view_witness :
  Access.canJoin Examples.toLowerCase Examples.str_includes
    Scenario.seedWorld (Examples.onV1 Examples.priya) = true
  ∧ Access.tabs Examples.toLowerCase Examples.str_includes
      Scenario.seedWorld (Examples.onV1 Examples.priya)
    = [Access.mission; Access.tasks; Access.members].
Proof.
  split; [reflexivity |].
  apply (joiner_holds_nothing_but_view Examples.toLowerCase Examples.str_includes
           Scenario.seedWorld (Examples.onV1 Examples.priya)).
  reflexivity.
Defined.

(** ... while abhijeet, whose user name occurs in v1's owner name, is
    taken for its owner. *)
Lemma legacy_owner_holds_everything_witness :
  Access.isLegacyOwner Examples.toLowerCase Examples.str_includes
    Scenario.seedWorld (Examples.onV1 Examples.abhijeet) = true
  ∧ ∀ p, Access.canDo Examples.toLowerCase Examples.str_includes
           Scenario.seedWorld (Examples.onV1 Examples.abhijeet) p = true.
Proof.
  split; [reflexivity |].
  apply (legacy_owner_holds_everything Examples.toLowerCase Examples.str_includes
           Scenario.seedWorld (Examples.onV1 Examples.abhijeet)).
  reflexivity.
Defined.

End AccessFacts.

(** ** Deciding on join requests *)

Section DecisionFacts.
Import MockData VenturesStore.
Import VentureDetail (World, Screen, Dispatch, ToVentures, ToWallet,
  venturesState, walletState, venture, authUser, dispatch, run, perform,
  handlePledgeDeduct, handleMemberRefund, removeAndRefund,
  balanceOf, pledgesOf, ledgerOf, requestsOf).

Local Abbreviation is_user u := (fun p => bool_decide (p_authUsername p = u)).
Local Abbreviation not_user u := (fun p => negb (bool_decide (p_authUsername p = u))).

(** The member record an approval creates. *)
Local Abbreviation memberOf req :=
  {| m_id := "member-" +:+ jr_id req; m_username := jr_username req;
     m_authUsername := jr_authUsername req; m_role := jr_role req;
     m_privilege := jr_privilege req; m_isOwner := None |}.

Lemma truthy_Some (u : string) : u ≠ "" → truthy (Some u) = true.
Proof.
  intros Hne. unfold truthy. by rewrite (proj2 (String.eqb_neq u "") Hne).
Qed.

Section Decide.
Variable scr : Screen.
Variable clk : Clock.

(** The dispatches of an approval that carries a pledge. *)
Lemma decide_approved_with_pledge req u w :
  jr_authUsername req = Some u → u ≠ "" → 0 < jr_pitch req →
  VentureDetail.decide scr clk req Approved w
  = ToVentures (UPDATE_JOIN_REQUEST_STATUS (v_id (venture scr)) (jr_id req) Approved)
    :: handlePledgeDeduct scr clk u (jr_username req) (jr_pitch req) w
    ++ [ ToVentures (ADD_MEMBER (v_id (venture scr)) (memberOf req)) ].
Proof.
  intros Hu Hne Hpitch. unfold VentureDetail.decide. rewrite Hu.
  by rewrite (proj2 (Z.ltb_lt 0 (jr_pitch req)) Hpitch), (truthy_Some u Hne).
Qed.

Lemma filter_is_user_after_record (u : string) (ps : list Pledge) (pledge : Pledge) :
  p_authUsername pledge = u →
  List.filter (is_user u) (List.filter (not_user u) ps ++ [pledge]) = [pledge].
Proof.
  intros Hu. induction ps as [| p ps IH]; simpl.
  - by rewrite bool_decide_eq_true_2.
  - destruct (bool_decide (p_authUsername p = u)) eqn:Hp; simpl; [done |].
    by rewrite Hp.
Qed.

Lemma filter_is_user_of_not_user (u : string) (ps : list Pledge) :
  List.filter (is_user u) (List.filter (not_user u) ps) = [].
Proof.
  induction ps as [| p ps IH]; simpl; [done |].
  destruct (bool_decide (p_authUsername p = u)) eqn:Hp; simpl; [done |].
  by rewrite Hp.
Qed.

Lemma filter_fresh_id (id : string) (ms : list VentureMember) :
  id ∉ map m_id ms →
  List.filter (fun m => negb (bool_decide (m_id m = id))) ms = ms.
Proof.
  induction ms as [| m ms IH]; simpl; [done |].
  intros Hfresh. apply not_elem_of_cons in Hfresh as [Hm Hms].
  rewrite bool_decide_eq_false_2 by done. simpl. by rewrite IH.
Qed.

Lemma fresh_id_not_found (id : string) (ms : list VentureMember) :
  id ∉ map m_id ms →
  existsb (fun m => bool_decide (m_id m = id)) ms = false.
Proof.
  induction ms as [| m ms IH]; simpl; [done |].
  intros Hfresh. apply not_elem_of_cons in Hfresh as [Hm Hms].
  rewrite bool_decide_eq_false_2 by done. simpl. by apply IH.
Qed.

(** What the stores hold after an approval with pledge, field by field. *)
Lemma approval_effect req u w :
  jr_authUsername req = Some u → u ≠ "" → 0 < jr_pitch req →
  let v := v_id (venture scr) in
  let w' := perform clk (VentureDetail.decide scr clk req Approved) w in
  balanceOf w' u = Z.max 0 (balanceOf w u - jr_pitch req)
  ∧ pledgesOf w' v
    = List.filter (not_user u) (pledgesOf w v)
      ++ [ {| p_authUsername := u; p_displayName := jr_username req;
              p_amount := jr_pitch req; p_ventureId := v |} ]
  ∧ ledgerOf w' v
    = {| tx_id := "tx-pledge-" +:+ show (now clk); tx_ventureId := v;
         tx_type := contribution; tx_username := jr_username req;
         tx_amount := jr_pitch req; tx_description := "Pledge on joining";
         tx_timestamp := iso clk |} :: ledgerOf w v
  ∧ requestsOf w' v
    = map (fun r => if bool_decide (jr_id r = jr_id req)
                    then withStatus r approved else r) (requestsOf w v)
  ∧ getMembersForVenture (venturesState w') v
    = (if existsb (fun m => bool_decide (m_id m = "member-" +:+ jr_id req))
                  (getMembersForVenture (venturesState w) v)
       then getMembersForVenture (venturesState w) v
       else getMembersForVenture (venturesState w) v ++ [memberOf req]).
Proof.
  intros Hu Hne Hpitch v w'. subst v w'.
  unfold perform. rewrite (decide_approved_with_pledge req u w Hu Hne Hpitch).
  unfold balanceOf, pledgesOf, ledgerOf, requestsOf, WalletStore.getBalance,
    getPledgesForVenture, getVentureTxs, getJoinRequestsForVenture,
    getMembersForVenture.
  simpl.
  destruct (existsb _ (default [] (members (venturesState w) !! v_id (venture scr))));
    simpl; rewrite ?lookup_insert_eq, ?getOrCreateWallet_insert; simpl; done.
Qed.

(** X13.  Approving a request that carries a pledge the requester can
    afford debits exactly the pitch, leaves exactly one pledge record of
    that amount for the requester, puts one contribution of that amount on
    the ledger, marks the request approved and, when the id is not taken,
    adds the requester to the end of the roster with the role and the
    privilege asked for. *)
Theorem approval_with_pledge req u w :
  jr_authUsername req = Some u → u ≠ "" →
  0 < jr_pitch req → jr_pitch req ≤ balanceOf w u →
  let v := v_id (venture scr) in
  let w' := perform clk (VentureDetail.decide scr clk req Approved) w in
  balanceOf w' u = balanceOf w u - jr_pitch req
  ∧ List.filter (is_user u) (pledgesOf w' v)
    = [ {| p_authUsername := u; p_displayName := jr_username req;
           p_amount := jr_pitch req; p_ventureId := v |} ]
  ∧ (∃ tx, ledgerOf w' v = tx :: ledgerOf w v
           ∧ tx_type tx = contribution ∧ tx_amount tx = jr_pitch req)
  ∧ Forall (fun r => jr_id r = jr_id req → jr_status r = Some approved)
           (requestsOf w' v)
  ∧ ("member-" +:+ jr_id req ∉ map m_id (getMembersForVenture (venturesState w) v) →
     getMembersForVenture (venturesState w') v
     = getMembersForVenture (venturesState w) v ++ [memberOf req]).
Proof.
  intros Hu Hne Hpitch Hcovered v w'.
  destruct (approval_effect req u w Hu Hne Hpitch)
    as (Hbal & Hpl & Hled & Hreq & Hmem).
  fold v in Hbal, Hpl, Hled, Hreq, Hmem. fold w' in Hbal, Hpl, Hled, Hreq, Hmem.
  split; [rewrite Hbal; lia |].
  split; [rewrite Hpl; by apply filter_is_user_after_record |].
  split; [eexists; split; [exact Hled | done] |].
  split.
  - rewrite Hreq. apply Forall_forall. intros r Hin.
    apply list_elem_of_In, in_map_iff in Hin as (r0 & <- & _).
    destruct (bool_decide (jr_id r0 = jr_id req)) eqn:Hr0; [done |].
    apply bool_decide_eq_false in Hr0. done.
  - intros Hfresh. rewrite Hmem. by rewrite (fresh_id_not_found _ _ Hfresh).
Qed.

End Decide.

(** The owner approves priya's seed request jr1 (pitch 300, balance
    3500). *)
Lemma approval_with_pledge_witness :
  let w' := perform Scenario.t0
              (VentureDetail.decide Scenario.ownerOnV1 Scenario.t0 Scenario.jr1 Approved)
              Scenario.seedWorld in
  balanceOf Scenario.seedWorld "priya" = 3500
  ∧ balanceOf w' "priya" = 3500 - 300
  ∧ map m_id (getMembersForVenture (venturesState w') "v1") = ["member-jr1"].
Proof.
  intros w'. split; [reflexivity |]. split; [| reflexivity].
  destruct (approval_with_pledge Scenario.ownerOnV1 Scenario.t0 Scenario.jr1 "priya"
              Scenario.seedWorld) as (Hbal & _); [reflexivity | done | done | |].
  - vm_compute. discriminate.
  - exact Hbal.
Defined.

End DecisionFacts.

(** ** Settlement, once more *)

Section SettlementRuns.
Import MockData VenturesStore.
Import VentureDetail (World, Screen, Dispatch, ToVentures, ToWallet,
  venturesState, walletState, venture, authUser, dispatch, run, perform,
  handleVentureCompletion, markComplete, payoutFor, refundAmountOf, shareOf,
  isLoggedInAs, remainingOf, storedTxs, balanceOf, pledgesOf, ledgerOf, requestsOf).

(** *** How far the payouts are from the remaining balance *)

Lemma payout_brackets (r a t : Z) :
  0 < t →
  2 * t * ((2 * r * a + t) / (2 * t)) ≤ 2 * r * a + t
  ∧ 2 * r * a + t ≤ 2 * t * ((2 * r * a + t) / (2 * t)) + 2 * t - 1.
Proof.
  intros Ht.
  pose proof (Z.div_mod (2 * r * a + t) (2 * t) ltac:(lia)) as Hdm.
  pose proof (Z.mod_pos_bound (2 * r * a + t) (2 * t) ltac:(lia)) as Hm.
  lia.
Qed.

Lemma payouts_bracket (r t : Z) (ps : list Pledge) :
  0 < t →
  2 * t * sum_by (fun p => refundAmountOf r p t) ps
  ≤ 2 * r * sum_by p_amount ps + Z.of_nat (length ps) * t
  ∧ 2 * r * sum_by p_amount ps + Z.of_nat (length ps) * t
    ≤ 2 * t * sum_by (fun p => refundAmountOf r p t) ps
      + Z.of_nat (length ps) * (2 * t - 1).
Proof.
  intros Ht. induction ps as [| p ps IH].
  - unfold sum_by. simpl. lia.
  - rewrite !sum_by_cons. cbn [length].
    rewrite (refundAmountOf_nearest r p t Ht).
    pose proof (payout_brackets r (p_amount p) t Ht) as [Hlo Hhi].
    destruct IH as [IHlo IHhi]. split; nia.
Qed.

(** *** What settlement writes into the books *)

Section Books.
Variable scr : Screen.
Variable clk : Clock.

Lemma payout_books ventureId remaining totalPledged (p : Pledge) w :
  WalletTab.ventureBalance
    (run clk w (payoutFor scr clk ventureId remaining totalPledged p)) ventureId
  = WalletTab.ventureBalance w ventureId
    + Z.max 0 (refundAmountOf remaining p totalPledged).
Proof.
  unfold payoutFor, WalletTab.ventureBalance, getVentureTxs.
  destruct (0 <? refundAmountOf remaining p totalPledged) eqn:Hpos.
  - apply Z.ltb_lt in Hpos.
    destruct (isLoggedInAs scr (p_authUsername p)); simpl;
      rewrite lookup_insert_eq; simpl; rewrite sum_by_cons; simpl; lia.
  - apply Z.ltb_ge in Hpos. simpl. lia.
Qed.

Lemma payouts_books ventureId remaining totalPledged (ps : list Pledge) :
  ∀ w,
    WalletTab.ventureBalance
      (run clk w (flat_map (payoutFor scr clk ventureId remaining totalPledged) ps))
      ventureId
    = WalletTab.ventureBalance w ventureId
      + sum_by (fun p => Z.max 0 (refundAmountOf remaining p totalPledged)) ps.
Proof.
  induction ps as [| p ps IH]; intros w.
  - unfold sum_by. simpl. lia.
  - cbn [flat_map]. rewrite run_app, IH, payout_books, sum_by_cons. lia.
Qed.

Lemma payouts_keep_members ventureId remaining totalPledged (ps : list Pledge) :
  ∀ w,
    members (venturesState
               (run clk w (flat_map (payoutFor scr clk ventureId remaining totalPledged) ps)))
    = members (venturesState w).
Proof.
  induction ps as [| p ps IH]; intros w; [done |].
  cbn [flat_map]. rewrite run_app, IH. unfold payoutFor.
  destruct (0 <? refundAmountOf remaining p totalPledged); [| done].
  by destruct (isLoggedInAs scr (p_authUsername p)).
Qed.

Lemma removals_keep_members ventureId (qs : list Pledge) :
  ∀ w,
    members (venturesState
               (run clk w
                  (map (fun p => ToVentures (REMOVE_PLEDGE ventureId (p_authUsername p))) qs)))
    = members (venturesState w).
Proof.
  induction qs as [| q qs IH]; intros w; [done |].
  cbn [map]. by rewrite run_cons, IH.
Qed.

(** What the "Mark Complete" button writes and what it never writes:
    the venture shown (and no other) becomes finished and its pledges are
    cleared; the join requests and the rosters of all ventures are left
    untouched, and no wallet other than the logged-in user's is credited. *)
Theorem mark_complete_writes w :
  let v := v_id (venture scr) in
  let w' := perform clk (markComplete scr clk) w in
  map v_status (ventures (venturesState w'))
  = map (fun x => if bool_decide (v_id x = v) then finished else v_status x)
        (ventures (venturesState w))
  ∧ pledgesOf w' v = []
  ∧ joinRequests (venturesState w') = joinRequests (venturesState w)
  ∧ members (venturesState w') = members (venturesState w)
  ∧ (∀ u, isLoggedInAs scr u = false → balanceOf w' u = balanceOf w u).
Proof.
  intros v w'. subst w'.
  unfold perform, markComplete, handleVentureCompletion. fold v.
  rewrite run_cons, run_app.
  set (w0 := dispatch clk w (ToVentures (updateVentureStatus v finished))).
  set (ps := getPledgesForVenture (venturesState w) v).
  match goal with
  | |- context [run clk w0 ?payouts] => set (w1 := run clk w0 payouts)
  end.
  destruct (removals_frame clk v ps w1) as (Hreq & _ & Hvs & Hwal & Hpl).
  assert (Hw1 : joinRequests (venturesState w1) = joinRequests (venturesState w0)
                ∧ pledges (venturesState w1) = pledges (venturesState w0)
                ∧ ventures (venturesState w1) = ventures (venturesState w0)
                ∧ members (venturesState w1) = members (venturesState w0)
                ∧ ∀ u, isLoggedInAs scr u = false → balanceOf w1 u = balanceOf w0 u).
  { subst w1. destruct (_ && _); [| done].
    match goal with
    | |- context [flat_map (payoutFor scr clk v ?r ?t) ps] =>
        destruct (payouts_frame scr clk v r t ps w0) as (H1 & H2 & H3 & H4);
        pose proof (payouts_keep_members v r t ps w0) as H5
    end.
    done. }
  destruct Hw1 as (Hreq1 & Hpl1 & Hvs1 & Hmem1 & Hbal1).
  split; [| split; [| split; [| split]]].
  - rewrite Hvs, Hvs1. subst w0. simpl. rewrite map_map.
    apply map_ext. intros x. by destruct (bool_decide (v_id x = v)).
  - rewrite Hpl. unfold pledgesOf, getPledgesForVenture. rewrite Hpl1.
    subst w0. simpl. apply nobody_survives_itself.
  - by rewrite Hreq, Hreq1.
  - by rewrite removals_keep_members, Hmem1.
  - intros u Hu. unfold balanceOf in *. rewrite Hwal. by rewrite (Hbal1 u Hu).
Qed.

End Books.
End SettlementRuns.

(** ** Contributing from the wallet tab *)

Section ContributionFacts.
Import MockData VenturesStore.
Import VentureDetail (World, Screen, venturesState, walletState, venture,
  authUser, username, perform, balanceOf, pledgesOf).

End ContributionFacts.

(** ** The cart *)

Section CartFacts.
Import CartStore.

(** [i => i.itemId === item.itemId && i.ventureId === item.ventureId &&
    i.status === 'pending'] *)
Local Abbreviation same_line item :=
  (fun i => bool_decide (ci_itemId i = ci_itemId item)
            && bool_decide (ci_ventureId i = ci_ventureId item)
            && bool_decide (ci_status i = pending)).

Lemma bump_other_lines (id : string) (l : list CartItem) :
  id ∉ map ci_id l →
  map (fun i => if bool_decide (ci_id i = id)
                then withQuantity i (ci_quantity i + 1) else i) l = l.
Proof.
  induction l as [| x l IH]; simpl; [done |].
  intros Hfresh. apply not_elem_of_cons in Hfresh as [Hx Hl].
  rewrite bool_decide_eq_false_2 by done. by rewrite IH.
Qed.

Lemma bump_one_line (existing : CartItem) (l : list CartItem) :
  existing ∈ l → NoDup (map ci_id l) →
  sum_by ci_quantity
    (map (fun i => if bool_decide (ci_id i = ci_id existing)
                   then withQuantity i (ci_quantity i + 1) else i) l)
  = sum_by ci_quantity l + 1.
Proof.
  induction l as [| x l IH]; simpl; intros Hin Hnodup.
  - by apply not_elem_of_nil in Hin.
  - apply NoDup_cons in Hnodup as [Hx Hl].
    rewrite !sum_by_cons.
    apply elem_of_cons in Hin as [-> | Hin].
    + rewrite bool_decide_eq_true_2 by done. simpl.
      rewrite bump_other_lines by done. lia.
    + rewrite bool_decide_eq_false_2.
      * rewrite IH by done. lia.
      * intros Heq. apply Hx. rewrite Heq.
        apply list_elem_of_In, in_map, list_elem_of_In. done.
Qed.

(** X20.  Adding an item that already has a pending line for the same
    product and the same wallet does not add a line: with distinct line ids
    the cart keeps its lines and the total quantity grows by exactly one,
    whatever quantity the added item carried.  Without such a line the item
    becomes the first line of the cart. *)
Theorem add_merges_into_the_pending_line state item :
  let state' := reducer state (ADD item) in
  (∀ existing,
     List.find (same_line item) (items state) = Some existing →
     NoDup (map ci_id (items state)) →
     map ci_id (items state') = map ci_id (items state)
     ∧ map ci_status (items state') = map ci_status (items state)
     ∧ sum_by ci_quantity (items state') = sum_by ci_quantity (items state) + 1)
  ∧ (List.find (same_line item) (items state) = None →
     items state' = item :: items state).
Proof.
  intros state'. subst state'. split.
  - intros existing Hfind Hnodup. simpl. rewrite Hfind. simpl.
    split; [| split].
    + rewrite map_map. apply map_ext. intros i. by destruct (bool_decide _).
    + rewrite map_map. apply map_ext. intros i. by destruct (bool_decide _).
    + apply bump_one_line; [| done].
      apply find_some in Hfind as [Hin _]. by apply list_elem_of_In.
  - intros Hfind. simpl. by rewrite Hfind.
Qed.

(** Four gloves for v1 are in the cart; adding three more gloves for v1
    makes five. *)
Lemma add_merges_into_the_pending_line_witness :
  let more := withQuantity (Examples.gloves (Some "v1")) 3 in
  let state' := reducer Examples.cart (ADD more) in
  sum_by ci_quantity (items Examples.cart) = 10
  ∧ sum_by ci_quantity (items state') = 10 + 1
  ∧ length (items state') = length (items Examples.cart).
Proof.
  intros more state'. split; [reflexivity |]. split; [| reflexivity].
  destruct (add_merges_into_the_pending_line Examples.cart more) as [Hmerge _].
  destruct (Hmerge (Examples.gloves (Some "v1"))) as (_ & _ & Hsum);
    [reflexivity | | exact Hsum].
  apply (bool_decide_unpack _). vm_compute. exact I.
Defined.

(** *** Quantities *)

Lemma quantities_step state a :
  Replay.cartKeepsQuantities a = true →
  Forall (fun i => 1 ≤ ci_quantity i) (items state) →
  Forall (fun i => 1 ≤ ci_quantity i) (items (reducer state a)).
Proof.
  destruct a as [its | item | id | id quantity | ventureId |]; simpl; try done;
    intros Hok Hall.
  - destruct (List.find _ _) as [existing |]; simpl.
    + apply Forall_forall. intros i Hin.
      apply list_elem_of_In, in_map_iff in Hin as (j & <- & Hj).
      rewrite Forall_forall in Hall. apply list_elem_of_In, Hall in Hj.
      destruct (bool_decide _); simpl; lia.
    + apply Forall_cons. split; [by apply Z.leb_le | done].
  - rewrite Forall_forall in Hall. apply Forall_forall. intros i Hin.
    apply list_elem_of_In, filter_In in Hin as [Hin _].
    by apply Hall, list_elem_of_In.
  - apply Forall_forall. intros i Hin.
    apply list_elem_of_In, in_map_iff in Hin as (j & <- & Hj).
    rewrite Forall_forall in Hall. apply list_elem_of_In, Hall in Hj.
    destruct (bool_decide _); simpl; lia.
  - apply Forall_forall. intros i Hin.
    apply list_elem_of_In, in_map_iff in Hin as (j & <- & Hj).
    rewrite Forall_forall in Hall. apply list_elem_of_In, Hall in Hj.
    by destruct (_ && _).
  - apply Forall_forall. intros i Hin.
    apply list_elem_of_In, in_map_iff in Hin as (j & <- & Hj).
    rewrite Forall_forall in Hall. apply list_elem_of_In, Hall in Hj.
    by destruct (_ && _).
Qed.

(** X21.  No line of the cart ever drops below a quantity of one: if every
    line has at least one unit and only items with at least one unit are
    added, then after any run of cart actions other than LOAD every line
    still has at least one unit (UPDATE_QTY floors at one; the way to drop a
    line is REMOVE). *)
Theorem quantities_stay_positive actions state :
  forallb Replay.cartKeepsQuantities actions = true →
  Forall (fun i => 1 ≤ ci_quantity i) (items state) →
  Forall (fun i => 1 ≤ ci_quantity i) (items (Replay.cart actions state)).
Proof.
  revert state. induction actions as [| a actions IH]; intros state Hok Hall.
  - done.
  - simpl in Hok. apply andb_true_iff in Hok as [Ha Hrest].
    unfold Replay.cart in *. simpl. apply IH; [done |].
    by apply quantities_step.
Qed.

Lemma quantities_stay_positive_witness :
  Forall (fun i => 1 ≤ ci_quantity i)
    (items (Replay.cart
              [ UPDATE_QTY "cart-1770000000000-a1b2c" 0;
                UPDATE_QTY "cart-1770000030000-d3e4f" (-3);
                ADD (Examples.gloves None) ]
              Examples.cart)).
Proof.
  apply quantities_stay_positive; [reflexivity |].
  vm_compute. repeat constructor; discriminate.
Defined.

(** *** Checking out *)

(** X22.  Checking out a venture's cart marks every pending line of that
    venture purchased and touches nothing else: the personal lines and the
    lines of other ventures are what they were, no line is added, dropped or
    repriced, and checking out again changes nothing. *)
Theorem checkout_marks_the_ventures_lines state ventureId :
  let state' := reducer state (CHECKOUT_VENTURE ventureId) in
  Forall (fun i => ci_status i = purchased) (getVentureItems state' ventureId)
  ∧ getPersonalItems state' = getPersonalItems state
  ∧ (∀ other, other ≠ ventureId →
       getVentureItems state' other = getVentureItems state other)
  ∧ map (fun i => (ci_id i, ci_itemId i, ci_price i, ci_quantity i, ci_ventureId i))
        (items state')
    = map (fun i => (ci_id i, ci_itemId i, ci_price i, ci_quantity i, ci_ventureId i))
          (items state)
  ∧ reducer state' (CHECKOUT_VENTURE ventureId) = state'.
Proof.
  intros state'. subst state'. unfold getVentureItems, getPersonalItems. simpl.
  split; [| split; [| split; [| split]]].
  - apply Forall_forall. intros i Hin.
    apply list_elem_of_In, filter_In in Hin as [Hin Hv].
    apply in_map_iff in Hin as (j & <- & _).
    destruct (bool_decide (ci_ventureId j = Some ventureId)) eqn:Hj;
      destruct (bool_decide (ci_status j = pending)) eqn:Hs; simpl in *;
      try done.
    + apply bool_decide_eq_false in Hs. by destruct (ci_status j).
    + by rewrite Hj in Hv.
    + by rewrite Hj in Hv.
  - induction (items state) as [| j l IH]; simpl; [done |].
    destruct (bool_decide (ci_ventureId j = Some ventureId)) eqn:Hj; simpl.
    + apply bool_decide_eq_true in Hj.
      destruct (bool_decide (ci_status j = pending)); simpl;
        rewrite !bool_decide_eq_false_2 by (rewrite Hj; done); exact IH.
    + destruct (bool_decide (ci_ventureId j = None)); [by rewrite IH | exact IH].
  - intros other Hother.
    induction (items state) as [| j l IH]; simpl; [done |].
    destruct (bool_decide (ci_ventureId j = Some ventureId)) eqn:Hj; simpl.
    + apply bool_decide_eq_true in Hj.
      destruct (bool_decide (ci_status j = pending)); simpl;
        rewrite !bool_decide_eq_false_2 by (rewrite Hj; congruence); exact IH.
    + destruct (bool_decide (ci_ventureId j = Some other)); [by rewrite IH | exact IH].
  - rewrite map_map. apply map_ext. intros i. by destruct (_ && _).
  - unfold setItems. simpl. f_equal. rewrite map_map.
    apply map_ext. intros i.
    destruct (bool_decide (ci_ventureId i = Some ventureId)) eqn:Hv;
      destruct (bool_decide (ci_status i = pending)) eqn:Hs; simpl;
      rewrite ?Hv, ?Hs; simpl; done.
Qed.

End CartFacts.


(** ** Checking out from the cart screen *)

Section CheckoutFacts.
Import MockData VenturesStore.
Import VentureDetail (World, AppUser, venturesState, walletState, username).

Lemma sum_by_nonneg {A : Type} (f : A → Z) (l : list A) :
  Forall (fun x => 0 ≤ f x) l → 0 ≤ sum_by f l.
Proof.
  induction 1 as [| x l Hx Hl IH]; [done |]. rewrite sum_by_cons. lia.
Qed.

Section Checkout.
Variable toLowerCase : string → string.
Variable str_includes : string → string → bool.
Variable cartAuthUser : option AppUser.

Local Abbreviation myVentures := (CartScreen.myVentures toLowerCase str_includes cartAuthUser).
Local Abbreviation selectedWallet :=
  (CartScreen.selectedWallet toLowerCase str_includes cartAuthUser).
Local Abbreviation hasEnoughFunds :=
  (CartScreen.hasEnoughFunds toLowerCase str_includes cartAuthUser).
Local Abbreviation handleCheckout :=
  (CartScreen.handleCheckout toLowerCase str_includes cartAuthUser).

Lemma selectedWallet_is_a_venture key s o :
  key ≠ "personal" →
  selectedWallet key s = Some o →
  CartScreen.wo_balance o = CartScreen.getVentureBalance s key
  ∧ ∃ v, v ∈ myVentures s ∧ v_id v = key.
Proof.
  intros Hkey. unfold CartScreen.selectedWallet, CartScreen.walletOptions.
  cbn [List.find CartScreen.wo_key].
  rewrite bool_decide_eq_false_2 by done.
  induction (myVentures s) as [| v vs IH]; cbn [map List.find]; [done |].
  cbn [CartScreen.wo_key].
  destruct (bool_decide (v_id v = key)) eqn:Hv.
  - apply bool_decide_eq_true in Hv. intros [= <-]. simpl. rewrite Hv.
    split; [done |]. exists v. split; [apply list_elem_of_here | done].
  - intros Hfind. destruct (IH Hfind) as (Hbal & v' & Hin & Hid).
    split; [done |]. exists v'. split; [by apply list_elem_of_further | done].
Qed.

Lemma total_at_least_delivery key s :
  CartScreen.hasItems key s = true →
  Forall (fun i => 0 ≤ CartStore.ci_price i * CartStore.ci_quantity i)
         (CartScreen.walletItems key s) →
  50 ≤ CartScreen.total key s.
Proof.
  unfold CartScreen.total, CartScreen.delivery, CartScreen.hasItems, CartScreen.subtotal.
  intros -> Hlines. pose proof (sum_by_nonneg _ _ Hlines). lia.
Qed.

Lemma nothing_left_after_venture_checkout key (cart : CartStore.State) :
  List.filter (fun i => bool_decide (CartStore.ci_ventureId i = Some key))
    (List.filter (fun i => bool_decide (CartStore.ci_status i = CartStore.pending))
       (CartStore.items (CartStore.reducer cart (CartStore.CHECKOUT_VENTURE key))))
  = [].
Proof.
  simpl. induction (CartStore.items cart) as [| i l IH]; simpl; [done |].
  destruct (bool_decide (CartStore.ci_ventureId i = Some key)) eqn:Hv;
    destruct (bool_decide (CartStore.ci_status i = CartStore.pending)) eqn:Hs;
    simpl; rewrite ?Hs, ?Hv; simpl; rewrite ?Hv; done.
Qed.

Lemma nothing_left_after_personal_checkout (cart : CartStore.State) :
  List.filter (fun i => bool_decide (CartStore.ci_ventureId i = None))
    (List.filter (fun i => bool_decide (CartStore.ci_status i = CartStore.pending))
       (CartStore.items (CartStore.reducer cart CartStore.CHECKOUT_PERSONAL)))
  = [].
Proof.
  simpl. induction (CartStore.items cart) as [| i l IH]; simpl; [done |].
  destruct (bool_decide (CartStore.ci_ventureId i = None)) eqn:Hv;
    destruct (bool_decide (CartStore.ci_status i = CartStore.pending)) eqn:Hs;
    simpl; rewrite ?Hs, ?Hv; simpl; rewrite ?Hv; done.
Qed.

(** X24.  A checkout against the personal wallet that goes through (for
    lines whose price times quantity is not negative) is covered: somebody
    is logged in, the total (at least 50) does not exceed that user's
    balance, the balance drops by exactly the total (the floor at zero is
    not reached), no venture's books are touched, and afterwards nothing
    personal is pending to check out again. *)
Theorem personal_checkout_is_covered s clk :
  handleCheckout "personal" s clk ≠ [] →
  Forall (fun i => 0 ≤ CartStore.ci_price i * CartStore.ci_quantity i)
         (CartScreen.walletItems "personal" s) →
  let s' := CartScreen.perform clk (fun s => handleCheckout "personal" s clk) s in
  ∃ u, cartAuthUser = Some u
       ∧ 50 ≤ CartScreen.total "personal" s
       ∧ CartScreen.total "personal" s
         ≤ WalletStore.getBalance (walletState (CartScreen.base s)) (username u)
       ∧ WalletStore.getBalance (walletState (CartScreen.base s')) (username u)
         = WalletStore.getBalance (walletState (CartScreen.base s)) (username u)
           - CartScreen.total "personal" s
       ∧ venturesState (CartScreen.base s') = venturesState (CartScreen.base s)
       ∧ (∀ clk', handleCheckout "personal" s' clk' = []).
Proof.
  intros Hgoes Hlines s'.
  unfold CartScreen.handleCheckout in Hgoes.
  destruct (CartScreen.hasItems "personal" s) eqn:Hitems; [| done].
  destruct (hasEnoughFunds "personal" s) eqn:Hfunds; [| done].
  pose proof (total_at_least_delivery "personal" s Hitems Hlines) as Htotal.
  unfold CartScreen.hasEnoughFunds, CartScreen.selectedWallet,
    CartScreen.walletOptions in Hfunds.
  cbn [List.find CartScreen.wo_key] in Hfunds.
  rewrite bool_decide_eq_true_2 in Hfunds by done.
  simpl in Hfunds. apply Z.leb_le in Hfunds.
  unfold CartScreen.personalBalance in Hfunds.
  destruct cartAuthUser as [u |] eqn:Huser; [| lia].
  exists u. split; [done |]. split; [exact Htotal |]. split; [exact Hfunds |].
  assert (Hs' : s' = CartScreen.run clk s
            [ CartScreen.ToBase (VentureDetail.ToWallet
                (WalletStore.DEDUCT (username u) (CartScreen.total "personal" s)
                   (Some "Cart Checkout")));
              CartScreen.ToCart CartStore.CHECKOUT_PERSONAL ]).
  { subst s'. unfold CartScreen.perform, CartScreen.handleCheckout.
    rewrite Hitems.
    replace (CartScreen.hasEnoughFunds toLowerCase str_includes (Some u) "personal" s)
      with true; [done |].
    symmetry. unfold CartScreen.hasEnoughFunds, CartScreen.selectedWallet,
      CartScreen.walletOptions.
    cbn [List.find CartScreen.wo_key]. rewrite bool_decide_eq_true_2 by done.
    simpl. by apply Z.leb_le. }
  split; [| split].
  - rewrite Hs'. unfold WalletStore.getBalance. simpl.
    rewrite getOrCreateWallet_insert. simpl.
    unfold WalletStore.getBalance in Hfunds. lia.
  - by rewrite Hs'.
  - intros clk'. unfold CartScreen.handleCheckout.
    replace (CartScreen.hasItems "personal" s') with false; [done |].
    unfold CartScreen.hasItems, CartScreen.walletItems, CartScreen.pendingItems.
    rewrite bool_decide_eq_true_2 by done.
    rewrite Hs'. cbn [CartScreen.run fold_left CartScreen.dispatch CartScreen.cartState].
    by rewrite nothing_left_after_personal_checkout.
Qed.

End Checkout.

(** ... and her own gloves (4 at 45, delivery 50) from her wallet. *)
Lemma personal_checkout_is_covered_witness :
  let s' := CartScreen.perform Scenario.t0
              (fun s => CartScreen.handleCheckout Examples.toLowerCase
                          Examples.str_includes (Some Examples.priya) "personal" s
                          Scenario.t0)
              Examples.cartStores in
  CartScreen.total "personal" Examples.cartStores = 230
  ∧ WalletStore.getBalance (walletState (CartScreen.base s')) "priya" = 3500 - 230.
Proof.
  intros s'. split; [reflexivity |].
  destruct (personal_checkout_is_covered Examples.toLowerCase
              Examples.str_includes (Some Examples.priya) Examples.cartStores
              Scenario.t0) as (u & Hu & _ & _ & Hbal & _).
  - vm_compute. discriminate.
  - vm_compute. repeat constructor; discriminate.
  - injection Hu as <-. exact Hbal.
Defined.

End CheckoutFacts.

(** ** The activity feed and the notifications *)

Section FeedFacts.

(** X25.  The activity feed of a venture is capped and free of duplicates:
    if it holds at most 50 events with distinct ids, then after any run of
    ADD_EVENT actions it still does (an event whose id is already in the
    feed is ignored, the oldest events are dropped beyond 50), and an event
    that was added is the newest of its feed. *)
Theorem activity_feed_stays_capped actions state ventureId :
  forallb Replay.activityEdit actions = true →
  (length (ActivityStore.getEvents state ventureId) ≤ 50)%nat →
  NoDup (map ActivityStore.ev_id (ActivityStore.getEvents state ventureId)) →
  (length (ActivityStore.getEvents (Replay.activity actions state) ventureId) ≤ 50)%nat
  ∧ NoDup (map ActivityStore.ev_id
             (ActivityStore.getEvents (Replay.activity actions state) ventureId))
  ∧ (∀ event,
       ActivityStore.ev_id event
         ∉ map ActivityStore.ev_id
               (ActivityStore.getEvents (Replay.activity actions state) ventureId) →
       head (ActivityStore.getEvents
               (ActivityStore.reducer (Replay.activity actions state)
                  (ActivityStore.ADD_EVENT ventureId event)) ventureId)
       = Some event).
Proof.
  revert state. induction actions as [| a actions IH]; intros state Hedit Hlen Hnodup.
  - split; [done |]. split; [done |].
    intros event Hfresh. unfold ActivityStore.getEvents in *. simpl.
    destruct (existsb _ _) eqn:Hex.
    + exfalso. apply Hfresh. apply existsb_exists in Hex as (e & Hin & He).
      apply bool_decide_eq_true in He. rewrite <- He.
      by apply list_elem_of_In, in_map.
    + simpl. by rewrite lookup_insert_eq.
  - simpl in Hedit. apply andb_true_iff in Hedit as [Ha Hrest].
    unfold Replay.activity in *. simpl. apply IH; [done | |].
    + destruct a as [evs | v event]; [done |].
      unfold ActivityStore.getEvents in *. simpl.
      destruct (existsb _ _); [done |]. simpl.
      destruct (decide (v = ventureId)) as [-> | Hne].
      * rewrite lookup_insert_eq. simpl. rewrite length_take. lia.
      * by rewrite lookup_insert_ne.
    + destruct a as [evs | v event]; [done |].
      unfold ActivityStore.getEvents in *. simpl.
      destruct (existsb _ _) eqn:Hex; [done |]. simpl.
      destruct (decide (v = ventureId)) as [-> | Hne].
      * rewrite lookup_insert_eq. simpl.
        assert (Hall : NoDup (map ActivityStore.ev_id
                                (event :: default [] (ActivityStore.events state !! ventureId)))).
        { simpl. apply NoDup_cons. split; [| done].
          by apply (existsb_false_not_in ActivityStore.ev_id). }
        change (event :: take 49 (default [] (ActivityStore.events state !! ventureId)))
          with (take 50 (event :: default [] (ActivityStore.events state !! ventureId))).
        rewrite <- (take_drop 50 (event :: default [] _)) in Hall.
        rewrite map_app in Hall. by apply NoDup_app in Hall as [Hall _].
      * by rewrite lookup_insert_ne.
Qed.

Lemma activity_feed_stays_capped_witness :
  let actions :=
    [ ActivityStore.emit Scenario.t0 "k3x9q" "v1" ActivityStore.member_joined
        "Priya M. requested to join as contributing volunteer";
      ActivityStore.emit Scenario.t0 "k3x9q" "v1" ActivityStore.member_joined
        "Priya M. requested to join as contributing volunteer";
      ActivityStore.emit Scenario.t1 "p0w2z" "v1" ActivityStore.funds_contributed
        "Priya M. pledged 300 on joining" ] in
  let state := {| ActivityStore.events := ∅; ActivityStore.loaded := true |} in
  length (ActivityStore.getEvents (Replay.activity actions state) "v1") = 2%nat
  ∧ NoDup (map ActivityStore.ev_id
             (ActivityStore.getEvents (Replay.activity actions state) "v1")).
Proof.
  intros actions state. split; [reflexivity |].
  destruct (activity_feed_stays_capped actions state "v1") as (_ & Hnodup & _);
    [reflexivity | vm_compute; lia | vm_compute; apply NoDup_nil_2 | exact Hnodup].
Defined.

Section Notifications.
Import NotificationsStore.

Lemma unreadCount_cons n (l : list Notification) :
  unreadCount (n :: l) = ((if n_read n then 0 else 1) + unreadCount l)%nat.
Proof. unfold unreadCount. simpl. by destruct (n_read n). Qed.

Lemma markRead_other id (l : list Notification) :
  id ∉ map n_id l → markRead id l = l.
Proof.
  induction l as [| n l IH]; simpl; [done |].
  intros Hfresh. apply not_elem_of_cons in Hfresh as [Hn Hl].
  unfold markRead in *. simpl. rewrite bool_decide_eq_false_2 by done.
  by rewrite IH.
Qed.

(** X26.  The unread count follows what the user did: a new notification
    raises it by one, "mark all read" brings it to zero, and opening an
    unread notification whose id is unique lowers it by exactly one; marking
    read never raises it and doing it twice is the same as once. *)
Theorem unread_count_follows_reads (l : list Notification) :
  (∀ clk type title body ventureId,
     unreadCount (addNotification clk type title body ventureId l)
     = S (unreadCount l))
  ∧ unreadCount (markAllRead l) = 0%nat
  ∧ (∀ id, (unreadCount (markRead id l) ≤ unreadCount l)%nat
           ∧ markRead id (markRead id l) = markRead id l)
  ∧ (∀ n, n ∈ l → n_read n = false → NoDup (map n_id l) →
          S (unreadCount (markRead (n_id n) l)) = unreadCount l).
Proof.
  split; [| split; [| split]].
  - intros clk type title body ventureId. unfold addNotification.
    by rewrite unreadCount_cons.
  - unfold markAllRead. induction l as [| n l IH]; [done |].
    simpl. by rewrite unreadCount_cons, IH.
  - intros id. split.
    + induction l as [| n l IH]; [done |].
      unfold markRead in *. simpl. rewrite !unreadCount_cons.
      destruct (bool_decide (n_id n = id)); simpl; destruct (n_read n); lia.
    + unfold markRead. rewrite map_map. apply map_ext. intros n.
      destruct (bool_decide (n_id n = id)) eqn:Hn; simpl; by rewrite Hn.
  - intros n Hin Hunread Hnodup.
    induction l as [| m l IH]; [by apply not_elem_of_nil in Hin |].
    simpl in Hnodup. apply NoDup_cons in Hnodup as [Hm Hl].
    apply elem_of_cons in Hin as [-> | Hin].
    + unfold markRead. simpl. rewrite bool_decide_eq_true_2 by done.
      fold (markRead (n_id m) l). rewrite markRead_other by done.
      rewrite !unreadCount_cons, Hunread. simpl. lia.
    + unfold markRead. simpl. fold (markRead (n_id n) l).
      rewrite bool_decide_eq_false_2.
      * rewrite !unreadCount_cons. specialize (IH Hin Hl). lia.
      * intros Heq. apply Hm. rewrite Heq. by apply list_elem_of_In, in_map, list_elem_of_In.
Qed.

End Notifications.
End FeedFacts.

(* ------------------------------------------------------------------ *)
(** ** The merge on load *)

Section LoadFacts.
Import MockData VenturesStore VenturesLoad.

Lemma seed_venture_ids_unique : NoDup (map v_id MOCK_VENTURES).
Proof. apply (bool_decide_unpack _). vm_compute. exact I. Qed.

Lemma seed_member_ids_unique ventureId seed :
  buildInitialMembers !! ventureId = Some seed → NoDup (map m_id seed).
Proof.
  revert ventureId seed.
  change (map_Forall (λ _ seed, NoDup (map m_id seed)) buildInitialMembers).
  apply (bool_decide_unpack _). vm_compute. exact I.
Qed.

(** The shape both merges share: the saved entries, then the seed entries
    whose id was not saved. *)
Lemma merge_by_id_covers {A : Type} (id : A → string) (saved seed : list A) x :
  In x seed →
  In (id x)
     (map id (saved ++ List.filter (λ y, negb (includes (map id saved) (id y))) seed)).
Proof.
  intros Hx. rewrite map_app. apply in_or_app.
  destruct (includes (map id saved) (id x)) eqn:Hinc.
  - left. by apply list_elem_of_In, includes_elem_of.
  - right. apply in_map, filter_In. by rewrite Hinc.
Qed.

Lemma merge_by_id_unique {A : Type} (id : A → string) (saved seed : list A) :
  NoDup (map id saved) → NoDup (map id seed) →
  NoDup (map id (saved ++ List.filter (λ y, negb (includes (map id saved) (id y))) seed)).
Proof.
  intros Hsaved Hseed. rewrite map_app. apply NoDup_app.
  split; [done |]. split; [| by apply NoDup_map_filter].
  intros i Hi Hin.
  apply list_elem_of_In, in_map_iff in Hin as (y & <- & Hy).
  apply filter_In in Hy as [_ Hy]. apply negb_true_iff in Hy.
  apply includes_elem_of in Hi. congruence.
Qed.

Lemma find_by_id_unique {A : Type} (id : A → string) (l : list A) x :
  NoDup (map id l) → In x l →
  List.find (λ y, bool_decide (id y = id x)) l = Some x.
Proof.
  induction l as [| y l IH]; simpl; [done |].
  rewrite NoDup_cons. intros [Hy Hl] [-> | Hx].
  - by rewrite bool_decide_eq_true_2.
  - rewrite bool_decide_eq_false_2; [by apply IH |].
    intros Heq. apply Hy. rewrite Heq. by apply list_elem_of_In, in_map.
Qed.

Lemma find_app_l {A : Type} (f : A → bool) (l k : list A) x :
  List.find f l = Some x → List.find f (l ++ k) = Some x.
Proof.
  induction l as [| y l IH]; simpl; [done |]. by destruct (f y).
Qed.

Lemma filter_nothing {A : Type} (f : A → bool) (l : list A) :
  (∀ x, In x l → f x = false) → List.filter f l = [].
Proof.
  induction l as [| x l IH]; simpl; [done |]. intros Hall.
  rewrite (Hall x) by by left. apply IH. intros y Hy. apply Hall. by right.
Qed.

(** X27.  Loading saved ventures keeps them, in their saved order and ahead
    of the seed: looking a saved venture up by id after the load gives the
    saved version (its changed status, say), every seed venture that was not
    saved is added, and the ids stay unique. *)
Theorem saved_ventures_win_on_load (saved : list Venture) :
  NoDup (map v_id saved) →
  let merged := mergeVentures (Some saved) in
  take (length saved) merged = saved
  ∧ (∀ v, In v saved → findVenture merged (v_id v) = Some v)
  ∧ (∀ v, In v MOCK_VENTURES → In (v_id v) (map v_id merged))
  ∧ (∀ v, In v merged → In v saved ∨ In v MOCK_VENTURES ∧ ¬ In (v_id v) (map v_id saved))
  ∧ NoDup (map v_id merged).
Proof.
  intros Hsaved merged. subst merged. unfold mergeVentures.
  split; [| split; [| split; [| split]]].
  - by rewrite take_app_length.
  - intros v Hv. unfold findVenture. apply find_app_l.
    by apply (find_by_id_unique v_id).
  - intros v Hv. by apply (merge_by_id_covers v_id).
  - intros v Hv. apply in_app_or in Hv as [Hv | Hv]; [by left | right].
    apply filter_In in Hv as [Hv Hnew]. split; [done |].
    apply negb_true_iff in Hnew. intros Hin.
    apply list_elem_of_In, includes_elem_of in Hin. congruence.
  - apply (merge_by_id_unique v_id); [done | apply seed_venture_ids_unique].
Qed.

Lemma saved_ventures_win_on_load_witness :
  let saved := ventures (reducer initialState (updateVentureStatus "v1" ongoing)) in
  option_map v_status (findVenture (mergeVentures (Some saved)) "v1") = Some ongoing
  ∧ length (mergeVentures (Some saved)) = length MOCK_VENTURES.
Proof.
  intros saved.
  destruct (saved_ventures_win_on_load saved) as (_ & Hfind & _).
  - apply (bool_decide_unpack _). vm_compute. exact I.
  - split; [| reflexivity].
    pose proof (Hfind (default Scenario.v1 (head saved))) as H.
    change (v_id (default Scenario.v1 (head saved))) with "v1" in H.
    rewrite H; [reflexivity | by left].
Defined.

Lemma backfill_id seedMembers m : m_id (backfill seedMembers m) = m_id m.
Proof.
  unfold backfill. destruct (truthy _); [done |].
  destruct (seedById _ _) as [s |]; [| done]. by destruct (truthy _).
Qed.

Lemma backfill_ids seedMembers saved :
  map m_id (map (backfill seedMembers) saved) = map m_id saved.
Proof. rewrite map_map. apply map_ext. intros m. apply backfill_id. Qed.

Lemma backfill_twice seedMembers m :
  backfill seedMembers (backfill seedMembers m) = backfill seedMembers m.
Proof.
  destruct (truthy (m_authUsername m)) eqn:Hm.
  - unfold backfill. by rewrite !Hm.
  - destruct (seedById seedMembers (m_id m)) as [s |] eqn:Hs.
    + destruct (truthy (m_authUsername s)) eqn:Ht.
      * unfold backfill. rewrite Hm, Hs, Ht. simpl. by rewrite Ht.
      * unfold backfill. by rewrite Hm, Hs, Ht, Hm, Hs, Ht.
    + unfold backfill. by rewrite Hm, Hs, Hm, Hs.
Qed.

Lemma seedById_own seedMembers s :
  NoDup (map m_id seedMembers) → In s seedMembers →
  seedById seedMembers (m_id s) = Some s.
Proof.
  intros Hnodup Hs. unfold seedById.
  apply (find_by_id_unique m_id).
  - by rewrite map_rev, <- Permutation_rev.
  - by apply in_rev in Hs.
Qed.

Lemma backfill_seed seedMembers s :
  NoDup (map m_id seedMembers) → In s seedMembers → backfill seedMembers s = s.
Proof.
  intros Hnodup Hs. unfold backfill.
  destruct (truthy (m_authUsername s)) eqn:Ht; [done |].
  by rewrite seedById_own, Ht.
Qed.

Lemma mergeVentureMembers_twice seedMembers saved :
  NoDup (map m_id seedMembers) →
  mergeVentureMembers seedMembers (mergeVentureMembers seedMembers saved)
  = mergeVentureMembers seedMembers saved.
Proof.
  intros Hnodup. unfold mergeVentureMembers at 1. cbv zeta.
  rewrite (filter_nothing _ seedMembers).
  - rewrite app_nil_r. unfold mergeVentureMembers. cbv zeta.
    rewrite map_app. f_equal.
    + rewrite map_map. apply map_ext. intros m. apply backfill_twice.
    + rewrite <- (map_id (List.filter _ seedMembers)) at 2.
      apply map_ext_in. intros s Hs. apply filter_In in Hs as [Hs _].
      by apply backfill_seed.
  - intros s Hs. apply negb_false_iff, includes_elem_of, list_elem_of_In.
    rewrite backfill_ids. unfold mergeVentureMembers. cbv zeta.
    by apply (merge_by_id_covers m_id).
Qed.

Lemma mergeMembers_lookup initialMembers savedMembers ventureId :
  default [] (mergeMembers initialMembers savedMembers !! ventureId)
  = match savedMembers !! ventureId, initialMembers !! ventureId with
    | None, None => []
    | saved, seed => mergeVentureMembers (default [] seed) (default [] saved)
    end.
Proof.
  unfold mergeMembers. rewrite lookup_merge.
  by destruct (savedMembers !! ventureId), (initialMembers !! ventureId).
Qed.

Lemma mergeMembers_roster initialMembers savedMembers ventureId :
  default [] (mergeMembers initialMembers savedMembers !! ventureId)
  = mergeVentureMembers (default [] (initialMembers !! ventureId))
                        (default [] (savedMembers !! ventureId)).
Proof.
  rewrite mergeMembers_lookup.
  by destruct (savedMembers !! ventureId), (initialMembers !! ventureId).
Qed.

(** X28.  Loading a saved roster of a venture keeps every saved member at
    its place with its saved role, privilege and owner flag (a saved member
    that has its authUsername is kept unchanged), adds every seed member
    whose id was not saved, adds nobody else, and keeps the ids unique. *)
Theorem saved_members_win_on_load
    (savedMembers : gmap string (list VentureMember)) (ventureId : string) :
  let seed := default [] (buildInitialMembers !! ventureId) in
  let saved := default [] (savedMembers !! ventureId) in
  let merged := default [] (mergeMembers buildInitialMembers savedMembers !! ventureId) in
  (∀ k m, saved !! k = Some m →
     ∃ m', merged !! k = Some m'
           ∧ m_id m' = m_id m ∧ m_username m' = m_username m
           ∧ m_role m' = m_role m ∧ m_privilege m' = m_privilege m
           ∧ m_isOwner m' = m_isOwner m
           ∧ (truthy (m_authUsername m) = true → m' = m))
  ∧ (∀ m, In m seed → In (m_id m) (map m_id merged))
  ∧ (∀ m, In m merged → In (m_id m) (map m_id saved) ∨ In m seed)
  ∧ (NoDup (map m_id saved) → NoDup (map m_id merged)).
Proof.
  intros seed saved merged. subst merged. rewrite mergeMembers_roster.
  fold seed saved. unfold mergeVentureMembers. cbv zeta.
  split; [| split; [| split]].
  - intros k m Hk. exists (backfill seed m). split.
    + apply lookup_app_l_Some. by rewrite list_lookup_fmap, Hk.
    + unfold backfill. destruct (truthy (m_authUsername m)); [done |].
      destruct (seedById seed (m_id m)) as [s |]; [| done].
      by destruct (truthy (m_authUsername s)).
  - intros m Hm.
    exact (merge_by_id_covers m_id (map (backfill seed) saved) seed m Hm).
  - intros m Hm. apply in_app_or in Hm as [Hm | Hm].
    + left. rewrite <- (backfill_ids seed). by apply in_map.
    + right. by apply filter_In in Hm as [Hm _].
  - intros Hsaved. apply (merge_by_id_unique m_id).
    + by rewrite backfill_ids.
    + unfold seed. destruct (buildInitialMembers !! ventureId) as [l |] eqn:Hl;
        [by apply (seed_member_ids_unique ventureId) | apply NoDup_nil_2].
Qed.

(** X29.  Loading is stable: merging what a load produced with the seed
    again changes nothing, so saving and reloading never grows a roster. *)
Theorem reloading_members_is_stable (savedMembers : gmap string (list VentureMember)) :
  mergeMembers buildInitialMembers (mergeMembers buildInitialMembers savedMembers)
  = mergeMembers buildInitialMembers savedMembers.
Proof.
  apply map_eq. intros ventureId. unfold mergeMembers. rewrite !lookup_merge.
  destruct (buildInitialMembers !! ventureId) as [seed |] eqn:Hseed;
    destruct (savedMembers !! ventureId) as [saved |]; simpl; try done.
  all: f_equal; apply mergeVentureMembers_twice.
  1, 2: by apply (seed_member_ids_unique ventureId).
  apply NoDup_nil_2.
Qed.

(** X30.  Removing a seed member does not survive a restart: the member is
    gone from the roster after [REMOVE_MEMBER], and is back after the saved
    rosters are loaded again under the current schema version. *)
Theorem removed_seed_member_returns_on_reload
    (state : State) (ventureId memberId : string) (seed : list VentureMember)
    rawVentures rawJoinRequests rawVentureTxs rawPledges :
  buildInitialMembers !! ventureId = Some seed →
  In memberId (map m_id seed) →
  let removed := reducer state (REMOVE_MEMBER ventureId memberId) in
  let reloaded :=
    reducer initialState
      (load rawVentures rawJoinRequests (Some (members removed)) rawVentureTxs
            rawPledges (Some CURRENT_SCHEMA_VERSION)) in
  ¬ In memberId (map m_id (getMembersForVenture removed ventureId))
  ∧ In memberId (map m_id (getMembersForVenture reloaded ventureId)).
Proof.
  intros Hseed Hin removed reloaded. split.
  - subst removed. unfold getMembersForVenture. simpl.
    rewrite lookup_insert_eq. simpl. intros Hstill.
    apply in_map_iff in Hstill as (m & Hm & Hstill).
    apply filter_In in Hstill as [_ Hstill].
    apply negb_true_iff, bool_decide_eq_false in Hstill. done.
  - subst reloaded. unfold getMembersForVenture, load. simpl.
    rewrite mergeMembers_roster, Hseed. simpl.
    apply in_map_iff in Hin as (m & <- & Hm).
    unfold mergeVentureMembers. cbv zeta.
    pose proof (merge_by_id_covers m_id
      (map (backfill seed) (default [] (members removed !! ventureId))) seed m Hm) as H.
    exact H.
Qed.

Lemma removed_seed_member_returns_on_reload_witness :
  let removed := reducer initialState (REMOVE_MEMBER "v1" "m-v1-rahul") in
  let reloaded :=
    reducer initialState
      (load (Some (ventures removed)) (Some (joinRequests removed))
            (Some (members removed)) (Some (ventureTxs removed))
            (Some (pledges removed)) (Some CURRENT_SCHEMA_VERSION)) in
  ¬ In "m-v1-rahul" (map m_id (getMembersForVenture removed "v1"))
  ∧ In "m-v1-rahul" (map m_id (getMembersForVenture reloaded "v1")).
Proof.
  intros removed reloaded.
  apply (removed_seed_member_returns_on_reload initialState "v1" "m-v1-rahul"
           (default [] (buildInitialMembers !! "v1"))).
  - reflexivity.
  - vm_compute. tauto.
Defined.

End LoadFacts.

(* ------------------------------------------------------------------ *)
(** ** Amounts as doubles: the money paths *)

Section DoubleFacts.
Import PrimFloat JSNumber.
Import MockData (proposed, ongoing, finished, pending, approved, denied,
  contribution, purchase, cashout, refund).
Import MockData64.
Import VenturesStore (VentureMember, m_id, m_username, m_authUsername, m_role,
  m_privilege, m_isOwner, Decision, Approved, Denied, statusOf).
Import VenturesStore64.
Import VentureDetail (AppUser, username, displayName).
Import VentureDetail64.
Local Open Scope float_scope.

Local Abbreviation is_user64 u := (fun p => bool_decide (p_authUsername p = u)).
Local Abbreviation not_user64 u := (fun p => negb (bool_decide (p_authUsername p = u))).

(** *** Comparisons with zero *)

Lemma compare_zero_l (x : float) :
  (0 <? x) = match FloatOps.Prim2SF x with
             | SpecFloat.S754_infinity s | SpecFloat.S754_finite s _ _ => negb s
             | _ => false
             end.
Proof.
  rewrite FloatAxioms.ltb_spec.
  change (FloatOps.Prim2SF 0) with (SpecFloat.S754_zero false).
  unfold SpecFloat.SFltb.
  destruct (FloatOps.Prim2SF x) as [s | s | | s m e]; simpl; try done; by destruct s.
Qed.

Lemma compare_zero_r (x : float) :
  (x <=? 0) = match FloatOps.Prim2SF x with
              | SpecFloat.S754_infinity s | SpecFloat.S754_finite s _ _ => s
              | SpecFloat.S754_zero _ => true
              | SpecFloat.S754_nan => false
              end.
Proof.
  rewrite FloatAxioms.leb_spec.
  change (FloatOps.Prim2SF 0) with (SpecFloat.S754_zero false).
  unfold SpecFloat.SFleb.
  destruct (FloatOps.Prim2SF x) as [s | s | | s m e]; simpl; try done; by destruct s.
Qed.

Lemma positive_not_le0 (x : float) : (0 <? x) = true → (x <=? 0) = false.
Proof.
  rewrite compare_zero_l, compare_zero_r.
  destruct (FloatOps.Prim2SF x) as [s | s | | s m e]; try done; by destruct s.
Qed.

Lemma zero_or_nan (x : float) :
  truthyNumber x = match FloatOps.Prim2SF x with
                   | SpecFloat.S754_zero _ | SpecFloat.S754_nan => false
                   | _ => true
                   end.
Proof.
  unfold truthyNumber, is_zero, is_nan.
  rewrite !FloatAxioms.eqb_spec.
  change (FloatOps.Prim2SF zero) with (SpecFloat.S754_zero false).
  unfold SpecFloat.SFeqb.
  destruct (FloatOps.Prim2SF x) as [s | s | | s m e]; simpl; try done.
  all: try (by destruct s).
  rewrite Z.compare_refl.
  change (PosDef.Pos.compare_cont Eq m m) with (Pos.compare m m).
  rewrite Pos.compare_refl. by destruct s.
Qed.

Lemma positive_truthy (x : float) : (0 <? x) = true → truthyNumber x = true.
Proof.
  rewrite compare_zero_l, zero_or_nan.
  by destruct (FloatOps.Prim2SF x).
Qed.

Lemma truthy_not_le0_positive (x : float) :
  truthyNumber x = true → (x <=? 0) = false → (0 <? x) = true.
Proof.
  rewrite compare_zero_l, compare_zero_r, zero_or_nan.
  destruct (FloatOps.Prim2SF x) as [s | s | | s m e]; try done; by destruct s.
Qed.

(** *** The wallet reducer *)

#[local] Arguments Math_max : simpl never.
#[local] Arguments Math_round : simpl never.
#[local] Arguments sum_by : simpl never.

Lemma getOrCreateWallet64_insert wallets u wallet :
  WalletStore64.getOrCreateWallet (<[u := wallet]> wallets) u = wallet.
Proof. unfold WalletStore64.getOrCreateWallet. by rewrite lookup_insert_eq. Qed.

Lemma getOrCreateWallet64_insert_ne wallets u other wallet :
  u ≠ other →
  WalletStore64.getOrCreateWallet (<[u := wallet]> wallets) other
  = WalletStore64.getOrCreateWallet wallets other.
Proof.
  intros Hne. unfold WalletStore64.getOrCreateWallet. by rewrite lookup_insert_ne.
Qed.

Lemma getBalance64_TOPUP clk state u amount label :
  WalletStore64.getBalance
    (WalletStore64.reducer clk state (WalletStore64.TOPUP u amount label)) u
  = WalletStore64.getBalance state u + amount.
Proof.
  unfold WalletStore64.getBalance. simpl. by rewrite getOrCreateWallet64_insert.
Qed.

Lemma getBalance64_DEDUCT clk state u amount label :
  WalletStore64.getBalance
    (WalletStore64.reducer clk state (WalletStore64.DEDUCT u amount label)) u
  = Math_max 0 (WalletStore64.getBalance state u - amount).
Proof.
  unfold WalletStore64.getBalance. simpl. by rewrite getOrCreateWallet64_insert.
Qed.

Lemma getBalance64_TOPUP_ne clk state u other amount label :
  u ≠ other →
  WalletStore64.getBalance
    (WalletStore64.reducer clk state (WalletStore64.TOPUP u amount label)) other
  = WalletStore64.getBalance state other.
Proof.
  intros Hne. unfold WalletStore64.getBalance. simpl.
  by rewrite getOrCreateWallet64_insert_ne.
Qed.

Lemma getBalance64_DEDUCT_ne clk state u other amount label :
  u ≠ other →
  WalletStore64.getBalance
    (WalletStore64.reducer clk state (WalletStore64.DEDUCT u amount label)) other
  = WalletStore64.getBalance state other.
Proof.
  intros Hne. unfold WalletStore64.getBalance. simpl.
  by rewrite getOrCreateWallet64_insert_ne.
Qed.

(** *** Pledge records *)

Lemma find64_after_record (u : string) (ps : list Pledge) (pledge : Pledge) :
  p_authUsername pledge = u →
  List.find (is_user64 u) (List.filter (not_user64 u) ps ++ [pledge]) = Some pledge.
Proof.
  intros Hu. induction ps as [| p ps IH]; simpl.
  - by rewrite bool_decide_eq_true_2.
  - destruct (bool_decide (p_authUsername p = u)) eqn:Hp; simpl; [done |].
    by rewrite Hp.
Qed.

Lemma filter64_after_record (u : string) (ps : list Pledge) (pledge : Pledge) :
  p_authUsername pledge = u →
  List.filter (is_user64 u) (List.filter (not_user64 u) ps ++ [pledge]) = [pledge].
Proof.
  intros Hu. induction ps as [| p ps IH]; simpl.
  - by rewrite bool_decide_eq_true_2.
  - destruct (bool_decide (p_authUsername p = u)) eqn:Hp; simpl; [done |].
    by rewrite Hp.
Qed.

Lemma filter64_user_gone (u : string) (ps : list Pledge) :
  List.filter (is_user64 u) (List.filter (not_user64 u) ps) = [].
Proof.
  induction ps as [| p ps IH]; simpl; [done |].
  destruct (bool_decide (p_authUsername p = u)) eqn:Hp; simpl; [done |].
  by rewrite Hp.
Qed.

(** *** Pledge deduction followed by refund *)

Section RoundTrip.
Variable scr : Screen.
Variable numberToString : float -> string.

Let v := v_id (venture scr).





Lemma pledge64_members clk rnd w u name amount :
  members (venturesState
             (perform clk rnd (handlePledgeDeduct scr clk numberToString u name amount) w))
  = members (venturesState w).
Proof. done. Qed.






Lemma refund64_members clk rnd w u name :
  members (venturesState
             (perform clk rnd (handleMemberRefund scr clk numberToString u name) w))
  = members (venturesState w).
Proof.
  unfold perform, handleMemberRefund.
  destruct (List.find _ _) as [pledge |]; [| done].
  by destruct (p_amount pledge <=? 0).
Qed.


End RoundTrip.

(** *** Deciding on join requests *)

Lemma fresh_id_is_kept (id : string) (ms : list VentureMember) :
  id ∉ map m_id ms →
  List.filter (fun m => negb (bool_decide (m_id m = id))) ms = ms.
Proof.
  induction ms as [| m ms IH]; simpl; [done |].
  intros Hfresh. apply not_elem_of_cons in Hfresh as [Hm Hms].
  rewrite bool_decide_eq_false_2 by done. simpl. by rewrite IH.
Qed.

Lemma fresh_id_is_new (id : string) (ms : list VentureMember) :
  id ∉ map m_id ms →
  existsb (fun m => bool_decide (m_id m = id)) ms = false.
Proof.
  induction ms as [| m ms IH]; simpl; [done |].
  intros Hfresh. apply not_elem_of_cons in Hfresh as [Hm Hms].
  rewrite bool_decide_eq_false_2 by done. simpl. by apply IH.
Qed.

Lemma truthy_account (u : string) : u ≠ "" → truthy (Some u) = true.
Proof.
  intros Hne. unfold truthy. by rewrite (proj2 (String.eqb_neq u "") Hne).
Qed.

Section Decide.
Variable scr : Screen.
Variable numberToString : float -> string.

Let v := v_id (venture scr).

(** What a decision writes besides the request status when no pledge is
    collected: a notification, an event, and on approval the member. *)
Lemma decide_without_pledge clk req action w :
  action = Denied ∨ (0 <? jr_pitch req) = false ∨ truthy (jr_authUsername req) = false →
  ∃ title body text,
    decide scr clk numberToString req action w
    = [ ToVentures (UPDATE_JOIN_REQUEST_STATUS v (jr_id req) action);
        AddNotification
          (match action with
           | Approved => NotificationsStore.join_accepted
           | Denied => NotificationsStore.join_declined
           end) title body (Some v);
        EmitActivity v ActivityStore.member_joined text ]
      ++ match action with
         | Approved => [ ToVentures (ADD_MEMBER v (memberFor req)) ]
         | Denied => []
         end.
Proof.
  intros Hcase. unfold decide. fold v. destruct action.
  - assert (Hnone :
      match jr_authUsername req with
      | Some authUsername =>
          if (0 <? jr_pitch req) && truthy (jr_authUsername req)
          then handlePledgeDeduct scr clk numberToString authUsername
                 (jr_username req) (jr_pitch req) w
          else []
      | None => []
      end = []).
    { destruct Hcase as [? | [Hpitch | Hfalsy]]; [done | |];
        destruct (jr_authUsername req); try done.
      - by rewrite Hpitch.
      - by rewrite Hfalsy, andb_false_r. }
    rewrite Hnone. by do 3 eexists.
  - by do 3 eexists.
Qed.

(** X12.  A decision that is a denial, or approves a request whose pitch
    is not above zero or which names no account, moves no money: every
    wallet, every ledger, the pledges and the ventures are as they were.
    What it does write: the decision into the status of the requests with
    that id on this venture (no other venture's requests), one notification,
    one member_joined event for the venture, and on approval the requester
    at the end of the roster unless the member id is taken; a denial leaves
    every roster as it was. *)
Theorem decision_without_pledge_moves_no_money clk rnd req action w :
  action = Denied ∨ (0 <? jr_pitch req) = false ∨ truthy (jr_authUsername req) = false →
  let w' := perform clk rnd (decide scr clk numberToString req action) w in
  walletState w' = walletState w
  ∧ ventureTxs (venturesState w') = ventureTxs (venturesState w)
  ∧ pledges (venturesState w') = pledges (venturesState w)
  ∧ ventures (venturesState w') = ventures (venturesState w)
  ∧ joinRequests (venturesState w')
    = <[v := map (fun r => if bool_decide (jr_id r = jr_id req)
                           then withStatus r (statusOf action) else r)
                 (requestsOf w v)]> (joinRequests (venturesState w))
  ∧ members (venturesState w')
    = match action with
      | Denied => members (venturesState w)
      | Approved =>
          if existsb (fun m => bool_decide (m_id m = m_id (memberFor req))) (membersOf w v)
          then members (venturesState w)
          else <[v := membersOf w v ++ [memberFor req]]> (members (venturesState w))
      end
  ∧ (∃ n, notifications w' = n :: notifications w
          ∧ NotificationsStore.n_type n
            = match action with
              | Approved => NotificationsStore.join_accepted
              | Denied => NotificationsStore.join_declined
              end
          ∧ NotificationsStore.n_ventureId n = Some v
          ∧ NotificationsStore.n_read n = false)
  ∧ (∃ text, activityState w'
             = ActivityStore.reducer (activityState w)
                 (ActivityStore.emit clk (rnd 2%nat) v ActivityStore.member_joined text)).
Proof.
  intros Hcase w'. subst w'. unfold perform.
  destruct (decide_without_pledge clk req action w Hcase) as (title & body & text & ->).
  unfold requestsOf, membersOf, getJoinRequestsForVenture, getMembersForVenture.
  destruct action; simpl.
  - destruct (existsb _ (default [] (members (venturesState w) !! v))); simpl;
      (repeat split; try done; [by eexists | by exists text]).
  - repeat split; try done; [by eexists | by exists text].
Qed.

(** The calls of an approval that carries a pledge. *)
Lemma decide_with_pledge clk req u w :
  jr_authUsername req = Some u → u ≠ "" → (0 <? jr_pitch req) = true →
  ∃ title body text,
    decide scr clk numberToString req Approved w
    = [ ToVentures (UPDATE_JOIN_REQUEST_STATUS v (jr_id req) Approved);
        AddNotification NotificationsStore.join_accepted title body (Some v);
        EmitActivity v ActivityStore.member_joined text ]
      ++ handlePledgeDeduct scr clk numberToString u (jr_username req) (jr_pitch req) w
      ++ [ ToVentures (ADD_MEMBER v (memberFor req)) ].
Proof.
  intros Hu Hne Hpitch. unfold decide. fold v. rewrite Hu.
  rewrite Hpitch, (truthy_account u Hne). by do 3 eexists.
Qed.

(** What the stores hold after an approval with pledge, field by field. *)
Lemma approval64_effect clk rnd req u w :
  jr_authUsername req = Some u → u ≠ "" → (0 <? jr_pitch req) = true →
  let w' := perform clk rnd (decide scr clk numberToString req Approved) w in
  balanceOf w' u = Math_max 0 (balanceOf w u - jr_pitch req)
  ∧ pledgesOf w' v
    = List.filter (not_user64 u) (pledgesOf w v)
      ++ [ {| p_authUsername := u; p_displayName := jr_username req;
              p_amount := jr_pitch req; p_ventureId := v |} ]
  ∧ ledgerOf w' v
    = {| tx_id := "tx-pledge-" +:+ show (now clk); tx_ventureId := v;
         tx_type := contribution; tx_username := jr_username req;
         tx_amount := jr_pitch req; tx_description := "Pledge on joining";
         tx_timestamp := iso clk |} :: ledgerOf w v
  ∧ membersOf w' v
    = (if existsb (fun m => bool_decide (m_id m = m_id (memberFor req))) (membersOf w v)
       then membersOf w v
       else membersOf w v ++ [memberFor req]).
Proof.
  intros Hu Hne Hpitch w'. subst w'.
  unfold perform.
  destruct (decide_with_pledge clk req u w Hu Hne Hpitch) as (title & body & text & ->).
  unfold balanceOf, pledgesOf, ledgerOf, membersOf, WalletStore64.getBalance,
    getPledgesForVenture, getVentureTxs, getMembersForVenture.
  simpl.
  match goal with
  | |- context [existsb ?f ?l] => destruct (existsb f l)
  end; simpl; rewrite ?lookup_insert_eq, ?getOrCreateWallet64_insert; simpl; done.
Qed.

(** X14.  Nothing stops a second approval of the same request.  Roster
    and pledge are guarded: the member is added once and one pledge record
    of one pitch is left.  Wallet and ledger are not: the requester is
    debited again, from b1 = max(0, b - p) to max(0, b1 - p), and the ledger
    shows two contributions of p. *)
Theorem second_approval_charges_again clk clk' rnd rnd' req u w :
  jr_authUsername req = Some u → u ≠ "" →
  (0 <? jr_pitch req) = true →
  m_id (memberFor req) ∉ map m_id (membersOf w v) →
  let w1 := perform clk rnd (decide scr clk numberToString req Approved) w in
  let w2 := perform clk' rnd' (decide scr clk' numberToString req Approved) w1 in
  balanceOf w1 u = Math_max 0 (balanceOf w u - jr_pitch req)
  ∧ balanceOf w2 u = Math_max 0 (balanceOf w1 u - jr_pitch req)
  ∧ List.filter (is_user64 u) (pledgesOf w2 v)
    = [ {| p_authUsername := u; p_displayName := jr_username req;
           p_amount := jr_pitch req; p_ventureId := v |} ]
  ∧ membersOf w2 v = membersOf w v ++ [memberFor req]
  ∧ (∃ tx1 tx2, ledgerOf w2 v = tx2 :: tx1 :: ledgerOf w v
                ∧ tx_type tx1 = contribution ∧ tx_amount tx1 = jr_pitch req
                ∧ tx_type tx2 = contribution ∧ tx_amount tx2 = jr_pitch req).
Proof.
  intros Hu Hne Hpitch Hfresh w1 w2.
  destruct (approval64_effect clk rnd req u w Hu Hne Hpitch)
    as (Hbal1 & Hpl1 & Hled1 & Hmem1).
  destruct (approval64_effect clk' rnd' req u w1 Hu Hne Hpitch)
    as (Hbal2 & Hpl2 & Hled2 & Hmem2).
  fold w1 in Hbal1, Hpl1, Hled1, Hmem1, Hbal2, Hpl2, Hled2, Hmem2.
  fold w2 in Hbal2, Hpl2, Hled2, Hmem2.
  rewrite (fresh_id_is_new _ _ Hfresh) in Hmem1.
  split; [exact Hbal1 |]. split; [exact Hbal2 |].
  split; [rewrite Hpl2; by apply filter64_after_record |].
  split.
  - rewrite Hmem2, Hmem1, existsb_app. simpl.
    rewrite bool_decide_eq_true_2 by done. by rewrite orb_true_r.
  - do 2 eexists. rewrite Hled2, Hled1. done.
Qed.

(** The calls of removing the member an approval with pledge made. *)
Lemma leave64_after_approval clk clk' rnd req u w :
  jr_authUsername req = Some u → u ≠ "" → (0 <? jr_pitch req) = true →
  let w1 := perform clk rnd (decide scr clk numberToString req Approved) w in
  ∃ text,
    removeAndRefund scr clk' numberToString (memberFor req) w1
    = [ ToVentures (REMOVE_MEMBER v (m_id (memberFor req)));
        ToWallet (WalletStore64.TOPUP u (jr_pitch req)
                    ("Refund from " +:+ v_name (venture scr)));
        ToVentures (REMOVE_PLEDGE v u);
        ToVentures (ADD_VENTURE_TX v
          {| tx_id := "tx-refund-" +:+ show (now clk'); tx_ventureId := v;
             tx_type := refund; tx_username := jr_username req;
             tx_amount := jr_pitch req;
             tx_description := "Refund on leaving/removal";
             tx_timestamp := iso clk' |});
        EmitActivity v ActivityStore.member_joined text ].
Proof.
  intros Hu Hne Hpitch w1.
  destruct (approval64_effect clk rnd req u w Hu Hne Hpitch) as (_ & Hpl1 & _).
  fold w1 in Hpl1.
  unfold removeAndRefund, handleMemberRefund, memberFor.
  cbn [m_authUsername m_id m_username].
  rewrite Hu, (truthy_account u Hne). fold v.
  unfold pledgesOf in Hpl1. rewrite Hpl1.
  rewrite find64_after_record by done. cbn [p_amount].
  rewrite (positive_not_le0 _ Hpitch). by eexists.
Qed.

(** X15.  Joining with a pledge and leaving again clears roster and pledge
    and credits the member the same p that was debited, so the balance ends
    at max(0, b - p) + p as double arithmetic evaluates it.  The books of
    the venture are not restored: the contribution and the refund are both
    entered with the positive amount p, and the balance the wallet tab
    shows is the old ledger summed on top of (0 + p) + p. *)
Theorem join_then_leave_books_two_inflows clk clk' rnd rnd' req u w :
  jr_authUsername req = Some u → u ≠ "" →
  (0 <? jr_pitch req) = true →
  m_id (memberFor req) ∉ map m_id (membersOf w v) →
  let w1 := perform clk rnd (decide scr clk numberToString req Approved) w in
  let w2 := perform clk' rnd' (removeAndRefund scr clk' numberToString (memberFor req)) w1 in
  balanceOf w1 u = Math_max 0 (balanceOf w u - jr_pitch req)
  ∧ balanceOf w2 u = balanceOf w1 u + jr_pitch req
  ∧ List.filter (is_user64 u) (pledgesOf w2 v) = []
  ∧ membersOf w2 v = membersOf w v
  ∧ (∃ c r, ledgerOf w2 v = r :: c :: ledgerOf w v
            ∧ tx_type c = contribution ∧ tx_amount c = jr_pitch req
            ∧ tx_type r = refund ∧ tx_amount r = jr_pitch req)
  ∧ ventureBalance w2 v
    = fold_left (fun sum t => sum + tx_amount t) (ledgerOf w v)
                (0 + jr_pitch req + jr_pitch req).
Proof.
  intros Hu Hne Hpitch Hfresh w1 w2.
  destruct (approval64_effect clk rnd req u w Hu Hne Hpitch)
    as (Hbal1 & Hpl1 & Hled1 & Hmem1).
  fold w1 in Hbal1, Hpl1, Hled1, Hmem1.
  rewrite (fresh_id_is_new _ _ Hfresh) in Hmem1.
  split; [exact Hbal1 |].
  subst w2. unfold perform at 1 2 3 4 5.
  destruct (leave64_after_approval clk clk' rnd req u w Hu Hne Hpitch) as (text & Hleave).
  fold w1 in Hleave. rewrite Hleave. clear Hleave.
  unfold balanceOf, pledgesOf, ledgerOf, membersOf, ventureBalance,
    WalletStore64.getBalance, getPledgesForVenture, getVentureTxs,
    getMembersForVenture in *.
  simpl. rewrite !lookup_insert_eq, getOrCreateWallet64_insert. simpl.
  split; [done |].
  split; [apply filter64_user_gone |].
  split.
  { rewrite Hmem1, List.filter_app. simpl.
    rewrite bool_decide_eq_true_2 by done. simpl.
    rewrite app_nil_r. by apply fresh_id_is_kept. }
  rewrite Hled1. split; [by do 2 eexists |]. done.
Qed.

End Decide.

(** *** Settlement on completion *)

Lemma runFrom_app clk rnd k w (ds1 ds2 : list Dispatch) :
  runFrom clk rnd k w (ds1 ++ ds2)
  = runFrom clk rnd (k + length ds1) (runFrom clk rnd k w ds1) ds2.
Proof.
  revert k w. induction ds1 as [| d ds1 IH]; intros k w; simpl.
  - by rewrite Nat.add_0_r.
  - rewrite IH. by rewrite Nat.add_succ_r.
Qed.

(** Pledges that survive the removal of every user of [qs]. *)
Local Abbreviation survives64 qs :=
  (fun p => forallb (fun q => negb (bool_decide (p_authUsername p = p_authUsername q))) qs).

Lemma filter_survives64_nil (ps : list Pledge) :
  List.filter (survives64 []) ps = ps.
Proof. induction ps as [| p ps IH]; simpl; [done |]. f_equal. exact IH. Qed.

Lemma filter_survives64_cons (q : Pledge) (qs ps : list Pledge) :
  List.filter (survives64 qs) (List.filter (not_user64 (p_authUsername q)) ps)
  = List.filter (survives64 (q :: qs)) ps.
Proof.
  induction ps as [| p ps IH]; simpl; [done |].
  destruct (bool_decide (p_authUsername p = p_authUsername q)); simpl; [done |].
  destruct (forallb _ qs); simpl; by rewrite IH.
Qed.


Section Settlement.
Variable scr : Screen.
Variable clk : Clock.
Variable rnd : nat -> string.
Variable numberToString : float -> string.

(** The amounts the payout loop enters, in pledge order: the payouts above
    zero. *)
Local Abbreviation payoutsAbove0 remaining totalPledged ps :=
  (List.filter (fun a => 0 <? a)
     (map (fun p => refundAmountOf remaining p totalPledged) ps)).

(** One payout writes to the wallets and to the ledger of the venture
    only; the ledger gains the payout, when it is above zero, as a
    cashout. *)
Lemma payout64_frame ventureId remaining totalPledged (p : Pledge) k w :
  let w' := runFrom clk rnd k w
              (payoutFor scr clk numberToString ventureId remaining totalPledged p) in
  joinRequests (venturesState w') = joinRequests (venturesState w)
  ∧ pledges (venturesState w') = pledges (venturesState w)
  ∧ ventures (venturesState w') = ventures (venturesState w)
  ∧ members (venturesState w') = members (venturesState w)
  ∧ activityState w' = activityState w
  ∧ notifications w' = notifications w
  ∧ ∃ added,
      ledgerOf w' ventureId = added ++ ledgerOf w ventureId
      ∧ map tx_amount added = payoutsAbove0 remaining totalPledged [p]
      ∧ Forall (fun t => tx_type t = cashout) added.
Proof.
  unfold payoutFor. simpl.
  destruct (0 <? refundAmountOf remaining p totalPledged); simpl;
    [| repeat split; try done; by exists []].
  destruct (isLoggedInAs scr (p_authUsername p)); simpl.
  all: repeat split; try done.
  all: eexists [_]; unfold ledgerOf, getVentureTxs; simpl; rewrite lookup_insert_eq.
  all: split; [done |]; split; [done |]; by apply Forall_singleton.
Qed.

(** ... and so does the whole payout loop, newest entry first. *)
Lemma payouts64_frame ventureId remaining totalPledged (ps : list Pledge) :
  ∀ k w,
    let w' := runFrom clk rnd k w
                (flat_map (payoutFor scr clk numberToString ventureId remaining totalPledged)
                          ps) in
    joinRequests (venturesState w') = joinRequests (venturesState w)
    ∧ pledges (venturesState w') = pledges (venturesState w)
    ∧ ventures (venturesState w') = ventures (venturesState w)
    ∧ members (venturesState w') = members (venturesState w)
    ∧ activityState w' = activityState w
    ∧ notifications w' = notifications w
    ∧ ∃ added,
        ledgerOf w' ventureId = added ++ ledgerOf w ventureId
        ∧ map tx_amount (rev added) = payoutsAbove0 remaining totalPledged ps
        ∧ Forall (fun t => tx_type t = cashout) added.
Proof.
  induction ps as [| p ps IH]; intros k w.
  - simpl. repeat split; try done. by exists [].
  - cbn [flat_map]. rewrite runFrom_app.
    destruct (payout64_frame ventureId remaining totalPledged p k w)
      as (Hreq1 & Hpl1 & Hvs1 & Hms1 & Hact1 & Hnot1 & added1 & Hled1 & Hamt1 & Hty1).
    match goal with
    | |- context [runFrom clk rnd ?k1 ?w1 (flat_map _ ps)] =>
        destruct (IH k1 w1)
          as (Hreq & Hpl & Hvs & Hms & Hact & Hnot & added & Hled & Hamt & Hty)
    end.
    cbv zeta. rewrite Hreq, Hpl, Hvs, Hms, Hact, Hnot, Hreq1, Hpl1, Hvs1, Hms1, Hact1, Hnot1.
    repeat split; try done.
    exists (added ++ added1). split; [by rewrite Hled, Hled1, app_assoc |].
    split; [| by apply Forall_app].
    rewrite rev_app_distr, map_app, Hamt.
    assert (Hone : rev added1 = added1).
    { assert (Hlen : (length added1 ≤ 1)%nat).
      { rewrite <- (length_map tx_amount), Hamt1. simpl.
        destruct (0 <? _); simpl; lia. }
      destruct added1 as [| t [| t' added1]]; simpl in *; [done | done | lia]. }
    rewrite Hone, Hamt1. simpl.
    by destruct (0 <? refundAmountOf remaining p totalPledged).
Qed.

Lemma removals64_frame ventureId (qs : list Pledge) :
  ∀ k w,
    let w' := runFrom clk rnd k w
                (map (fun p => ToVentures (REMOVE_PLEDGE ventureId (p_authUsername p))) qs) in
    joinRequests (venturesState w') = joinRequests (venturesState w)
    ∧ ventureTxs (venturesState w') = ventureTxs (venturesState w)
    ∧ ventures (venturesState w') = ventures (venturesState w)
    ∧ members (venturesState w') = members (venturesState w)
    ∧ walletState w' = walletState w
    ∧ activityState w' = activityState w
    ∧ notifications w' = notifications w
    ∧ pledgesOf w' ventureId = List.filter (survives64 qs) (pledgesOf w ventureId).
Proof.
  induction qs as [| q qs IH]; intros k w; cbn [map].
  - repeat split; try done. simpl. by rewrite filter_survives64_nil.
  - cbn [runFrom].
    match goal with
    | |- context [runFrom clk rnd ?k1 ?w1 (map _ qs)] =>
        destruct (IH k1 w1) as (Hreq & Htx & Hvs & Hms & Hwal & Hact & Hnot & Hpl)
    end.
    cbv zeta. rewrite Hreq, Htx, Hvs, Hms, Hwal, Hact, Hnot, Hpl.
    clear Hreq Htx Hvs Hms Hwal Hact Hnot Hpl.
    repeat split; try done.
    unfold pledgesOf, getPledgesForVenture. simpl. rewrite lookup_insert_eq.
    simpl. apply filter_survives64_cons.
Qed.


End Settlement.


(** X18.  Settlement enters nothing in the ledger but the payouts: each
    payout above zero becomes a cashout entry carrying that positive amount,
    newest first in pledge order, on top of the ledger as it was; with
    nothing remaining or nothing pledged the ledger is untouched.  No entry
    carries a negative amount, so the balance the wallet tab sums from the
    ledger counts every payout as money coming in. *)
Theorem settlement_books_payouts_as_inflow scr clk rnd show ventureId w :
  let ps := pledgesOf w ventureId in
  let totalPledged := sum_by p_amount ps in
  let remaining := remainingOf (storedTxs ventureId) in
  let w' := perform clk rnd (handleVentureCompletion scr clk show ventureId) w in
  ∃ added,
    ledgerOf w' ventureId = added ++ ledgerOf w ventureId
    ∧ map tx_amount (rev added)
      = (if (0 <? remaining) && (0 <? totalPledged)
         then List.filter (fun a => 0 <? a)
                (map (fun p => refundAmountOf remaining p totalPledged) ps)
         else [])
    ∧ Forall (fun t => tx_type t = cashout ∧ (0 <? tx_amount t) = true) added
    ∧ ventureBalance w' ventureId
      = fold_left (fun sum t => sum + tx_amount t) (ledgerOf w ventureId)
                  (sum_by tx_amount added).
Proof.
  intros ps totalPledged remaining w'.
  assert (Hledger : ∃ added,
    ledgerOf w' ventureId = added ++ ledgerOf w ventureId
    ∧ map tx_amount (rev added)
      = (if (0 <? remaining) && (0 <? totalPledged)
         then List.filter (fun a => 0 <? a)
                (map (fun p => refundAmountOf remaining p totalPledged) ps)
         else [])
    ∧ Forall (fun t => tx_type t = cashout) added).
  { subst w'. unfold perform, run, handleVentureCompletion. rewrite !runFrom_app.
    fold (pledgesOf w ventureId). fold ps. fold totalPledged. fold remaining.
    match goal with
    | |- context [runFrom clk rnd ?k2 (runFrom clk rnd ?k1 ?w1 (map _ ?qs)) [_]] =>
        destruct (removals64_frame clk rnd ventureId qs k1 w1)
          as (_ & Htx & _)
    end.
    cbv zeta in Htx. unfold ledgerOf, getVentureTxs.
    cbn [runFrom dispatch venturesState]. rewrite Htx. clear Htx.
    destruct ((0 <? remaining) && (0 <? totalPledged)).
    - match goal with
      | |- context [runFrom clk rnd ?k0 ?w0 (flat_map (payoutFor _ _ _ ?v ?r ?t) ?qs)] =>
          destruct (payouts64_frame scr clk rnd show v r t qs k0 w0)
            as (_ & _ & _ & _ & _ & _ & added & Hled & Hamt & Hty)
      end.
      exists added. by repeat split.
    - exists []. by repeat split. }
  destruct Hledger as (added & Hled & Hamt & Hty).
  exists added. split; [exact Hled |]. split; [exact Hamt |]. split.
  - apply Forall_forall. intros t Ht. split; [by eapply Forall_forall in Hty |].
    assert (Hin : In (tx_amount t) (map tx_amount (rev added))).
    { apply in_map, in_rev. rewrite rev_involutive. by apply list_elem_of_In. }
    rewrite Hamt in Hin. destruct (_ && _); [| done].
    by apply filter_In in Hin as [_ Hpos].
  - unfold ventureBalance. fold (ledgerOf w' ventureId). rewrite Hled.
    unfold sum_by. by rewrite fold_left_app.
Qed.

(** *** Contributing from the wallet tab *)

(** X19.  A contribution of an amount above zero that the logged-in user's
    balance is not below debits that wallet to max(0, b - amount), puts one
    contribution entry of the amount on top of the venture's ledger, so that
    the wallet tab shows the old ledger summed on top of 0 + amount, and
    records no pledge, no member and no notification.  With an amount that
    is zero, NaN or not above zero, with a balance below the amount, or with
    nobody logged in, nothing at all is written. *)
Theorem contribution_debits_and_books_the_amount scr clk rnd show amount w :
  let v := v_id (venture scr) in
  let w' := perform clk rnd (handleContribute scr clk show amount) w in
  (∀ u, authUser scr = Some u →
        (0 <? amount) = true →
        (balanceOf w (username u) <? amount) = false →
        balanceOf w' (username u) = Math_max 0 (balanceOf w (username u) - amount)
        ∧ (∃ tx, ledgerOf w' v = tx :: ledgerOf w v
                 ∧ tx_type tx = contribution ∧ tx_amount tx = amount)
        ∧ ventureBalance w' v
          = fold_left (fun sum t => sum + tx_amount t) (ledgerOf w v) (0 + amount)
        ∧ pledges (venturesState w') = pledges (venturesState w)
        ∧ members (venturesState w') = members (venturesState w)
        ∧ notifications w' = notifications w)
  ∧ (truthyNumber amount = false ∨ (amount <=? 0) = true → w' = w)
  ∧ (∀ u, authUser scr = Some u → (balanceOf w (username u) <? amount) = true → w' = w)
  ∧ (authUser scr = None → w' = w).
Proof.
  intros v w'. subst v w'. unfold perform, handleContribute.
  split; [| split; [| split]].
  - intros u Hu Hpos Hcovered. rewrite Hu.
    rewrite (positive_truthy _ Hpos), (positive_not_le0 _ Hpos).
    unfold balanceOf in Hcovered. cbn [negb orb]. rewrite Hcovered.
    unfold balanceOf, ledgerOf, ventureBalance, WalletStore64.getBalance, getVentureTxs.
    simpl. rewrite lookup_insert_eq, getOrCreateWallet64_insert. simpl.
    repeat split; try done. by eexists.
  - intros [Hfalsy | Hle].
    + by rewrite Hfalsy.
    + by rewrite Hle, orb_true_r.
  - intros u Hu Hshort. rewrite Hu. unfold balanceOf in Hshort. rewrite Hshort.
    by destruct (_ || _).
  - intros Hnobody. rewrite Hnobody.
    destruct (truthyNumber amount) eqn:Htruthy; [| done].
    destruct (amount <=? 0) eqn:Hle; [done |].
    cbn [negb orb]. by rewrite (truthy_not_le0_positive _ Htruthy Hle).
Qed.

End DoubleFacts.

(** *** The scenarios *)

Section DoubleScenarios.
Import PrimFloat JSNumber.
Import MockData (proposed, ongoing, finished, pending, approved, denied,
  contribution, purchase, cashout, refund).
Import MockData64.
Import VenturesStore (VentureMember, m_id, m_username, m_authUsername, m_role,
  m_privilege, m_isOwner, Decision, Approved, Denied, statusOf).
Import VenturesStore64.
Import VentureDetail (AppUser, username, displayName).
Import VentureDetail64 Scenario64.
Local Open Scope float_scope.
#[local] Set Warnings "-inexact-float".



(** GreenCorp pitched 2000 without an account: approving the request adds a
    sponsor to v1's roster and collects nothing. *)
Lemma decision_without_pledge_moves_no_money_witness :
  let scr := screenOn start "v1" abhijeet in
  let w' := perform (at_ 1) rnd (decide scr (at_ 1) numberToString greenCorp Approved) start in
  jr_pitch greenCorp = 2000
  ∧ map m_username (membersOf w' "v1")
    = map m_username (membersOf start "v1") ++ ["GreenCorp Ltd."]
  ∧ walletState w' = walletState start
  ∧ ventureTxs (venturesState w') = ventureTxs (venturesState start)
  ∧ length (notifications w') = S (length (notifications start)).
Proof.
  intros scr w'. split; [reflexivity |]. split; [reflexivity |].
  destruct (decision_without_pledge_moves_no_money scr numberToString (at_ 1) rnd
              greenCorp Approved start)
    as (Hwallet & Hledger & _ & _ & _ & _ & (n & Hnotif & _) & _).
  - right. right. reflexivity.
  - split; [exact Hwallet |]. split; [exact Hledger |].
    fold w' in Hnotif. by rewrite Hnotif.
Defined.

(** abhijeet approves priya's request on v9 (pitch 256.1) twice. *)
Lemma second_approval_charges_again_witness :
  let scr := screenOn priyaAsksV9 "v9" abhijeet in
  let req := requestSentAt priyaAsksV9 "v9" 3 in
  let w1 := perform (at_ 4) rnd (decide scr (at_ 4) numberToString req Approved) priyaAsksV9 in
  let w2 := perform (at_ 5) rnd (decide scr (at_ 5) numberToString req Approved) w1 in
  balanceOf priyaAsksV9 "priya" = 2047.8
  ∧ balanceOf w2 "priya" = 2047.8 - 256.1 - 256.1
  ∧ map p_amount (pledgesOf w2 "v9") = [256.1]
  ∧ map tx_amount (ledgerOf w2 "v9") = [256.1; 256.1].
Proof.
  intros scr req w1 w2. split; [reflexivity |].
  destruct (second_approval_charges_again scr numberToString (at_ 4) (at_ 5) rnd rnd
              req "priya" priyaAsksV9)
    as (Hbal1 & Hbal2 & _); [reflexivity | done | reflexivity | |].
  - apply (bool_decide_unpack _). vm_compute. exact I.
  - split; [| split; reflexivity].
    subst w2 w1. rewrite Hbal2, Hbal1. reflexivity.
Defined.

(** priya joins v9 with a pledge of 256.1 and is removed again. *)
Lemma join_then_leave_books_two_inflows_witness :
  let scr := screenOn priyaAsksV9 "v9" abhijeet in
  let req := requestSentAt priyaAsksV9 "v9" 3 in
  let w1 := perform (at_ 4) rnd (decide scr (at_ 4) numberToString req Approved) priyaAsksV9 in
  let w2 := perform (at_ 5) rnd
              (removeAndRefund scr (at_ 5) numberToString (memberFor req)) w1 in
  membersOf w2 "v9" = membersOf priyaAsksV9 "v9"
  ∧ ventureBalance priyaAsksV9 "v9" = 0
  ∧ ventureBalance w2 "v9" = 256.1 + 256.1
  ∧ balanceOf w2 "priya" = 2047.7999999999997.
Proof.
  intros scr req w1 w2.
  destruct (join_then_leave_books_two_inflows scr numberToString (at_ 4) (at_ 5) rnd rnd
              req "priya" priyaAsksV9)
    as (Hbal1 & Hbal2 & _ & Hroster & _ & Hbooks); [reflexivity | done | reflexivity | |].
  - apply (bool_decide_unpack _). vm_compute. exact I.
  - split; [exact Hroster |]. split; [reflexivity |].
    change (v_id (venture scr)) with "v9" in Hbooks.
    split; [subst w2 w1; rewrite Hbooks; reflexivity |].
    subst w2 w1. rewrite Hbal2, Hbal1. reflexivity.
Defined.

(** abhijeet (5000) contributes 500 to v1. *)
Lemma contribution_debits_and_books_the_amount_witness :
  let scr := screenOn start "v1" abhijeet in
  let w' := perform (at_ 1) rnd (handleContribute scr (at_ 1) numberToString 500) start in
  balanceOf w' "abhijeet" = 4500
  ∧ ventureBalance start "v1" = 2750
  ∧ ventureBalance w' "v1" = 3250.
Proof.
  intros scr w'.
  destruct (contribution_debits_and_books_the_amount scr (at_ 1) rnd numberToString
              500 start) as (Hgoes & _).
  destruct (Hgoes abhijeet) as (Hbal & _ & Hbooks & _); [reflexivity .. |].
  change (username abhijeet) with "abhijeet" in Hbal.
  change (v_id (venture scr)) with "v1" in Hbooks.
  split; [subst w'; rewrite Hbal; reflexivity |].
  split; [reflexivity |].
  subst w'. rewrite Hbooks. reflexivity.
Defined.

End DoubleScenarios.

(* ------------------------------------------------------------------ *)
(** ** The cart screen in double precision *)

Section CheckoutFacts64.
Import PrimFloat JSNumber.
Import MockData64 VenturesStore64.
Import VentureDetail (AppUser, username, displayName).
Import VentureDetail64 (venturesState, walletState, activityState, notifications).
Import CartScreen64.
Local Open Scope float_scope.
#[local] Arguments sum_by : simpl never.

Variable toLowerCase : string → string.
Variable str_includes : string → string → bool.
Variable numberToString : float → string.
Variable cartAuthUser : option AppUser.

Local Abbreviation myVentures := (CartScreen64.myVentures toLowerCase str_includes cartAuthUser).
Local Abbreviation selectedWallet :=
  (CartScreen64.selectedWallet toLowerCase str_includes cartAuthUser).
Local Abbreviation hasEnoughFunds :=
  (CartScreen64.hasEnoughFunds toLowerCase str_includes cartAuthUser).
Local Abbreviation handleCheckout :=
  (CartScreen64.handleCheckout toLowerCase str_includes numberToString cartAuthUser).

Lemma selectedWallet64_is_a_venture key s o :
  key ≠ "personal" →
  selectedWallet key s = Some o →
  wo_balance o = getVentureBalance s key
  ∧ ∃ v, v ∈ myVentures s ∧ v_id v = key ∧ wo_label o = v_name v.
Proof.
  intros Hkey. unfold CartScreen64.selectedWallet, walletOptions.
  cbn [List.find wo_key].
  rewrite bool_decide_eq_false_2 by done.
  induction (myVentures s) as [| v vs IH]; cbn [map List.find]; [done |].
  cbn [wo_key].
  destruct (bool_decide (v_id v = key)) eqn:Hv.
  - apply bool_decide_eq_true in Hv. intros [= <-]. simpl. rewrite Hv.
    split; [done |]. exists v. split; [apply list_elem_of_here | done].
  - intros Hfind. destruct (IH Hfind) as (Hbal & v' & Hin & Hid).
    split; [done |]. exists v'. split; [by apply list_elem_of_further | done].
Qed.

Lemma nothing_left_after_venture_checkout64 key (cart : CartStore64.State) :
  List.filter (fun i => bool_decide (CartStore64.ci_ventureId i = Some key))
    (List.filter (fun i => bool_decide (CartStore64.ci_status i = CartStore.pending))
       (CartStore64.items (CartStore64.reducer cart (CartStore64.CHECKOUT_VENTURE key))))
  = [].
Proof.
  simpl. induction (CartStore64.items cart) as [| i l IH]; simpl; [done |].
  destruct (bool_decide (CartStore64.ci_ventureId i = Some key)) eqn:Hv;
    destruct (bool_decide (CartStore64.ci_status i = CartStore.pending)) eqn:Hs;
    simpl; rewrite ?Hs, ?Hv; simpl; rewrite ?Hv; done.
Qed.

(** X23.  A checkout of a positive total against a venture's wallet that
    goes through is authorised and covered, and is booked as one purchase:
    the venture is one of the user's wallet options (a proposed or ongoing
    venture of which the user is owner, co-owner or buyer), the total is the
    subtotal of the venture's pending lines plus the delivery charge of 50,
    the total does not exceed the venture's balance (the sum of its ledger),
    the ledger gains exactly one purchase entry of minus the total on top,
    so that the balance shown afterwards is the old ledger summed on from
    minus the total; no personal wallet and no activity feed is touched, one
    notification that the order was placed is added for the venture, and
    afterwards the venture has nothing pending to check out again. *)
Theorem venture_checkout_is_authorised_and_booked key s clk rnd :
  key ≠ "personal" →
  handleCheckout key s clk ≠ [] →
  (0 <? CartScreen64.total key s) = true →
  let s' := perform clk rnd (fun s => handleCheckout key s clk) s in
  let total := CartScreen64.total key s in
  (∃ v, v ∈ myVentures s ∧ v_id v = key)
  ∧ total = subtotal key s + 50
  ∧ (total <=? getVentureBalance s key) = true
  ∧ getVentureTxs (venturesState (base s')) key
    = {| tx_id := "tx-cart-" +:+ show (now clk); tx_ventureId := key;
         tx_type := MockData.purchase; tx_amount := - total;
         tx_description := "Supplies purchase"; tx_timestamp := iso clk;
         tx_username := default "Unknown" (displayName <$> cartAuthUser) |}
      :: getVentureTxs (venturesState (base s)) key
  ∧ getVentureBalance s' key
    = fold_left (fun sum tx => sum + tx_amount tx)
                (getVentureTxs (venturesState (base s)) key) (0 + - total)
  ∧ walletState (base s') = walletState (base s)
  ∧ activityState (base s') = activityState (base s)
  ∧ (∃ n, notifications (base s') = n :: notifications (base s)
          ∧ NotificationsStore.n_title n = "Order Placed"
          ∧ NotificationsStore.n_ventureId n = Some key)
  ∧ (∀ clk', handleCheckout key s' clk' = []).
Proof.
  intros Hkey Hgoes Hpos s' total.
  unfold CartScreen64.handleCheckout in Hgoes.
  destruct (hasItems key s) eqn:Hitems; [| done].
  destruct (hasEnoughFunds key s) eqn:Hfunds; [| done].
  clear Hgoes.
  assert (Htotal : total = subtotal key s + 50).
  { subst total. unfold CartScreen64.total, delivery. by rewrite Hitems. }
  pose proof Hfunds as Hcovered. unfold CartScreen64.hasEnoughFunds in Hcovered.
  destruct (selectedWallet key s) as [o |] eqn:Hsel;
    [| simpl in Hcovered; by rewrite (positive_not_le0 _ Hpos) in Hcovered].
  destruct (selectedWallet64_is_a_venture key s o Hkey Hsel) as (Hbal & v & Hv & Hid & _).
  simpl in Hcovered. rewrite Hbal in Hcovered.
  assert (Hs' : s' = run clk rnd s
            [ ToBase (VentureDetail64.ToVentures (ADD_VENTURE_TX key
                {| tx_id := "tx-cart-" +:+ show (now clk); tx_ventureId := key;
                   tx_type := MockData.purchase; tx_amount := - total;
                   tx_description := "Supplies purchase"; tx_timestamp := iso clk;
                   tx_username := default "Unknown" (displayName <$> cartAuthUser) |}));
              ToCart (CartStore64.CHECKOUT_VENTURE key);
              ToBase (VentureDetail64.AddNotification NotificationsStore.general
                        "Order Placed"
                        ("₹" +:+ numberToString total +:+ " paid from "
                         +:+ wo_label o
                         +:+ " wallet for " +:+ itemNames key s +:+ moreItems key s +:+ ".")
                        (Some key)) ]).
  { subst s'. unfold perform, CartScreen64.handleCheckout.
    rewrite Hitems, Hfunds, Hsel. simpl negb. simpl orb. cbv iota.
    by rewrite bool_decide_eq_false_2. }
  assert (Hledger : getVentureTxs (venturesState (base s')) key
    = {| tx_id := "tx-cart-" +:+ show (now clk); tx_ventureId := key;
         tx_type := MockData.purchase; tx_amount := - total;
         tx_description := "Supplies purchase"; tx_timestamp := iso clk;
         tx_username := default "Unknown" (displayName <$> cartAuthUser) |}
      :: getVentureTxs (venturesState (base s)) key).
  { rewrite Hs'. unfold getVentureTxs. simpl. by rewrite lookup_insert_eq. }
  split; [by exists v |]. split; [exact Htotal |]. split; [exact Hcovered |].
  split; [exact Hledger |].
  split; [unfold getVentureBalance, sum_by; rewrite Hledger; reflexivity |].
  split; [by rewrite Hs' |]. split; [by rewrite Hs' |].
  split.
  { rewrite Hs'. simpl. eexists. split; [reflexivity |]. done. }
  intros clk'. unfold CartScreen64.handleCheckout.
  replace (hasItems key s') with false; [done |].
  unfold hasItems, walletItems, pendingItems.
  rewrite (bool_decide_eq_false_2 (key = "personal")) by done.
  rewrite Hs'. cbn [run runFrom dispatch cartState].
  by rewrite nothing_left_after_venture_checkout64.
Qed.

End CheckoutFacts64.

Section CartScenarios64.
Import PrimFloat JSNumber.
Import MockData64 VenturesStore64.
Import VentureDetail64 (notifications).
Import Scenario64 CartScenario64 CartScreen64.
Local Open Scope float_scope.

(** abhijeet, owner of v1, pays the supplies in v1's cart (2 packs of bags
    at 80, 4 pairs of gloves at 45, delivery 50) from v1's wallet. *)
Lemma venture_checkout_is_authorised_and_booked_witness :
  let checkout s :=
    handleCheckout Examples.toLowerCase Examples.str_includes numberToString
                   (Some abhijeet) "v1" s (at_ 3) in
  let s' := perform (at_ 3) rnd checkout cartStores in
  total "v1" cartStores = 390
  ∧ getVentureBalance cartStores "v1" = 2750
  ∧ getVentureBalance s' "v1" = 2360
  ∧ NotificationsStore.n_body <$> head (notifications (base s'))
    = Some "₹390 paid from Sayaji Park Cleanup wallet for Trash Bags (Pack of 20), Heavy Duty Gloves.".
Proof.
  intros checkout s'. split; [reflexivity |]. split; [reflexivity |].
  destruct (venture_checkout_is_authorised_and_booked Examples.toLowerCase
              Examples.str_includes numberToString (Some abhijeet) "v1" cartStores
              (at_ 3) rnd) as (_ & _ & _ & _ & Hbooks & _).
  - done.
  - vm_compute. discriminate.
  - reflexivity.
  - split; [subst s' checkout; rewrite Hbooks; reflexivity |]. reflexivity.
Defined.

End CartScenarios64.
